(** * Deployment tools: the change analyzer and the git deployment script

    A shallow embedding of [deployment-tools/analyze-changes-ai.py] and
    [deployment-tools/gitDeploy.py].

    Python [str] values are modelled as [string], one [ascii] per
    character, read as a code point below 256; Python lists as [list],
    the [set] built by [get_git_changes] as a [gset string].  Calls of the [git] executable,
    file-system tests and file writes are calls of an oracle that the
    theorems quantify over. *)

From Stdlib Require Import String Ascii List ZArith Lia Bool.
From stdpp Require Import base gmap strings pretty.
Import ListNotations.

Local Open Scope string_scope.
Local Open Scope list_scope.
Local Open Scope nat_scope.

(* ===================================================================== *)
(** * Python string primitives *)
(* ===================================================================== *)

Module Py.

(** [str.isspace] on one character: TAB, LF, VT, FF, CR, the four
    separators FS GS RS US, the blank, NEL and the no-break space. *)
Definition is_space (c : ascii) : bool :=
  let n := nat_of_ascii c in
  ((9 <=? n) && (n <=? 13)) || ((28 <=? n) && (n <=? 32))
  || (n =? 133) || (n =? 160).

Fixpoint lstrip (s : string) : string :=
  match s with
  | EmptyString => EmptyString
  | String c s' => if is_space c then lstrip s' else s
  end.

Fixpoint rstrip (s : string) : string :=
  match s with
  | EmptyString => EmptyString
  | String c s' =>
      match rstrip s' with
      | EmptyString => if is_space c then EmptyString else String c EmptyString
      | r => String c r
      end
  end.

(** [s.strip()] *)
Definition strip (s : string) : string := rstrip (lstrip s).

(** [str.lower] on one character: the letters A to Z, and the capital
    letters of the upper half (all of 192 to 222 but the multiplication
    sign). *)
Definition lower_ascii (c : ascii) : ascii :=
  let n := nat_of_ascii c in
  if ((65 <=? n) && (n <=? 90))
     || ((192 <=? n) && (n <=? 222) && negb (n =? 215))
  then ascii_of_nat (n + 32) else c.

(** [s.lower()] *)
Fixpoint lower (s : string) : string :=
  match s with
  | EmptyString => EmptyString
  | String c s' => String (lower_ascii c) (lower s')
  end.

(** [s.startswith(p)] *)
Fixpoint startswith (s p : string) {struct p} : bool :=
  match p with
  | EmptyString => true
  | String a p' =>
      match s with
      | EmptyString => false
      | String b s' => Ascii.eqb a b && startswith s' p'
      end
  end.

(** [s.endswith(p)] *)
Definition endswith (s p : string) : bool :=
  let n := String.length s in
  let m := String.length p in
  (m <=? n) && String.eqb (String.substring (n - m) m s) p.

(** [k in s] for strings *)
Fixpoint contains (k s : string) : bool :=
  match s with
  | EmptyString => startswith EmptyString k
  | String _ s' => startswith s k || contains k s'
  end.

Definition cons_head (c : ascii) (l : list string) : list string :=
  match l with
  | [] => [String c EmptyString]
  | h :: t => String c h :: t
  end.

(** [s.split(sep)] for a non-empty separator.  [skip] counts the
    characters of a separator occurrence still to be consumed. *)
Fixpoint split_go (sep : string) (s : string) (skip : nat) : list string :=
  match s with
  | EmptyString => [EmptyString]
  | String c s' =>
      match skip with
      | S k => split_go sep s' k
      | O =>
          if startswith s sep
          then EmptyString :: split_go sep s' (String.length sep - 1)
          else cons_head c (split_go sep s' 0)
      end
  end.

Definition split (s sep : string) : list string := split_go sep s 0.

(** [s.split(sep, 1)] for a one-character separator. *)
Fixpoint split1 (s : string) (sep : ascii) : list string :=
  match s with
  | EmptyString => [EmptyString]
  | String c s' =>
      if Ascii.eqb c sep then [EmptyString; s']
      else match split1 s' sep with
           | h :: t => String c h :: t
           | [] => [String c EmptyString]
           end
  end.

(** [sep.join(l)] *)
Fixpoint join (sep : string) (l : list string) : string :=
  match l with
  | [] => EmptyString
  | [x] => x
  | x :: rest => x +:+ sep +:+ join sep rest
  end.

(** [s[:n]] and [s[n:]] for [n >= 0] *)
Definition take (n : nat) (s : string) : string := String.substring 0 n s.

Fixpoint drop (n : nat) (s : string) : string :=
  match n, s with
  | O, _ => s
  | S _, EmptyString => EmptyString
  | S k, String _ s' => drop k s'
  end.

(** The line feed, as a character and as a one-character string. *)
Definition lf : ascii := "010".
Definition LF : string := String lf EmptyString.

(** The text before the first line feed: the first line of a message. *)
Fixpoint first_line (s : string) : string :=
  match s with
  | EmptyString => EmptyString
  | String c s' => if Ascii.eqb c lf then EmptyString else String c (first_line s')
  end.

End Py.

(* ===================================================================== *)
(** * [os.path] on POSIX *)
(* ===================================================================== *)

Module OsPath.

(** [os.path.basename(p)]: the text after the last slash. *)
Definition basename (p : string) : string := List.last (Py.split p "/") EmptyString.

(** [os.path.join(a, b)] *)
Definition join (a b : string) : string :=
  if Py.startswith b "/" then b
  else if String.eqb a EmptyString || Py.endswith a "/" then a +:+ b
  else a +:+ "/" +:+ b.

Definition join3 (a b c : string) : string := join (join a b) c.

(** One step of the component loop of [normpath]; [acc] holds the kept
    components, most recent first. *)
Definition norm_step (initial_slashes : nat) (acc : list string) (comp : string)
  : list string :=
  if String.eqb comp EmptyString || String.eqb comp "." then acc
  else if negb (String.eqb comp "..")
          || ((initial_slashes =? 0) && match acc with [] => true | _ => false end)
          || match acc with h :: _ => String.eqb h ".." | [] => false end
       then comp :: acc
       else match acc with _ :: t => t | [] => [] end.

(** [os.path.normpath(p)] *)
Definition normpath (p : string) : string :=
  if String.eqb p EmptyString then "."
  else
    let initial_slashes :=
      if Py.startswith p "/"
      then if Py.startswith p "//" && negb (Py.startswith p "///") then 2 else 1
      else 0 in
    let comps := List.rev (fold_left (norm_step initial_slashes) (Py.split p "/") []) in
    let body := Py.join "/" comps in
    let res := match initial_slashes with
               | 0 => body
               | 1 => "/" +:+ body
               | _ => "//" +:+ body
               end in
    if String.eqb res EmptyString then "." else res.

(** [os.path.abspath(p)] with [cwd] the result of [os.getcwd()] *)
Definition abspath (cwd p : string) : string :=
  normpath (if Py.startswith p "/" then p else join cwd p).

End OsPath.

(* ===================================================================== *)
(** * [fnmatch.fnmatch] on POSIX *)
(* ===================================================================== *)

Module Fnmatch.

(** What [fnmatch.translate] emits for one pattern element.  [TSet]
    carries the members of a bracket expression as closed ranges (a single
    character [c] is the range [(c, c)]). *)
Inductive token : Type :=
| TStar
| TAny
| TLit (c : ascii)
| TSet (neg : bool) (items : list (ascii * ascii))
| TNever.

Definition chars := list ascii.

Definition hyphen : ascii := "-".
Definition bang : ascii := "!".
Definition rbracket : ascii := "]".

Definition code_lt (a b : ascii) : bool := nat_of_ascii a <? nat_of_ascii b.
Definition code_le (a b : ascii) : bool := nat_of_ascii a <=? nat_of_ascii b.

(** Cut [l] at its first [c]: the text before it and the text after it. *)
Fixpoint break_at (c : ascii) (l : chars) : option (chars * chars) :=
  match l with
  | [] => None
  | x :: l' =>
      if Ascii.eqb x c then Some ([], l')
      else match break_at c l' with
           | Some (pre, post) => Some (x :: pre, post)
           | None => None
           end
  end.

(** The body [pat[i:j]] of a bracket expression and the pattern after its
    closing bracket; [None] when the bracket is never closed.  A leading
    [!] and a [\]] right after it belong to the body. *)
Definition bracket_body (rest : chars) : option (chars * chars) :=
  let '(pre1, r1) :=
    match rest with
    | c :: r => if Ascii.eqb c bang then ([c], r) else ([], rest)
    | [] => ([], rest)
    end in
  let '(pre2, r2) :=
    match r1 with
    | c :: r => if Ascii.eqb c rbracket then ([c], r) else ([], r1)
    | [] => ([], r1)
    end in
  match break_at rbracket r2 with
  | Some (body, post) => Some (pre1 ++ pre2 ++ body, post)
  | None => None
  end.

Definition push_head (c : ascii) (l : list chars) : list chars :=
  match l with
  | [] => [[c]]
  | h :: t => (c :: h) :: t
  end.

(** The chunks between the hyphens that stand for ranges.  The search for
    the next hyphen skips [skip] characters: one (two after [!]) at the
    start of the body, two after a range hyphen. *)
Fixpoint chunk_go (l : chars) (skip : nat) : list chars :=
  match l with
  | [] => [[]]
  | c :: l' =>
      match skip with
      | S k => push_head c (chunk_go l' k)
      | O => if Ascii.eqb c hyphen then [] :: chunk_go l' 2
             else push_head c (chunk_go l' 0)
      end
  end.

(** [chunks[-1] += '-'] when the body ends in a range hyphen. *)
Fixpoint close_chunks (cs : list chars) : list chars :=
  match cs with
  | [] => []
  | [c] => [c]
  | [c; []] => [c ++ [hyphen]]
  | c :: rest => c :: close_chunks rest
  end.

(** Removal of the empty ranges, from the last boundary to the first. *)
Fixpoint merge_ranges (cs : list chars) : list chars :=
  match cs with
  | [] => []
  | c :: rest =>
      match merge_ranges rest with
      | [] => [c]
      | d :: ds =>
          if code_lt (List.hd hyphen d) (List.last c hyphen)
          then (List.removelast c ++ List.tl d) :: ds
          else c :: d :: ds
      end
  end.

Definition chunks_of (stuff : chars) : list chars :=
  let start := match stuff with
               | c :: _ => if Ascii.eqb c bang then 2 else 1
               | [] => 1
               end in
  merge_ranges (close_chunks (chunk_go stuff start)).

(** The class body as the regular-expression parser reads it: [Some c] is
    the (escaped) character [c], [None] a hyphen that joins two chunks. *)
Fixpoint joined (cs : list chars) : list (option ascii) :=
  match cs with
  | [] => []
  | [c] => map Some c
  | c :: rest => map Some c ++ None :: joined rest
  end.

Definition atom (a : option ascii) : ascii :=
  match a with Some c => c | None => hyphen end.

Fixpoint class_items (l : list (option ascii)) : list (ascii * ascii) :=
  match l with
  | [] => []
  | a :: l1 =>
      match l1 with
      | None :: l2 =>
          match l2 with
          | b :: l3 => (atom a, atom b) :: class_items l3
          | [] => [(atom a, atom a); (hyphen, hyphen)]
          end
      | _ => (atom a, atom a) :: class_items l1
      end
  end.

Definition class_token (stuff : chars) : token :=
  match joined (chunks_of stuff) with
  | [] => TNever
  | [Some c] => if Ascii.eqb c bang then TAny else TSet false [(c, c)]
  | Some c :: body =>
      if Ascii.eqb c bang then TSet true (class_items body)
      else TSet false (class_items (Some c :: body))
  | body => TSet false (class_items body)
  end.

(** [fnmatch.translate]: the loop over the pattern.  Every round consumes
    at least one character, so [length pat] rounds are enough. *)
Fixpoint translate_go (fuel : nat) (pat : chars) : list token :=
  match fuel with
  | O => []
  | S fuel' =>
      match pat with
      | [] => []
      | c :: rest =>
          if Ascii.eqb c "*" then TStar :: translate_go fuel' rest
          else if Ascii.eqb c "?" then TAny :: translate_go fuel' rest
          else if Ascii.eqb c "[" then
            match bracket_body rest with
            | None => TLit c :: translate_go fuel' rest
            | Some (stuff, post) => class_token stuff :: translate_go fuel' post
            end
          else TLit c :: translate_go fuel' rest
      end
  end.

Definition translate (pat : string) : list token :=
  let p := list_ascii_of_string pat in translate_go (List.length p) p.

Definition in_items (items : list (ascii * ascii)) (c : ascii) : bool :=
  existsb (fun r => code_le (fst r) c && code_le c (snd r)) items.

Definition token_ok (t : token) (c : ascii) : bool :=
  match t with
  | TStar => true
  | TAny => true
  | TLit x => Ascii.eqb x c
  | TSet neg items => xorb neg (in_items items c)
  | TNever => false
  end.

(** A full match of the translated pattern ([re.match] with the trailing
    [\Z]); a star takes any run of characters, line feeds and slashes
    included. *)
Fixpoint tmatch (ts : list token) (s : chars) : bool :=
  match ts with
  | [] => match s with [] => true | _ => false end
  | TStar :: ts' =>
      (fix star (s : chars) : bool :=
         tmatch ts' s || match s with [] => false | _ :: s' => star s' end) s
  | t :: ts' =>
      match s with
      | [] => false
      | c :: s' => token_ok t c && tmatch ts' s'
      end
  end.

(** [fnmatch.fnmatch(name, pat)]; [os.path.normcase] is the identity. *)
Definition fnmatch (name pat : string) : bool :=
  tmatch (translate pat) (list_ascii_of_string name).

End Fnmatch.

(* ===================================================================== *)
(** * How a Python process ends *)
(* ===================================================================== *)

(** The ways a script run ends: [main] returns, [sys.exit(code)] is
    reached, or an exception is never caught. *)
Inductive Termination : Type :=
| Returned
| SysExit (code : Z)
| Uncaught (exc : string).

(** The exit status the parent process observes; the interpreter ends
    with status 1 after an uncaught exception. *)
Definition exit_status (t : Termination) : Z :=
  match t with
  | Returned => 0%Z
  | SysExit code => code
  | Uncaught _ => 1%Z
  end.

(* ===================================================================== *)
(** * analyze-changes-ai.py *)
(* ===================================================================== *)

Module Analyzer.

(** ** class GitignoreParser *)

(** [self.sensitive_patterns], the list built in [__init__]. *)
Definition sensitive_patterns : list string :=
  [ "*_api_key*"; "*_apikey*"; "*_secret*"; "*_token*"; "*_password*";
    "*.pem"; "*.key"; "*.p12"; "*.pfx"; "*.jks";
    ".env*"; "*.env"; "env.*";
    "*credentials*.json"; "*secrets*.json";
    "GoogleService-Info.plist"; "google-services.json";
    "*.db"; "*.sqlite"; "*.sqlite3";
    "id_rsa*"; "id_dsa*"; "*.ppk"; "id_*.pub";
    ".aws/*"; "credentials"; "*.tfvars";
    "*.log"; "*.dump"; "npm-debug.log*"; "yarn-debug.log*";
    ".DS_Store"; "Thumbs.db" ].

(** [sensitive_keywords], the local list of [is_sensitive]. *)
Definition sensitive_keywords : list string :=
  [ "_secret"; "_password"; "_token"; "_key"; "credential";
    "private_"; "api_key"; "apikey" ].

Record GitignoreParser : Type := {
  repo_root : string;
  ignore_patterns : list string
}.

(** The glob pattern [_parse_gitignore_file] records for one stripped,
    non-comment line of a rule file found in [base_dir]. *)
Definition gitignore_pattern (base_dir line : string) : string :=
  if Py.startswith line "/"
  then OsPath.join base_dir (Py.drop 1 line)
  else OsPath.join3 base_dir "**" line.

(** What [_parse_gitignore_file] gets out of one rule file.  The loop
    [for line in f] appends each pattern inside the [try], so when the
    read raises midway the handler only prints a warning on the standard
    error: the patterns of the lines iterated until then stay in
    [self.ignore_patterns].  When [open] itself raises, no line has been
    iterated.

    [Whole content]: the loop reaches the end of the file, whose text is
    [content].  [Broken before]: [open] or the read raises, and [before]
    is the text of the lines the loop has iterated until then (empty when
    [open] raises). *)
Inductive RuleFile : Type :=
| Whole (content : string)
| Broken (before : string).

(** The text of the lines the loop iterates. *)
Definition iterated (file : RuleFile) : string :=
  match file with
  | Whole content => content
  | Broken before => before
  end.

(** [_parse_gitignore_file]: [content] is the text of the lines the loop
    iterates, [acc] the value of [self.ignore_patterns] before the call.
    Splitting at line feeds and stripping gives the lines the
    [for line in f] loop strips; the empty piece after a final line feed
    is skipped like a blank line. *)
Definition _parse_gitignore_file (content base_dir : string) (acc : list string)
  : list string :=
  fold_left
    (fun acc raw =>
       let line := Py.strip raw in
       if String.eqb line EmptyString || Py.startswith line "#" then acc
       else acc ++ [gitignore_pattern base_dir line])
    (Py.split content Py.LF) acc.

(** [_load_gitignore] over the directories [os.walk] visits that hold a
    [.gitignore]: each comes with what reading it gives.  A file whose
    read raises has its warning printed and loading goes on, with the
    patterns of the lines read before the failure kept. *)
Definition _load_gitignore (found : list (string * RuleFile)) : list string :=
  fold_left
    (fun acc entry => _parse_gitignore_file (iterated (snd entry)) (fst entry) acc)
    found [].

(** [GitignoreParser(repo_root)] *)
Definition new_parser (root : string) (found : list (string * RuleFile))
  : GitignoreParser :=
  {| repo_root := root; ignore_patterns := _load_gitignore found |}.

(** The body of the loop of [should_ignore] for one pattern. *)
Definition pattern_hits (abs_path pattern : string) : bool :=
  Fnmatch.fnmatch abs_path pattern
  || (Py.contains "**" pattern
      && match Py.split pattern "**" with
         | [p0; p1] => Py.startswith abs_path p0 && Py.endswith abs_path p1
         | _ => false
         end).

(** [should_ignore]; [cwd] is the working directory of the process, which
    [os.path.abspath] reads. *)
Definition should_ignore (cwd : string) (self : GitignoreParser) (file_path : string)
  : bool :=
  let abs_path := OsPath.abspath cwd file_path in
  existsb (pattern_hits abs_path) (ignore_patterns self).

(** [is_sensitive] *)
Definition is_sensitive (file_path : string) : bool :=
  let file_name := Py.lower (OsPath.basename file_path) in
  let file_path_lower := Py.lower file_path in
  existsb
    (fun pattern =>
       Fnmatch.fnmatch file_name (Py.lower pattern)
       || Fnmatch.fnmatch file_path_lower (Py.lower pattern))
    sensitive_patterns
  || existsb (fun keyword => Py.contains keyword file_name) sensitive_keywords.

(** ** get_git_changes *)

(** The lines of one query: [.stdout.strip().split('\n')]. *)
Definition query_lines (out : string) : list string :=
  Py.split (Py.strip out) Py.LF.

(** [get_git_changes]: the standard outputs of [git diff --name-only],
    [git diff --cached --name-only] and [git ls-files --others
    --exclude-standard], or [None] when one of the calls raises and the
    handler returns the empty list.  The [set] is a [gset], listed in the
    order [elements] gives. *)
Definition get_git_changes (outs : option (string * string * string)) : list string :=
  match outs with
  | None => []
  | Some (out_m, out_s, out_u) =>
      let modified := query_lines out_m in
      let staged := query_lines out_s in
      let untracked := query_lines out_u in
      let all : gset string := list_to_set (modified ++ staged ++ untracked) in
      List.filter (fun f => negb (String.eqb f EmptyString)) (elements all)
  end.

(** ** check_sensitive_files *)

Definition check_step (cwd : string) (gitignore_parser : GitignoreParser)
    (acc : list string * list string) (file : string) : list string * list string :=
  let '(sensitive_files, ignored_files) := acc in
  if should_ignore cwd gitignore_parser file
  then (sensitive_files, ignored_files ++ [file])
  else if is_sensitive file
       then (sensitive_files ++ [file], ignored_files)
       else (sensitive_files, ignored_files).

(** [check_sensitive_files]: the pair [(sensitive_files, ignored_files)]. *)
Definition check_sensitive_files (cwd : string) (files : list string)
    (gitignore_parser : GitignoreParser) : list string * list string :=
  fold_left (check_step cwd gitignore_parser) files ([], []).

(** [[f for f in files if f not in excluded]] *)
Definition without (excluded files : list string) : list string :=
  List.filter (fun f => negb (existsb (String.eqb f) excluded)) files.

(** The three lists of the classifier: the two [check_sensitive_files]
    returns, and the files [main] keeps once it has taken both of them
    out of [changed_files]. *)
Definition classify (cwd : string) (files : list string)
    (gitignore_parser : GitignoreParser)
  : list string * list string * list string :=
  let '(sensitive_files, ignored_files) :=
    check_sensitive_files cwd files gitignore_parser in
  (sensitive_files, ignored_files,
   without ignored_files (without sensitive_files files)).

(** ** main *)

(** What the run of [main] meets outside the process. *)
Record Env : Type := {
  cwd : string;
  git_root : string;
  gitignore_found : list (string * RuleFile);
  git_outputs : option (string * string * string);
  stdin_isatty : bool;
  (** the line [input] returns, [None] when it raises (end of input) *)
  response : option string;
  (** whether the append to [.gitignore] and the two writes under [/tmp]
      go through *)
  gitignore_append_ok : bool;
  prompt_write_ok : bool;
  analysis_write_ok : bool
}.

Inductive Excluded : Type :=
| Kept (changed_files : list string) (appended : bool)
| Failed (exc : string).

(** The handling of the sensitive files in [main]: the question asked on
    a terminal, the append to [.gitignore], and the removal of the
    sensitive files from [changed_files]. *)
Definition exclude_sensitive (e : Env) (changed_files sensitive_files : list string)
  : Excluded :=
  match sensitive_files with
  | [] => Kept changed_files false
  | _ =>
      if stdin_isatty e then
        match response e with
        | None => Failed "EOFError"
        | Some answer =>
            if String.eqb (Py.lower answer) "y" then
              if gitignore_append_ok e
              then Kept (without sensitive_files changed_files) true
              else Failed "OSError"
            else Kept changed_files false
        end
      else Kept (without sensitive_files changed_files) false
  end.

(** The removal of the ignored files that follows. *)
Definition exclude_ignored (changed_files ignored_files : list string) : list string :=
  match ignored_files with
  | [] => changed_files
  | _ => without ignored_files changed_files
  end.

(** What a run leaves behind: how it ended, the files it went on to
    analyse, and whether the sensitive files were appended to
    [.gitignore]. *)
Record Run : Type := {
  ended : Termination;
  analysed : list string;
  appended_to_gitignore : bool
}.

(** [main].  Between the filtering and the final test the script builds
    the categories, the prompt text, the title and the description from
    [changed_files]; those steps only compute text (the diffs are read
    inside a handler that catches everything), so the run can end early
    there only at the two file writes. *)
Definition main (e : Env) : Run :=
  let gitignore_parser := new_parser (git_root e) (gitignore_found e) in
  let changed_files := get_git_changes (git_outputs e) in
  match changed_files with
  | [] => {| ended := SysExit 1; analysed := []; appended_to_gitignore := false |}
  | _ =>
      let '(sensitive_files, ignored_files) :=
        check_sensitive_files (cwd e) changed_files gitignore_parser in
      match exclude_sensitive e changed_files sensitive_files with
      | Failed exc =>
          {| ended := Uncaught exc; analysed := []; appended_to_gitignore := false |}
      | Kept changed_files appended =>
          let changed_files := exclude_ignored changed_files ignored_files in
          let stop t :=
            {| ended := t; analysed := changed_files;
               appended_to_gitignore := appended |} in
          match changed_files with
          | [] => stop (SysExit 1)
          | _ =>
              if negb (prompt_write_ok e) then stop (Uncaught "OSError")
              else if negb (analysis_write_ok e) then stop (Uncaught "OSError")
              else match sensitive_files with
                   | [] => stop Returned
                   | _ => stop (SysExit 1)
                   end
          end
      end
  end.

End Analyzer.

(* ===================================================================== *)
(** * gitDeploy.py *)
(* ===================================================================== *)

Module GitDeploy.

(** ** Data *)

(** [subprocess.CompletedProcess], and the payload of
    [subprocess.CalledProcessError]. *)
Record CompletedProcess : Type := {
  returncode : Z;
  stdout : string;
  stderr : string
}.

(** [self.changes] once [check_git_status] has filled it. *)
Record ChangeSet : Type := {
  added : list string;
  modified : list string;
  deleted : list string;
  untracked : list string
}.

Definition no_changes : ChangeSet :=
  {| added := []; modified := []; deleted := []; untracked := [] |}.

(** [self.deployment_info] (its ['changes'] entry stays the empty dict). *)
Record DeploymentInfo : Type := {
  deployment_number : string;
  deployment_date : string;
  deployed_by : string;
  title : string;
  description : string
}.

(** [self.claude_analysis] once it is a dict. *)
Record Analysis : Type := {
  deployment_comment : string;
  summary : string;
  readme_updates : list string;
  gitignore_updates : list string;
  should_update_readme : bool;
  should_update_gitignore : bool
}.

(** The attributes of a [GitDeploymentScript].  [claude_analysis] is
    [None] while it is the empty string of [__init__]; [current_branch]
    and [deployment_info] are [None] while the attribute is not set. *)
Record Script : Type := {
  repo_root : string;
  changes : ChangeSet;
  claude_analysis : option Analysis;
  current_branch : option (option string);
  deployment_info : option DeploymentInfo
}.

(** How an f-string prints a value that may be [None]. *)
Definition fmt (o : option string) : string :=
  match o with Some s => s | None => "None" end.

(** ** check_git_status: the loop over the porcelain lines *)

(** The body of the loop for one line; [None] stands for the [IndexError]
    of [status_code[1]] on a line of one character. *)
Definition parse_status_line (c : ChangeSet) (line : string) : option ChangeSet :=
  if String.eqb line EmptyString then Some c
  else
    let status_code := Py.take 2 line in
    let file_path := Py.drop 3 line in
    match status_code with
    | String staged (String working _) =>
        if String.eqb status_code "??" then
          Some {| added := added c; modified := modified c; deleted := deleted c;
                  untracked := untracked c ++ [file_path] |}
        else if Ascii.eqb staged "M" || Ascii.eqb working "M" then
          Some {| added := added c; modified := modified c ++ [file_path];
                  deleted := deleted c; untracked := untracked c |}
        else if Ascii.eqb staged "A" || Ascii.eqb working "A" then
          Some {| added := added c ++ [file_path]; modified := modified c;
                  deleted := deleted c; untracked := untracked c |}
        else if Ascii.eqb staged "D" || Ascii.eqb working "D" then
          if negb (Ascii.eqb staged "D") then
            Some {| added := added c; modified := modified c;
                    deleted := deleted c ++ [file_path]; untracked := untracked c |}
          else Some c
        else Some c
    | _ => None
    end.

Fixpoint parse_status_lines (c : ChangeSet) (lines : list string) : option ChangeSet :=
  match lines with
  | [] => Some c
  | line :: rest =>
      match parse_status_line c line with
      | Some c' => parse_status_lines c' rest
      | None => None
      end
  end.

Definition count_changes (c : ChangeSet) : nat :=
  List.length (added c) + List.length (modified c)
  + List.length (deleted c) + List.length (untracked c).

(** ** parse_deployment_file: the loop over the lines of the log *)

Definition empty_info : DeploymentInfo :=
  {| deployment_number := ""; deployment_date := ""; deployed_by := "";
     title := ""; description := "" |}.

(** [line.split(':', 1)[1].strip()]; [None] stands for the [IndexError]
    of a line without a colon. *)
Definition field_value (line : string) : option string :=
  match Py.split1 line ":" with
  | _ :: v :: _ => Some (Py.strip v)
  | _ => None
  end.

Definition parse_info_line (d : DeploymentInfo) (line : string) : option DeploymentInfo :=
  if Py.startswith line "Deployment Number:" then
    match field_value line with
    | Some v => Some {| deployment_number := v; deployment_date := deployment_date d;
                        deployed_by := deployed_by d; title := title d;
                        description := description d |}
    | None => None
    end
  else if Py.startswith line "Deployment Date:" then
    match field_value line with
    | Some v => Some {| deployment_number := deployment_number d; deployment_date := v;
                        deployed_by := deployed_by d; title := title d;
                        description := description d |}
    | None => None
    end
  else if Py.startswith line "Deployed By:" then
    match field_value line with
    | Some v => Some {| deployment_number := deployment_number d;
                        deployment_date := deployment_date d;
                        deployed_by := v; title := title d;
                        description := description d |}
    | None => None
    end
  else if Py.startswith line "Title:" then
    match field_value line with
    | Some v => Some {| deployment_number := deployment_number d;
                        deployment_date := deployment_date d;
                        deployed_by := deployed_by d; title := v;
                        description := description d |}
    | None => None
    end
  else if Py.startswith line "Description:" then
    match field_value line with
    | Some v => Some {| deployment_number := deployment_number d;
                        deployment_date := deployment_date d;
                        deployed_by := deployed_by d; title := title d;
                        description := v |}
    | None => None
    end
  else Some d.

(** The loop: the record as it stands when the loop ends, and whether it
    ended without an exception. *)
Fixpoint parse_info_lines (d : DeploymentInfo) (lines : list string)
  : DeploymentInfo * bool :=
  match lines with
  | [] => (d, true)
  | line :: rest =>
      match parse_info_line d line with
      | Some d' => parse_info_lines d' rest
      | None => (d, false)
      end
  end.

(** The record [parse_deployment_file] builds from the text of the log. *)
Definition parse_deployment_content (content : string) : DeploymentInfo * bool :=
  parse_info_lines empty_info (Py.split content Py.LF).

(** The dict [analyze_with_deployment_log] stores in [claude_analysis]. *)
Definition analysis_of (d : DeploymentInfo) : Analysis :=
  {| deployment_comment := Py.take 72 (title d);
     summary := description d;
     readme_updates := [];
     gitignore_updates := [];
     should_update_readme := false;
     should_update_gitignore := false |}.

(** ** create_deployment_commit: the message *)

(** [commit_message]; [stamp] is [datetime.now()] formatted with
    ['%Y-%m-%d %H:%M:%S']. *)
Definition commit_message (self : Script) (stamp : string) : string :=
  match deployment_info self with
  | Some d =>
      if negb (String.eqb (title d) EmptyString)
      then "Deployment " +:+ deployment_number d +:+ ": " +:+ title d
      else match claude_analysis self with
           | Some a => deployment_comment a
           | None => "Automated deployment - " +:+ stamp
           end
  | None =>
      match claude_analysis self with
      | Some a => deployment_comment a
      | None => "Automated deployment - " +:+ stamp
      end
  end.

(** [full_message]; [branch] is the value of [self.current_branch] and
    [iso] is [datetime.now().isoformat()]. *)
Definition full_message (self : Script) (branch : option string) (stamp iso : string)
  : string :=
  commit_message self stamp +:+ Py.LF +:+ Py.LF
  +:+ "Branch: " +:+ fmt branch +:+ Py.LF
  +:+ "Automated by: gitDeploy.py" +:+ Py.LF
  +:+ "Timestamp: " +:+ iso +:+ Py.LF
  +:+ match deployment_info self with
      | Some d =>
          "Deployment Log: " +:+ deployment_number d +:+ Py.LF
          +:+ Py.LF +:+ "Summary: " +:+ description d +:+ Py.LF
      | None =>
          match claude_analysis self with
          | Some a => Py.LF +:+ "Summary: " +:+ summary a +:+ Py.LF
          | None => EmptyString
          end
      end.

(** ** The script and its surroundings *)

(** What one step of the script can come to: a value, [sys.exit(code)],
    or an exception on its way up. *)
Inductive Result (A : Type) : Type :=
| Ok (a : A)
| Exit (code : Z)
| Raise (exc : string).
Arguments Ok {A} a.
Arguments Exit {A} code.
Arguments Raise {A} exc.

Section Effects.

(** The state of everything outside the process: the repository, the
    remote, the file system, the clock. *)
Context {World : Type}.

(** [subprocess.run(cmd, capture_output=True, text=True)] before the
    return code is looked at. *)
Variable execute : list string -> World -> CompletedProcess * World.
(** [Path.exists()] *)
Variable path_exists : string -> World -> bool.
(** The files [Deployment_*.txt] of a directory, each with its [st_mtime]. *)
Variable glob_logs : string -> World -> list (string * Z).
(** The text of a file, or [None] when reading raises. *)
Variable read_text : string -> World -> option string.
(** [Path.write_text] *)
Variable write_text : string -> string -> World -> World.
(** [datetime.now().strftime(format)] and [datetime.now().isoformat()] *)
Variable strftime_now : string -> World -> string.
Variable isoformat_now : World -> string.
(** [Path.cwd()] *)
Variable getcwd : World -> string.

(** The world, the commands run so far, and the lines printed so far. *)
Record Trace : Type := {
  world : World;
  calls : list (list string);
  printed : list string
}.

Definition M (A : Type) : Type := Trace -> Result A * Trace.

#[local] Instance M_ret : MRet M := fun A a t => (Ok a, t).

#[local] Instance M_bind : MBind M := fun A B f m t =>
  match m t with
  | (Ok a, t') => f a t'
  | (Exit code, t') => (Exit code, t')
  | (Raise exc, t') => (Raise exc, t')
  end.

Definition print (line : string) : M unit := fun t =>
  (Ok tt, {| world := world t; calls := calls t; printed := printed t ++ [line] |}).

Definition sys_exit {A : Type} (code : Z) : M A := fun t => (Exit code, t).

Definition raise {A : Type} (exc : string) : M A := fun t => (Raise exc, t).

(** Read-only questions to the world. *)
Definition ask {A : Type} (q : World -> A) : M A := fun t => (Ok (q (world t)), t).

Definition modify_world (f : World -> World) : M unit := fun t =>
  (Ok tt, {| world := f (world t); calls := calls t; printed := printed t |}).

(** [try: body except Exception as e: handler(e)]; [SystemExit] is not an
    [Exception] and passes through. *)
Definition try_except {A : Type} (body : M A) (handler : string -> M A) : M A :=
  fun t =>
    match body t with
    | (Raise exc, t') => handler exc t'
    | r => r
    end.

Fixpoint for_each {A : Type} (l : list A) (body : A -> M unit) : M unit :=
  match l with
  | [] => mret tt
  | x :: rest => body x ;; for_each rest body
  end.

(** [subprocess.run(..., check=check)]: the right injection is the
    [CalledProcessError] raised when [check] is set and the command
    returned a non-zero code. *)
Definition subprocess_run (cmd : list string) (check : bool)
  : M (CompletedProcess + CompletedProcess) := fun t =>
  let '(result, w) := execute cmd (world t) in
  let t' := {| world := w; calls := calls t ++ [cmd]; printed := printed t |} in
  if check && negb (returncode result =? 0)%Z
  then (Ok (inr result), t')
  else (Ok (inl result), t').

(** [_run_command] *)
Definition _run_command (cmd : list string) (check : bool) : M (option string) :=
  r ← subprocess_run cmd check;
  match r with
  | inl result => mret (Some (Py.strip (stdout result)))
  | inr e =>
      if check then
        print ("Error running command: " +:+ Py.join " " cmd) ;;
        print ("Error: " +:+ stderr e) ;;
        sys_exit 1
      else mret None
  end.

(** The answer [cmd] gets in the world of [t], the trace once it has
    run, and the trace once [lines] are printed. *)
Definition answer (cmd : list string) (t : Trace) : CompletedProcess :=
  fst (execute cmd (world t)).

Definition after (cmd : list string) (t : Trace) : Trace :=
  {| world := snd (execute cmd (world t)); calls := calls t ++ [cmd];
     printed := printed t |}.

Definition say (lines : list string) (t : Trace) : Trace :=
  {| world := world t; calls := calls t; printed := printed t ++ lines |}.

(** Truth of a value that is [None] or a string. *)
Definition truthy (o : option string) : bool :=
  match o with
  | Some s => negb (String.eqb s EmptyString)
  | None => false
  end.

(** [_find_git_root], which calls [subprocess.run] with [check=True]
    itself. *)
Definition _find_git_root : M string :=
  r ← subprocess_run ["git"; "rev-parse"; "--show-toplevel"] true;
  match r with
  | inl result => mret (Py.strip (stdout result))
  | inr _ => print "Error: Not in a git repository" ;; sys_exit 1
  end.

(** [__init__]; the change of directory is left to the world. *)
Definition init : M Script :=
  root ← _find_git_root;
  mret {| repo_root := root; changes := no_changes; claude_analysis := None;
          current_branch := None; deployment_info := None |}.

Definition set_branch (self : Script) (b : option string) : Script :=
  {| repo_root := repo_root self; changes := changes self;
     claude_analysis := claude_analysis self;
     current_branch := Some b; deployment_info := deployment_info self |}.

Definition set_changes (self : Script) (c : ChangeSet) : Script :=
  {| repo_root := repo_root self; changes := c;
     claude_analysis := claude_analysis self;
     current_branch := current_branch self; deployment_info := deployment_info self |}.

Definition set_info (self : Script) (d : DeploymentInfo) : Script :=
  {| repo_root := repo_root self; changes := changes self;
     claude_analysis := claude_analysis self;
     current_branch := current_branch self; deployment_info := Some d |}.

Definition set_analysis (self : Script) (a : Analysis) : Script :=
  {| repo_root := repo_root self; changes := changes self;
     claude_analysis := Some a;
     current_branch := current_branch self; deployment_info := deployment_info self |}.

(** [check_git_status] *)
Definition check_git_status (self : Script) : M (bool * Script) :=
  print "[*] Checking git status..." ;;
  branch ← _run_command ["git"; "branch"; "--show-current"] true;
  let self := set_branch self branch in
  print ("   Current branch: " +:+ fmt branch) ;;
  status ← _run_command ["git"; "status"; "--porcelain"] true;
  if negb (truthy status) then
    print "   No changes to commit" ;;
    mret (false, self)
  else
    match parse_status_lines no_changes (Py.split (default EmptyString status) Py.LF) with
    | None => raise "IndexError"
    | Some c =>
        let self := set_changes self c in
        print ("   Found " +:+ pretty (count_changes c) +:+ " changes") ;;
        mret (true, self)
    end.

(** [Path.parent] of an absolute path without a trailing slash. *)
Definition parent (p : string) : string :=
  let up := Py.join "/" (List.removelast (Py.split p "/")) in
  if String.eqb up EmptyString then "/" else up.

Definition possible_dirs (self : Script) (cwd : string) : list string :=
  [ OsPath.join (repo_root self) "DeploymentLogs";
    OsPath.join (OsPath.join (repo_root self) "drippingWallet") "DeploymentLogs";
    OsPath.join (OsPath.join (repo_root self) "DrippingWallet") "DeploymentLogs";
    OsPath.join cwd "DeploymentLogs";
    OsPath.join (parent cwd) "DeploymentLogs" ].

(** [max(files, key=mtime)]: the first file with the greatest time. *)
Fixpoint latest (best : string * Z) (files : list (string * Z)) : string * Z :=
  match files with
  | [] => best
  | f :: rest => latest (if (snd best <? snd f)%Z then f else best) rest
  end.

(** [get_latest_deployment_file] *)
Definition get_latest_deployment_file (self : Script) : M (option string) :=
  cwd ← ask getcwd;
  let dirs := possible_dirs self cwd in
  found ← ask (fun w => List.find (fun d => path_exists d w) dirs);
  match found with
  | None =>
      print (Py.LF +:+ "[!] DeploymentLogs directory not found") ;;
      print "    Please run deployment-agent.sh first to generate a deployment log" ;;
      print "    Searched in:" ;;
      for_each dirs (fun d => print ("      - " +:+ d)) ;;
      mret None
  | Some deployment_logs_dir =>
      deployment_files ← ask (glob_logs deployment_logs_dir);
      match deployment_files with
      | [] =>
          print (Py.LF +:+ "[!] No deployment files found in DeploymentLogs directory") ;;
          print "    Please run deployment-agent.sh first to generate a deployment log" ;;
          mret None
      | f :: rest => mret (Some (fst (latest f rest)))
      end
  end.

(** [parse_deployment_file]: every exception of the body is caught and
    turned into the result [False]. *)
Definition parse_deployment_file (self : Script) (deployment_file : string)
  : M (bool * Script) :=
  print (Py.LF +:+ "[*] Reading deployment file: " +:+ OsPath.basename deployment_file) ;;
  content ← ask (read_text deployment_file);
  match content with
  | None =>
      print (Py.LF +:+ "[!] Error parsing deployment file: OSError") ;;
      mret (false, self)
  | Some content =>
      let '(d, ok) := parse_deployment_content content in
      let self := set_info self d in
      if ok : bool then
        print ("    Deployment: " +:+ deployment_number d) ;;
        print ("    Title: " +:+ title d) ;;
        print ("    Description: " +:+ description d) ;;
        mret (true, self)
      else
        print (Py.LF +:+ "[!] Error parsing deployment file: IndexError") ;;
        mret (false, self)
  end.

(** [analyze_with_deployment_log] *)
Definition analyze_with_deployment_log (self : Script) : M (bool * Script) :=
  print (Py.LF +:+ "[*] Analyzing changes from deployment log...") ;;
  deployment_file ← get_latest_deployment_file self;
  match deployment_file with
  | None => mret (false, self)
  | Some deployment_file =>
      r ← parse_deployment_file self deployment_file;
      let '(ok, self) := r in
      if negb ok then mret (false, self)
      else
        match deployment_info self with
        | None => raise "AttributeError"
        | Some d =>
            let self := set_analysis self (analysis_of d) in
            print (Py.LF +:+ "[*] Analysis complete!") ;;
            print ("    Using deployment " +:+ deployment_number d) ;;
            mret (true, self)
        end
  end.

(** The text [update_gitignore] writes back. *)
Definition gitignore_text (content : string) (patterns : list string) (day : string)
  : string :=
  match patterns with
  | [] => content
  | _ =>
      let content :=
        if negb (String.eqb content EmptyString) && negb (Py.endswith content Py.LF)
        then content +:+ Py.LF else content in
      let content :=
        content +:+ Py.LF +:+ "# Added by automated deployment - " +:+ day +:+ Py.LF in
      fold_left
        (fun content pattern =>
           if negb (Py.contains pattern content) then content +:+ pattern +:+ Py.LF
           else content)
        patterns content
  end.

(** [update_gitignore] *)
Definition update_gitignore (self : Script) : M unit :=
  match claude_analysis self with
  | None => raise "AttributeError"
  | Some a =>
      if negb (should_update_gitignore a) then mret tt
      else
        print (Py.LF +:+ "[*] Updating .gitignore...") ;;
        let gitignore_path := OsPath.join (repo_root self) ".gitignore" in
        present ← ask (path_exists gitignore_path);
        old ← (if present : bool then ask (read_text gitignore_path)
               else mret (Some EmptyString));
        match old with
        | None => raise "OSError"
        | Some content =>
            day ← ask (strftime_now "%Y-%m-%d");
            modify_world
              (write_text gitignore_path (gitignore_text content (gitignore_updates a) day)) ;;
            _run_command ["git"; "add"; ".gitignore"] true ;;
            print "   .gitignore updated"
        end
  end.

(** The line printed for a path whose file is gone. *)
Definition warning (file_path : string) : string :=
  "   Warning: Skipping non-existent file: " +:+ file_path.

(** The first loop of [stage_changes], for one path. *)
Definition stage_path (self : Script) (file_path : string) : M unit :=
  let full_path := OsPath.join (repo_root self) file_path in
  present ← ask (path_exists full_path);
  if present : bool then
    _run_command ["git"; "add"; file_path] true ;; mret tt
  else
    print (warning file_path).

(** The second loop of [stage_changes], for one path. *)
Definition stage_removal (file_path : string) : M unit :=
  check_result ← _run_command ["git"; "ls-files"; "--error-unmatch"; file_path] false;
  match check_result with
  | Some _ => _run_command ["git"; "rm"; "--cached"; file_path] true ;; mret tt
  | None => mret tt
  end.

(** [stage_changes] *)
Definition stage_changes (self : Script) : M unit :=
  print (Py.LF +:+ "[*] Staging changes...") ;;
  for_each [modified (changes self); added (changes self); untracked (changes self)]
    (fun file_list => for_each file_list (stage_path self)) ;;
  for_each (deleted (changes self)) stage_removal ;;
  print "   All changes staged".

(** [create_deployment_commit] *)
Definition create_deployment_commit (self : Script) : M unit :=
  print (Py.LF +:+ "[*] Creating deployment commit...") ;;
  stamp ← ask (strftime_now "%Y-%m-%d %H:%M:%S");
  iso ← ask isoformat_now;
  match current_branch self with
  | None => raise "AttributeError"
  | Some branch =>
      _run_command ["git"; "commit"; "-m"; full_message self branch stamp iso] true ;;
      print ("   Commit created: " +:+ commit_message self stamp)
  end.

(** The question [push_to_remote] asks about the upstream of [b], and
    the two answers git gives: the name of the upstream, or a failure
    that prints nothing on the standard output. *)
Definition upstream_query (b : string) : list string :=
  ["git"; "rev-parse"; "--abbrev-ref"; b +:+ "@{upstream}"].



(** [push_to_remote] *)
Definition push_to_remote (self : Script) : M unit :=
  print (Py.LF +:+ "[*] Pushing to remote...") ;;
  match current_branch self with
  | None => raise "AttributeError"
  | Some branch =>
      upstream ← _run_command
        ["git"; "rev-parse"; "--abbrev-ref"; fmt branch +:+ "@{upstream}"] false;
      (if truthy upstream then
         _run_command ["git"; "push"] true ;; mret tt
       else
         match branch with
         | Some b => _run_command ["git"; "push"; "-u"; "origin"; b] true ;; mret tt
         | None => raise "TypeError"
         end) ;;
      print "   Changes pushed successfully!"
  end.

(** [run] *)
Definition run (self : Script) : M unit :=
  print "[*] Git Deployment Script Started" ;;
  print (Py.join EmptyString (List.repeat "=" 50)) ;;
  r ← check_git_status self;
  let '(changed, self) := r in
  if negb changed then print (Py.LF +:+ "[+] Nothing to deploy")
  else
    print (Py.LF +:+ "[*] Looking for deployment log...") ;;
    print "    Please ensure you have run deployment-agent.sh before running this script" ;;
    r ← analyze_with_deployment_log self;
    let '(deployment_success, self) := r in
    if negb deployment_success then
      print (Py.LF +:+ "[!] Deployment cancelled due to deployment log analysis failure") ;;
      sys_exit 1
    else
      stage_changes self ;;
      update_gitignore self ;;
      create_deployment_commit self ;;
      try_except
        (push_to_remote self ;; print (Py.LF +:+ "[+] Deployment completed successfully!"))
        (fun e =>
           print (Py.LF +:+ "[!] Push failed: " +:+ e) ;;
           print "   You can manually push with: git push").

(** [main]: how the process ends, and what it did on the way. *)
Definition main (t : Trace) : Termination * Trace :=
  match try_except (script ← init; run script)
          (fun e => print (Py.LF +:+ "[!] Deployment failed: " +:+ e) ;; sys_exit 1) t with
  | (Ok _, t') => (Returned, t')
  | (Exit code, t') => (SysExit code, t')
  | (Raise exc, t') => (Uncaught exc, t')
  end.

End Effects.

End GitDeploy.

(* ===================================================================== *)
(** * A small repository to run the scripts against *)
(* ===================================================================== *)

(** A stand-in for [git] and the file system, with the answers git gives
    on the commands the deployment script issues.  The theorems about the
    script hold for every world; this one serves to run it. *)
Module Sim.

Import GitDeploy.

Record World : Type := {
  toplevel : option string;
  branch : string;
  upstream : option string;
  porcelain : string;
  disk : list string;
  index : list string;
  log_dirs : list (string * list (string * Z));
  texts : list (string * string);
  commits : list string;
  pushed : list (list string);
  clock : string
}.

Definition listed (p : string) (l : list string) : bool := existsb (String.eqb p) l.

Definition lookup_text {A : Type} (p : string) (l : list (string * A)) : option A :=
  match List.find (fun e => String.eqb (fst e) p) l with
  | Some e => Some (snd e)
  | None => None
  end.

Definition set_index (w : World) (i : list string) : World :=
  {| toplevel := toplevel w; branch := branch w; upstream := upstream w;
     porcelain := porcelain w; disk := disk w; index := i;
     log_dirs := log_dirs w; texts := texts w; commits := commits w;
     pushed := pushed w; clock := clock w |}.

Definition add_commit (w : World) (msg : string) : World :=
  {| toplevel := toplevel w; branch := branch w; upstream := upstream w;
     porcelain := porcelain w; disk := disk w; index := index w;
     log_dirs := log_dirs w; texts := texts w; commits := commits w ++ [msg];
     pushed := pushed w; clock := clock w |}.

Definition add_push (w : World) (cmd : list string) (u : option string) : World :=
  {| toplevel := toplevel w; branch := branch w; upstream := u;
     porcelain := porcelain w; disk := disk w; index := index w;
     log_dirs := log_dirs w; texts := texts w; commits := commits w;
     pushed := pushed w ++ [cmd]; clock := clock w |}.

Definition set_text (p content : string) (w : World) : World :=
  {| toplevel := toplevel w; branch := branch w; upstream := upstream w;
     porcelain := porcelain w; disk := disk w; index := index w;
     log_dirs := log_dirs w; texts := (p, content) :: texts w; commits := commits w;
     pushed := pushed w; clock := clock w |}.

Definition done (out : string) : CompletedProcess :=
  {| returncode := 0; stdout := out; stderr := EmptyString |}.

Definition failed (code : Z) (err : string) : CompletedProcess :=
  {| returncode := code; stdout := EmptyString; stderr := err |}.

Definition on_disk (w : World) (p : string) : bool :=
  listed (OsPath.join (default EmptyString (toplevel w)) p) (disk w).

Definition execute (cmd : list string) (w : World) : CompletedProcess * World :=
  match cmd with
  | ["git"; "rev-parse"; "--show-toplevel"] =>
      match toplevel w with
      | Some root => (done (root +:+ Py.LF), w)
      | None => (failed 128 "fatal: not a git repository", w)
      end
  | ["git"; "branch"; "--show-current"] => (done (branch w +:+ Py.LF), w)
  | ["git"; "status"; "--porcelain"] => (done (porcelain w), w)
  | ["git"; "add"; p] =>
      if on_disk w p || listed p (index w)
      then (done EmptyString, if listed p (index w) then w else set_index w (index w ++ [p]))
      else (failed 128 ("fatal: pathspec '" +:+ p +:+ "' did not match any files"), w)
  | ["git"; "ls-files"; "--error-unmatch"; p] =>
      if listed p (index w) then (done (p +:+ Py.LF), w)
      else (failed 1 ("error: pathspec '" +:+ p
                      +:+ "' did not match any file(s) known to git"), w)
  | ["git"; "rm"; "--cached"; p] =>
      if listed p (index w)
      then (done ("rm '" +:+ p +:+ "'" +:+ Py.LF),
            set_index w (List.filter (fun q => negb (String.eqb q p)) (index w)))
      else (failed 128 ("fatal: pathspec '" +:+ p +:+ "' did not match any files"), w)
  | ["git"; "commit"; "-m"; msg] => (done EmptyString, add_commit w msg)
  | ["git"; "rev-parse"; "--abbrev-ref"; _] =>
      match upstream w with
      | Some u => (done (u +:+ Py.LF), w)
      | None => (failed 128 "fatal: no upstream configured for branch", w)
      end
  | ["git"; "push"] =>
      match upstream w with
      | Some u => (done EmptyString, add_push w cmd (Some u))
      | None => (failed 128 "fatal: The current branch has no upstream branch.", w)
      end
  | ["git"; "push"; "-u"; "origin"; b] =>
      (done EmptyString, add_push w cmd (Some ("origin/" +:+ b)))
  | _ => (failed 1 "git: not a command of this repository", w)
  end.

Definition path_exists (p : string) (w : World) : bool :=
  listed p (disk w) || match lookup_text p (log_dirs w) with Some _ => true | None => false end.

Definition glob_logs (d : string) (w : World) : list (string * Z) :=
  default [] (lookup_text d (log_dirs w)).

Definition read_text (p : string) (w : World) : option string := lookup_text p (texts w).

Definition strftime_now (format : string) (w : World) : string := clock w.

Definition isoformat_now (w : World) : string := clock w.

Definition getcwd (w : World) : string := default "/" (toplevel w).

Definition start (w : World) : Trace :=
  {| world := w; calls := []; printed := [] |}.

(** The script of [gitDeploy.py] in this world. *)
Definition main (w : World) : Termination * Trace :=
  GitDeploy.main execute path_exists glob_logs read_text set_text strftime_now
    isoformat_now getcwd (start w).

(** A repository at [/repo] on branch [main], with a deployment log. *)
Definition repo (status : string) (up : option string) (files tracked : list string)
    (log : string) : World :=
  {| toplevel := Some "/repo"; branch := "main"; upstream := up;
     porcelain := status; disk := map (OsPath.join "/repo") files; index := tracked;
     log_dirs := [("/repo/DeploymentLogs",
                   [("/repo/DeploymentLogs/Deployment_41.txt", 100%Z);
                    ("/repo/DeploymentLogs/Deployment_42.txt", 200%Z)])];
     texts := [("/repo/DeploymentLogs/Deployment_41.txt",
                "Deployment Number: 41" +:+ Py.LF +:+ "Title: Older" +:+ Py.LF);
               ("/repo/DeploymentLogs/Deployment_42.txt", log)];
     commits := []; pushed := []; clock := "2025-01-01T00:00:00" |}.

Definition login_log : string :=
  "Deployment Number: 42" +:+ Py.LF
  +:+ "Deployment Date: 2025-01-01" +:+ Py.LF
  +:+ "Deployed By: ops" +:+ Py.LF
  +:+ "Title: Fix login bug" +:+ Py.LF
  +:+ "Description: Session cookie was dropped" +:+ Py.LF.

(** A script object after [check_git_status], in [/repo] on [main]. *)
Definition script (c : ChangeSet) (d : option DeploymentInfo) : Script :=
  {| repo_root := "/repo"; changes := c; claude_analysis := option_map analysis_of d;
     current_branch := Some (Some "main"); deployment_info := d |}.

(** A log whose title has a hundred characters. *)
Definition long_title : string := Py.join EmptyString (List.repeat "a" 100).

Definition long_log : string :=
  "Deployment Number: 42" +:+ Py.LF +:+ "Title: " +:+ long_title +:+ Py.LF.

(** What the analyzer meets in [/repo]: one rule file, the three query
    outputs [outs], a terminal or not, and the answer typed. *)
Definition analyzer_env (outs : string * string * string) (tty : bool)
    (typed : option string) : Analyzer.Env :=
  {| Analyzer.cwd := "/repo";
     Analyzer.git_root := "/repo";
     Analyzer.gitignore_found := [("/repo", Analyzer.Whole ("/build/*" +:+ Py.LF))];
     Analyzer.git_outputs := Some outs;
     Analyzer.stdin_isatty := tty;
     Analyzer.response := typed;
     Analyzer.gitignore_append_ok := true;
     Analyzer.prompt_write_ok := true;
     Analyzer.analysis_write_ok := true |}.

(** A clean working tree: the three queries print nothing. *)
Definition clean_env : Analyzer.Env :=
  analyzer_env (EmptyString, EmptyString, EmptyString) false None.

(** One untracked [secret_api_key.txt] and one modified [app.py]. *)
Definition secret_env (tty : bool) (typed : option string) : Analyzer.Env :=
  analyzer_env ("app.py" +:+ Py.LF, EmptyString, "secret_api_key.txt" +:+ Py.LF)
    tty typed.

End Sim.

(* ===================================================================== *)
(** * analyze-changes-ai.py: the report *)
(* ===================================================================== *)

Module Report.

(** ** categorize_files *)

(** The keys of the [categories] dict, in the order it is built. *)
Definition keys : list string :=
  ["iOS"; "Android"; "Backend"; "Website"; "Documentation"; "CI/CD"; "Deployment";
   "Other"].

(** The key under which the loop of [categorize_files] files one path:
    the chain of tests, with ["Other"] when none sets [categorized]. *)
Definition category_of (file : string) : string :=
  let file_lower := Py.lower file in
  if Py.contains "deployment-tools" file || Py.contains "deploy" file_lower then
    "Deployment"
  else if Py.contains "drippingwallet/" file && negb (Py.contains "android" file_lower) then
    if Py.endswith file ".swift" || Py.contains "ios" file_lower then "iOS"
    else "Other"
  else if Py.contains "android" file_lower
          || Py.contains "dippingwalletandroid" file_lower then
    "Android"
  else if Py.contains "firebase" file_lower || Py.contains "functions" file_lower then
    "Backend"
  else if Py.contains "website" file_lower then "Website"
  else if Py.endswith file ".md" || Py.contains "readme" file_lower then
    "Documentation"
  else if Py.contains ".github" file || Py.contains "workflow" file_lower then "CI/CD"
  else "Other".

(** [categories[key].append(file)] on the dict as a list of entries. *)
Definition append_to (key file : string) (categories : list (string * list string))
  : list (string * list string) :=
  map (fun entry =>
         if String.eqb (fst entry) key then (fst entry, snd entry ++ [file]) else entry)
      categories.

(** [categorize_files]: the dict without its empty lists, in key order. *)
Definition categorize_files (files : list string) : list (string * list string) :=
  let categories :=
    fold_left (fun categories file => append_to (category_of file) file categories)
      files (map (fun key => (key, [])) keys) in
  List.filter (fun entry => match snd entry with [] => false | _ => true end) categories.

(** [categories.get(key, [])] *)
Definition get (key : string) (categories : list (string * list string)) : list string :=
  match List.find (fun entry => String.eqb (fst entry) key) categories with
  | Some entry => snd entry
  | None => []
  end.

(** ** The title of the analysis *)

(** [title_parts], as [main] builds it from the files left to analyse. *)
Definition title_parts (changed_files : list string) : list string :=
  let categories := categorize_files changed_files in
  let lowered (k : string) (f : string) := Py.contains k (Py.lower f) in
  let has_analytics := existsb (lowered "analytics") changed_files in
  let has_auth :=
    existsb (fun f => lowered "auth" f || lowered "superadmin" f) changed_files in
  let has_android_update :=
    existsb (fun f => Py.contains "gradle" f || lowered "android" f) changed_files in
  let has_deployment :=
    existsb (fun f => lowered "deploy" f || lowered "workflow" f) changed_files in
  (if has_analytics then ["Analytics"] else [])
  ++ (if has_android_update
         && (10 <? List.length (List.filter (lowered "android") changed_files))
      then ["Android SDK Update"] else [])
  ++ (if has_auth then ["Auth System"] else [])
  ++ (if has_deployment then ["CI/CD"] else [])
  ++ (if 3 <? List.length (get "iOS" categories) then ["iOS Updates"] else [])
  ++ (if 3 <? List.length (get "Website" categories) then ["Web Updates"] else []).

(** [title] before the security warning is put in front of it. *)
Definition plain_title (changed_files : list string) : string :=
  match title_parts changed_files with
  | [] =>
      "Project Update: " +:+ pretty (List.length changed_files) +:+ " Files Changed"
  | parts =>
      let title := "Update: " +:+ Py.join ", " (List.firstn 3 parts) in
      if 80 <? String.length title then Py.take 77 title +:+ "..." else title
  end.

End Report.

(* ===================================================================== *)
(** * More worlds to run the deployment script in *)
(* ===================================================================== *)

Module Scenes.

(** A directory that is not inside a repository. *)
Definition outside : Sim.World :=
  {| Sim.toplevel := None; Sim.branch := EmptyString; Sim.upstream := None;
     Sim.porcelain := EmptyString; Sim.disk := []; Sim.index := [];
     Sim.log_dirs := []; Sim.texts := []; Sim.commits := []; Sim.pushed := [];
     Sim.clock := "2025-01-01T00:00:00" |}.

(** A repository at [/repo] with one staged change and no directory of
    deployment logs. *)
Definition no_logs : Sim.World :=
  {| Sim.toplevel := Some "/repo"; Sim.branch := "main"; Sim.upstream := None;
     Sim.porcelain := "M  app.py" +:+ Py.LF; Sim.disk := ["/repo/app.py"];
     Sim.index := ["app.py"]; Sim.log_dirs := []; Sim.texts := [];
     Sim.commits := []; Sim.pushed := []; Sim.clock := "2025-01-01T00:00:00" |}.

(** A remote that rejects every push. *)
Definition execute_rejecting (cmd : list string) (w : Sim.World)
  : GitDeploy.CompletedProcess * Sim.World :=
  match cmd with
  | "git" :: "push" :: _ => (Sim.failed 1 "! [rejected] main -> main (fetch first)", w)
  | _ => Sim.execute cmd w
  end.

(** The script of [gitDeploy.py] against that remote. *)
Definition main_rejecting (w : Sim.World) : Termination * GitDeploy.Trace :=
  GitDeploy.main execute_rejecting Sim.path_exists Sim.glob_logs Sim.read_text
    Sim.set_text Sim.strftime_now Sim.isoformat_now Sim.getcwd (Sim.start w).

End Scenes.

(* ===================================================================== *)
(** * The conduct of a step of the deployment script *)
(* ===================================================================== *)

Module Conduct.

(** [behaves allowed m]: whatever the state it starts in, the step [m]
    runs only commands that are [allowed], and when it leaves the process
    it does so with status 1. *)
Definition behaves {World A : Type} (allowed : list string -> Prop)
    (m : @GitDeploy.M World A) : Prop :=
  forall t : @GitDeploy.Trace World,
    (exists extra,
       GitDeploy.calls (snd (m t)) = GitDeploy.calls t ++ extra /\ Forall allowed extra)
    /\ match fst (m t) with
       | GitDeploy.Exit code => code = 1%Z
       | _ => True
       end.

(** The commands of the staging step. *)
Definition staging_command (cmd : list string) : Prop :=
  exists file_path,
    cmd = ["git"; "add"; file_path]
    \/ cmd = ["git"; "ls-files"; "--error-unmatch"; file_path]
    \/ cmd = ["git"; "rm"; "--cached"; file_path].

(** The commands of the whole script. *)
Definition script_command (cmd : list string) : Prop :=
  cmd = ["git"; "rev-parse"; "--show-toplevel"]
  \/ cmd = ["git"; "branch"; "--show-current"]
  \/ cmd = ["git"; "status"; "--porcelain"]
  \/ staging_command cmd
  \/ (exists message, cmd = ["git"; "commit"; "-m"; message])
  \/ (exists ref, cmd = ["git"; "rev-parse"; "--abbrev-ref"; ref])
  \/ cmd = ["git"; "push"]
  \/ (exists branch, cmd = ["git"; "push"; "-u"; "origin"; branch]).

End Conduct.

(* ===================================================================== *)
(** * Properties *)
(* ===================================================================== *)

(** ** The library model on concrete inputs *)

Example split_lines : Py.split ("a" +:+ Py.LF +:+ "b" +:+ Py.LF) Py.LF = ["a"; "b"; ""].
Proof. reflexivity. Qed.

Example split_stars : Py.split "/r/**/x**" "**" = ["/r/"; "/x"; ""].
Proof. reflexivity. Qed.

Example abspath_rel : OsPath.abspath "/repo/sub" "../a/./b.txt" = "/repo/a/b.txt".
Proof. reflexivity. Qed.

Example basename_ex : OsPath.basename "a/b/c.txt" = "c.txt".
Proof. reflexivity. Qed.

Example fnmatch_star : Fnmatch.fnmatch "my_api_key.txt" "*_api_key*" = true.
Proof. reflexivity. Qed.

Example fnmatch_dir : Fnmatch.fnmatch "a/b/c.PEM" "*.pem" = false.
Proof. reflexivity. Qed.

Example fnmatch_class :
  (Fnmatch.fnmatch "m.pyc" "*.py[cod]", Fnmatch.fnmatch "m.pyx" "*.py[cod]",
   Fnmatch.fnmatch "f3" "f[0-9]", Fnmatch.fnmatch "fa" "f[!0-9]",
   Fnmatch.fnmatch "f[" "f[", Fnmatch.fnmatch "f]" "f[]]",
   Fnmatch.fnmatch "f-" "f[a-]", Fnmatch.fnmatch "fb" "f[z-a]")
  = (true, false, true, true, true, true, true, false).
Proof. reflexivity. Qed.

Example fnmatch_class_edge :
  (Fnmatch.fnmatch "fx" "f[b-a!x]", Fnmatch.fnmatch "fy" "f[b-a!x]",
   Fnmatch.fnmatch "f^]" "f[^]]", Fnmatch.fnmatch "f-" "f[b-a!-y]",
   Fnmatch.fnmatch "fq" "f[b-a!-y]", Fnmatch.fnmatch "fc" "f[a-c-e]",
   Fnmatch.fnmatch "fd" "f[a-c-e]", Fnmatch.fnmatch "f-" "f[a-c-e]",
   Fnmatch.fnmatch "fb" "f[!]a-c]", Fnmatch.fnmatch "fz" "f[!]a-c]",
   Fnmatch.fnmatch "f]" "f[!]a-c]")
  = (false, true, true, false, true, true, false, true, false, true, false).
Proof. reflexivity. Qed.

Example normpath_ex :
  (OsPath.normpath "//a/../..//b/./c/", OsPath.normpath "a/../../b",
   OsPath.normpath "///a", OsPath.join "/r/" "x", OsPath.join3 "/r" "**" "x",
   OsPath.join "/r" "/x")
  = ("//b/c", "../b", "/a", "/r/x", "/r/**/x", "/x").
Proof. reflexivity. Qed.

(* --------------------------------------------------------------------- *)
(** ** The classifier *)
(* --------------------------------------------------------------------- *)

Lemma listed_iff (f : string) (l : list string) :
  existsb (String.eqb f) l = true <-> In f l.
Proof.
  rewrite existsb_exists. split.
  - intros (x & Hx & He). apply String.eqb_eq in He. now subst.
  - intros H. exists f. split; [exact H | apply String.eqb_refl].
Qed.

Lemma in_without (f : string) (excluded files : list string) :
  In f (Analyzer.without excluded files) <-> In f files /\ ~ In f excluded.
Proof.
  unfold Analyzer.without. rewrite filter_In, negb_true_iff.
  rewrite <- (listed_iff f excluded).
  destruct (existsb (String.eqb f) excluded); intuition congruence.
Qed.

Section Classifier.

Variable cwd : string.
Variable parser : Analyzer.GitignoreParser.

Let ignored_by (f : string) : bool := Analyzer.should_ignore cwd parser f.
Let flagged (f : string) : bool := negb (ignored_by f) && Analyzer.is_sensitive f.

Lemma check_fold (files s i : list string) :
  fold_left (Analyzer.check_step cwd parser) files (s, i)
  = (s ++ List.filter flagged files, i ++ List.filter ignored_by files).
Proof.
  revert s i. induction files as [|f files IH]; intros s i; simpl.
  - now rewrite !app_nil_r.
  - unfold flagged, ignored_by in *.
    destruct (Analyzer.should_ignore cwd parser f) eqn:Hi; simpl.
    + rewrite IH. now rewrite <- app_assoc.
    + destruct (Analyzer.is_sensitive f) eqn:Hs; simpl; rewrite IH.
      * now rewrite <- app_assoc.
      * reflexivity.
Qed.

Lemma check_sensitive_files_filter (files : list string) :
  Analyzer.check_sensitive_files cwd files parser
  = (List.filter flagged files, List.filter ignored_by files).
Proof. unfold Analyzer.check_sensitive_files. now rewrite check_fold. Qed.

End Classifier.

(** C1. [classify] gives the ignore rules precedence: a changed path that
    an ignore rule matches is in [ignored] and in neither other list,
    also when a sensitive pattern matches it; a path no rule matches is in
    [sensitive] alone when a sensitive pattern matches it, and in
    [eligible] alone otherwise. *)
Theorem classify_ignore_first
    (cwd : string) (parser : Analyzer.GitignoreParser)
    (files sensitive ignored eligible : list string) (file : string) :
  Analyzer.classify cwd files parser = (sensitive, ignored, eligible) ->
  In file files ->
  (Analyzer.should_ignore cwd parser file = true ->
     In file ignored /\ ~ In file sensitive /\ ~ In file eligible)
  /\ (Analyzer.should_ignore cwd parser file = false ->
      Analyzer.is_sensitive file = true ->
      In file sensitive /\ ~ In file ignored /\ ~ In file eligible)
  /\ (Analyzer.should_ignore cwd parser file = false ->
      Analyzer.is_sensitive file = false ->
      In file eligible /\ ~ In file sensitive /\ ~ In file ignored).
Proof.
  unfold Analyzer.classify. rewrite check_sensitive_files_filter.
  intros Hc Hin. injection Hc as <- <- <-.
  rewrite !in_without, !filter_In, andb_true_iff, negb_true_iff.
  repeat split; try assumption; intuition congruence.
Qed.

(** Without a terminal, the files [main] goes on to analyse are the
    eligible ones. *)
Lemma main_analyses_eligible (e : Analyzer.Env) :
  Analyzer.stdin_isatty e = false ->
  Analyzer.get_git_changes (Analyzer.git_outputs e) <> [] ->
  Analyzer.analysed (Analyzer.main e)
  = snd (Analyzer.classify (Analyzer.cwd e)
           (Analyzer.get_git_changes (Analyzer.git_outputs e))
           (Analyzer.new_parser (Analyzer.git_root e) (Analyzer.gitignore_found e))).
Proof.
  intros Htty Hc. unfold Analyzer.main, Analyzer.classify.
  destruct (Analyzer.get_git_changes (Analyzer.git_outputs e)) as [|f files];
    [contradiction|].
  destruct (Analyzer.check_sensitive_files _ _ _) as [sensitive ignored].
  unfold Analyzer.exclude_sensitive. rewrite Htty.
  assert (Hs : match sensitive with
               | [] => Analyzer.Kept (f :: files) false
               | _ :: _ => Analyzer.Kept (Analyzer.without sensitive (f :: files)) false
               end
               = Analyzer.Kept (Analyzer.without sensitive (f :: files)) false).
  { destruct sensitive; [|reflexivity]. unfold Analyzer.without. cbn [existsb negb].
    f_equal. symmetry. apply forallb_filter_id. now apply forallb_forall. }
  rewrite Hs. cbn [snd].
  assert (Hi : Analyzer.exclude_ignored (Analyzer.without sensitive (f :: files)) ignored
               = Analyzer.without ignored (Analyzer.without sensitive (f :: files))).
  { destruct ignored; [|reflexivity]. unfold Analyzer.exclude_ignored.
    unfold Analyzer.without at 2. cbn [existsb negb].
    symmetry. apply forallb_filter_id. now apply forallb_forall. }
  rewrite Hi.
  destruct (Analyzer.without ignored _); [reflexivity|].
  destruct (Analyzer.prompt_write_ok e); [|reflexivity].
  destruct (Analyzer.analysis_write_ok e); [|reflexivity].
  now destruct sensitive.
Qed.

Example classify_example :
  Analyzer.classify "/repo"
    ["app.py"; "build/debug.log"; "secret_api_key.txt"; "docs/.ENV"; "notes.log"]
    (Analyzer.new_parser "/repo"
       [("/repo", Analyzer.Whole ("# build output" +:+ Py.LF +:+ "/build/*" +:+ Py.LF))])
  = (["secret_api_key.txt"; "docs/.ENV"; "notes.log"], ["build/debug.log"], ["app.py"]).
Proof. reflexivity. Qed.

(** [build/debug.log] is matched by the rule [/build/*] and by the
    sensitive pattern [*.log]: it is ignored, not flagged. *)
Lemma classify_ignore_first_witness :
  In "build/debug.log" ["build/debug.log"]
  /\ ~ In "build/debug.log" ["secret_api_key.txt"; "docs/.ENV"; "notes.log"]
  /\ ~ In "build/debug.log" ["app.py"].
Proof.
  apply (classify_ignore_first "/repo"
           (Analyzer.new_parser "/repo"
              [("/repo",
                Analyzer.Whole ("# build output" +:+ Py.LF +:+ "/build/*" +:+ Py.LF))])
           ["app.py"; "build/debug.log"; "secret_api_key.txt"; "docs/.ENV"; "notes.log"]
           ["secret_api_key.txt"; "docs/.ENV"; "notes.log"] ["build/debug.log"]
           ["app.py"] "build/debug.log").
  - reflexivity.
  - simpl. tauto.
  - reflexivity.
Defined.

(* --------------------------------------------------------------------- *)
(** ** The sensitive-file test *)
(* --------------------------------------------------------------------- *)

Lemma lower_ascii_slash (c : ascii) :
  Ascii.eqb "/" (Py.lower_ascii c) = Ascii.eqb "/" c.
Proof. destruct c as [[] [] [] [] [] [] [] []]; reflexivity. Qed.

Lemma cons_head_lower (c : ascii) (l : list string) :
  Py.cons_head (Py.lower_ascii c) (map Py.lower l) = map Py.lower (Py.cons_head c l).
Proof. destruct l; reflexivity. Qed.

Lemma split_go_char (a c : ascii) (s : string) :
  Py.split_go (String a EmptyString) (String c s) 0
  = if Ascii.eqb a c then EmptyString :: Py.split_go (String a EmptyString) s 0
    else Py.cons_head c (Py.split_go (String a EmptyString) s 0).
Proof.
  cbn [Py.split_go Py.startswith String.length Nat.sub].
  now rewrite andb_true_r.
Qed.

Lemma split_slash_lower (s : string) :
  Py.split (Py.lower s) "/" = map Py.lower (Py.split s "/").
Proof.
  unfold Py.split. induction s as [|c s IH]; [reflexivity|].
  cbn [Py.lower]. rewrite !split_go_char, lower_ascii_slash.
  destruct (Ascii.eqb "/" c); cbn [map].
  - now rewrite IH.
  - rewrite IH. apply cons_head_lower.
Qed.

Lemma last_lower (l : list string) :
  List.last (map Py.lower l) EmptyString = Py.lower (List.last l EmptyString).
Proof.
  induction l as [|x l IH]; [reflexivity|].
  destruct l as [|y l]; [reflexivity|]. exact IH.
Qed.

Lemma basename_lower (p : string) :
  OsPath.basename (Py.lower p) = Py.lower (OsPath.basename p).
Proof. unfold OsPath.basename. now rewrite split_slash_lower, last_lower. Qed.

(** C8. [is_sensitive] answers [true] exactly when a sensitive glob
    pattern, compared without regard to case, matches the lowercased base
    name or the lowercased path, or the lowercased base name contains a
    sensitive keyword; two paths that differ only in letter case get the
    same answer. *)
Theorem is_sensitive_spec (path : string) :
  (Analyzer.is_sensitive path = true <->
     (exists pattern, In pattern Analyzer.sensitive_patterns
        /\ (Fnmatch.fnmatch (Py.lower (OsPath.basename path)) (Py.lower pattern) = true
            \/ Fnmatch.fnmatch (Py.lower path) (Py.lower pattern) = true))
     \/ (exists keyword, In keyword Analyzer.sensitive_keywords
           /\ Py.contains keyword (Py.lower (OsPath.basename path)) = true))
  /\ (forall other, Py.lower other = Py.lower path ->
        Analyzer.is_sensitive other = Analyzer.is_sensitive path).
Proof.
  split.
  - unfold Analyzer.is_sensitive.
    rewrite orb_true_iff, !existsb_exists.
    split; (intros [(x & Hin & H) | (x & Hin & H)]; [left | right]; exists x;
            split; try assumption).
    + now apply orb_true_iff in H.
    + now apply orb_true_iff.
  - intros other H. unfold Analyzer.is_sensitive.
    now rewrite <- !basename_lower, H.
Qed.

Example is_sensitive_examples :
  map Analyzer.is_sensitive
    ["secret_api_key.txt"; "app.py"; "conf/.ENV"; "Keys/Server.PEM";
     "GOOGLESERVICE-INFO.PLIST"; ".aws/config"; "src/monkey.py"; "src/my_key.py"]
  = [true; false; true; true; true; true; false; true].
Proof. reflexivity. Qed.

(* --------------------------------------------------------------------- *)
(** ** The change enumerator *)
(* --------------------------------------------------------------------- *)

Lemma nonempty_eqb (f : string) : negb (String.eqb f EmptyString) = true <-> f <> EmptyString.
Proof.
  rewrite negb_true_iff. split.
  - intros H ->. discriminate.
  - intros H. apply String.eqb_neq. exact H.
Qed.

(** C9. [get_git_changes] returns the union of the three queries without
    repetition: every non-empty line of a query is in the result exactly
    once, the empty string is not in it, and every element of the result
    is a line of one of the queries. *)
Theorem get_git_changes_union (out_m out_s out_u : string) :
  let queried :=
    Analyzer.query_lines out_m ++ Analyzer.query_lines out_s
    ++ Analyzer.query_lines out_u in
  let result := Analyzer.get_git_changes (Some (out_m, out_s, out_u)) in
  (forall f, f <> EmptyString -> In f queried -> count_occ string_dec result f = 1)
  /\ ~ In EmptyString result
  /\ (forall f, In f result -> In f queried).
Proof.
  intros queried result.
  assert (Hin : forall f, In f result <-> f <> EmptyString /\ In f queried).
  { intros f. unfold result, Analyzer.get_git_changes.
    rewrite filter_In, nonempty_eqb, <- !list_elem_of_In.
    rewrite elem_of_elements, elem_of_list_to_set. tauto. }
  assert (Hnd : List.NoDup result).
  { unfold result, Analyzer.get_git_changes.
    apply List.NoDup_filter, NoDup_ListNoDup, NoDup_elements. }
  repeat split.
  - intros f Hf Hq. apply NoDup_count_occ'; [exact Hnd | now apply Hin].
  - intros H. now apply Hin in H.
  - intros f H. now apply Hin in H.
Qed.

Example get_git_changes_example :
  let result :=
    Analyzer.get_git_changes
      (Some ("app.py" +:+ Py.LF +:+ "lib/util.py" +:+ Py.LF,
             "app.py" +:+ Py.LF, EmptyString)) in
  List.length result = 2 /\ In "app.py" result /\ In "lib/util.py" result.
Proof. vm_compute. tauto. Qed.

(* --------------------------------------------------------------------- *)
(** ** The exit status of the analyzer *)
(* --------------------------------------------------------------------- *)

Lemma check_sensitive_files_nil (cwd : string) (parser : Analyzer.GitignoreParser) :
  Analyzer.check_sensitive_files cwd [] parser = ([], []).
Proof. reflexivity. Qed.

(** C3. When [check_sensitive_files] finds a sensitive file among the
    changed files, the process ends with a non-zero status, whatever the
    terminal, the answer, the outcome of the append to [.gitignore] and of
    the later writes. *)
Theorem sensitive_files_exit_nonzero (e : Analyzer.Env) :
  fst (Analyzer.check_sensitive_files (Analyzer.cwd e)
         (Analyzer.get_git_changes (Analyzer.git_outputs e))
         (Analyzer.new_parser (Analyzer.git_root e) (Analyzer.gitignore_found e)))
    <> [] ->
  exit_status (Analyzer.ended (Analyzer.main e)) <> 0%Z.
Proof.
  unfold Analyzer.main.
  destruct (Analyzer.get_git_changes (Analyzer.git_outputs e)) as [|f files] eqn:Hc.
  - intros _. discriminate.
  - destruct (Analyzer.check_sensitive_files _ _ _) as [sensitive ignored].
    simpl. intros Hs.
    destruct (Analyzer.exclude_sensitive e (f :: files) sensitive) as [kept app|exc];
      [|discriminate].
    destruct (Analyzer.exclude_ignored kept ignored); [discriminate|].
    destruct (Analyzer.prompt_write_ok e); [|discriminate].
    destruct (Analyzer.analysis_write_ok e); [|discriminate].
    destruct sensitive; [contradiction|discriminate].
Qed.

(** The end-to-end scenario: an untracked [secret_api_key.txt] next to a
    modified [app.py], without a terminal. *)
Lemma sensitive_files_exit_nonzero_witness :
  exit_status (Analyzer.ended (Analyzer.main (Sim.secret_env false None))) <> 0%Z.
Proof.
  apply (sensitive_files_exit_nonzero (Sim.secret_env false None)).
  vm_compute. discriminate.
Defined.

Example secret_scenario :
  Analyzer.main (Sim.secret_env false None)
  = {| Analyzer.ended := SysExit 1; Analyzer.analysed := ["app.py"];
       Analyzer.appended_to_gitignore := false |}
  /\ Analyzer.main (Sim.secret_env true (Some "Y"))
     = {| Analyzer.ended := SysExit 1; Analyzer.analysed := ["app.py"];
          Analyzer.appended_to_gitignore := true |}
  /\ Analyzer.ended (Analyzer.main (Sim.secret_env true (Some "n"))) = SysExit 1
  /\ List.length (Analyzer.analysed (Analyzer.main (Sim.secret_env true (Some "n")))) = 2.
Proof. vm_compute. repeat split; reflexivity. Qed.

(* --------------------------------------------------------------------- *)
(** ** A run of the deployment script *)
(* --------------------------------------------------------------------- *)

Example deploy_run :
  let '(ended, t) :=
    Sim.main (Sim.repo ("M  app.py" +:+ Py.LF +:+ "?? new.txt" +:+ Py.LF) None
                ["app.py"; "new.txt"] [] Sim.login_log) in
  ended = Returned
  /\ map Py.first_line (Sim.commits (GitDeploy.world t)) = ["Deployment 42: Fix login bug"]
  /\ Sim.pushed (GitDeploy.world t) = [["git"; "push"; "-u"; "origin"; "main"]]
  /\ Sim.index (GitDeploy.world t) = ["app.py"; "new.txt"].
Proof. vm_compute. tauto. Qed.

(* --------------------------------------------------------------------- *)
(** ** Commands of the deployment script *)
(* --------------------------------------------------------------------- *)

Section Commands.

Context {World : Type}.
Variable execute : list string -> World -> GitDeploy.CompletedProcess * World.

(** Without [check], [_run_command] always hands back the output: the
    value [None] of its handler is out of reach. *)
Lemma run_command_unchecked (cmd : list string) (t : GitDeploy.Trace) :
  GitDeploy._run_command execute cmd false t
  = (GitDeploy.Ok (Some (Py.strip (GitDeploy.stdout (GitDeploy.answer execute cmd t)))), GitDeploy.after execute cmd t).
Proof.
  unfold GitDeploy._run_command, GitDeploy.subprocess_run, GitDeploy.answer, GitDeploy.after,
    mbind, GitDeploy.M_bind.
  destruct (execute cmd (GitDeploy.world t)) as [r w]. reflexivity.
Qed.

Lemma run_command_checked_ok (cmd : list string) (t : GitDeploy.Trace) :
  GitDeploy.returncode (GitDeploy.answer execute cmd t) = 0%Z ->
  GitDeploy._run_command execute cmd true t
  = (GitDeploy.Ok (Some (Py.strip (GitDeploy.stdout (GitDeploy.answer execute cmd t)))), GitDeploy.after execute cmd t).
Proof.
  unfold GitDeploy._run_command, GitDeploy.subprocess_run, GitDeploy.answer, GitDeploy.after,
    mbind, GitDeploy.M_bind.
  destruct (execute cmd (GitDeploy.world t)) as [r w]. simpl. intros ->. reflexivity.
Qed.

Lemma run_command_checked_fail (cmd : list string) (t : GitDeploy.Trace) :
  GitDeploy.returncode (GitDeploy.answer execute cmd t) <> 0%Z ->
  GitDeploy._run_command execute cmd true t
  = (GitDeploy.Exit 1,
     GitDeploy.say [ "Error running command: " +:+ Py.join " " cmd;
           "Error: " +:+ GitDeploy.stderr (GitDeploy.answer execute cmd t) ] (GitDeploy.after execute cmd t)).
Proof.
  unfold GitDeploy._run_command, GitDeploy.subprocess_run, GitDeploy.answer, GitDeploy.after, GitDeploy.say,
    mbind, GitDeploy.M_bind.
  destruct (execute cmd (GitDeploy.world t)) as [r w]. simpl. intros H.
  apply Z.eqb_neq in H. rewrite H. simpl. now rewrite <- app_assoc.
Qed.

(** Either way a checked command is the one command run. *)
Lemma run_command_checked_calls (cmd : list string) (t : GitDeploy.Trace) :
  GitDeploy.calls (snd (GitDeploy._run_command execute cmd true t))
  = GitDeploy.calls t ++ [cmd].
Proof.
  destruct (Z.eq_dec (GitDeploy.returncode (GitDeploy.answer execute cmd t)) 0%Z) as [H|H].
  - now rewrite run_command_checked_ok.
  - now rewrite run_command_checked_fail.
Qed.

End Commands.

(** Unfolding of the sequencing of the script's steps. *)
Ltac step :=
  unfold mbind, mret, GitDeploy.M_bind, GitDeploy.M_ret, GitDeploy.print,
    GitDeploy.sys_exit, GitDeploy.raise, GitDeploy.ask; cbn beta iota.

(* --------------------------------------------------------------------- *)
(** ** Pushing *)
(* --------------------------------------------------------------------- *)



(* --------------------------------------------------------------------- *)
(** ** Staging *)
(* --------------------------------------------------------------------- *)

Section Staging.

Context {World : Type}.
Variable execute : list string -> World -> GitDeploy.CompletedProcess * World.
Variable path_exists : string -> World -> bool.

(** A path whose file is gone is reported and passed over: no command
    runs, nothing is raised. *)
Lemma stage_path_missing (self : GitDeploy.Script) (p : string) (t : GitDeploy.Trace) :
  path_exists (OsPath.join (GitDeploy.repo_root self) p) (GitDeploy.world t) = false ->
  GitDeploy.stage_path execute path_exists self p t
  = (GitDeploy.Ok tt, GitDeploy.say [GitDeploy.warning p] t).
Proof.
  intros H. unfold GitDeploy.stage_path. step. now rewrite H.
Qed.

(** A path whose file is there is handed to [git add]. *)
Lemma stage_path_present (self : GitDeploy.Script) (p : string) (t : GitDeploy.Trace) :
  path_exists (OsPath.join (GitDeploy.repo_root self) p) (GitDeploy.world t) = true ->
  GitDeploy.calls (snd (GitDeploy.stage_path execute path_exists self p t))
  = GitDeploy.calls t ++ [["git"; "add"; p]].
Proof.
  intros H. unfold GitDeploy.stage_path. step. rewrite H.
  pose proof (run_command_checked_calls execute ["git"; "add"; p] t) as Hp.
  now destruct (GitDeploy._run_command execute ["git"; "add"; p] true t) as [[a|c|e] t2].
Qed.

Lemma say_nil (t : @GitDeploy.Trace World) : GitDeploy.say [] t = t.
Proof. destruct t. unfold GitDeploy.say. cbn. now rewrite app_nil_r. Qed.

Lemma say_say (l1 l2 : list string) (t : @GitDeploy.Trace World) :
  GitDeploy.say l2 (GitDeploy.say l1 t) = GitDeploy.say (l1 ++ l2) t.
Proof. unfold GitDeploy.say. cbn. now rewrite app_assoc. Qed.

Lemma for_each_stage_missing (self : GitDeploy.Script) (l : list string)
    (t : GitDeploy.Trace) :
  (forall p, In p l ->
     path_exists (OsPath.join (GitDeploy.repo_root self) p) (GitDeploy.world t) = false) ->
  GitDeploy.for_each l (GitDeploy.stage_path execute path_exists self) t
  = (GitDeploy.Ok tt, GitDeploy.say (map GitDeploy.warning l) t).
Proof.
  revert t. induction l as [|p l IH]; intros t H.
  - cbn. now rewrite say_nil.
  - cbn [GitDeploy.for_each]. step.
    rewrite stage_path_missing by (apply H; now left).
    rewrite IH by (intros q Hq; apply H; now right).
    now rewrite say_say.
Qed.

(** X26. When every modified, added and untracked path is gone from the
    disk and nothing is to be removed, staging ends normally without
    running a single command, and prints a warning for each path. *)
Lemma stage_changes_all_missing (self : GitDeploy.Script) (t : GitDeploy.Trace) :
  GitDeploy.deleted (GitDeploy.changes self) = [] ->
  (forall p,
     In p (GitDeploy.modified (GitDeploy.changes self)
           ++ GitDeploy.added (GitDeploy.changes self)
           ++ GitDeploy.untracked (GitDeploy.changes self)) ->
     path_exists (OsPath.join (GitDeploy.repo_root self) p) (GitDeploy.world t) = false) ->
  fst (GitDeploy.stage_changes execute path_exists self t) = GitDeploy.Ok tt
  /\ GitDeploy.calls (snd (GitDeploy.stage_changes execute path_exists self t))
     = GitDeploy.calls t
  /\ forall p,
       In p (GitDeploy.modified (GitDeploy.changes self)
             ++ GitDeploy.added (GitDeploy.changes self)
             ++ GitDeploy.untracked (GitDeploy.changes self)) ->
       In (GitDeploy.warning p)
          (GitDeploy.printed (snd (GitDeploy.stage_changes execute path_exists self t))).
Proof.
  intros Hd H. unfold GitDeploy.stage_changes. rewrite Hd.
  cbn [GitDeploy.for_each]. step.
  rewrite !for_each_stage_missing;
    try (intros p Hp; apply H; rewrite !in_app_iff; tauto).
  cbn. repeat split. intros p Hp.
  rewrite !in_app_iff in *. cbn.
  assert (Hw : forall l, In p l -> In (GitDeploy.warning p) (map GitDeploy.warning l))
    by (intros l; apply in_map).
  destruct Hp as [Hp | [Hp | Hp]]; apply Hw in Hp; tauto.
Qed.

(** The removal from the index runs for every deleted path, whatever
    [git ls-files --error-unmatch] answered. *)
Lemma stage_removal_calls (p : string) (t : GitDeploy.Trace) :
  GitDeploy.calls (snd (GitDeploy.stage_removal execute p t))
  = GitDeploy.calls t
    ++ [["git"; "ls-files"; "--error-unmatch"; p]; ["git"; "rm"; "--cached"; p]].
Proof.
  unfold GitDeploy.stage_removal. step. rewrite run_command_unchecked.
  set (t1 := GitDeploy.after execute _ t).
  pose proof (run_command_checked_calls execute ["git"; "rm"; "--cached"; p] t1) as Hp.
  destruct (GitDeploy._run_command execute ["git"; "rm"; "--cached"; p] true t1)
    as [[a|c|e] t2]; cbn [snd] in *; rewrite Hp; unfold t1; cbn;
    now rewrite <- app_assoc.
Qed.

(** When the path is no longer tracked and [git rm --cached] fails on it,
    the script leaves with status 1. *)
Lemma stage_removal_untracked (p : string) (t : GitDeploy.Trace) :
  let ls := ["git"; "ls-files"; "--error-unmatch"; p] in
  let rm := ["git"; "rm"; "--cached"; p] in
  GitDeploy.returncode (GitDeploy.answer execute ls t) <> 0%Z ->
  GitDeploy.returncode (GitDeploy.answer execute rm (GitDeploy.after execute ls t)) <> 0%Z ->
  fst (GitDeploy.stage_removal execute p t) = GitDeploy.Exit 1.
Proof.
  intros ls rm _ Hrm. unfold GitDeploy.stage_removal. step.
  rewrite run_command_unchecked. fold ls rm.
  now rewrite (run_command_checked_fail execute rm _ Hrm).
Qed.

End Staging.

(** C4, at an input where the code departs from it.  The porcelain line
    [RD old.txt -> new.txt] (a rename in the index whose file is gone from
    the working tree) puts [old.txt -> new.txt] among the deleted paths.
    No such path is tracked: [git ls-files --error-unmatch] fails, the
    removal from the index is attempted all the same, fails too, and the
    script leaves with status 1 before any commit. *)
Theorem stage_changes_stale_deleted :
  let w := Sim.repo ("M  app.py" +:+ Py.LF +:+ "RD old.txt -> new.txt" +:+ Py.LF) None
             ["app.py"] ["app.py"; "new.txt"] Sim.login_log in
  let self :=
    Sim.script {| GitDeploy.added := []; GitDeploy.modified := ["app.py"];
                  GitDeploy.deleted := ["old.txt -> new.txt"];
                  GitDeploy.untracked := [] |} None in
  GitDeploy.parse_status_lines GitDeploy.no_changes
    (Py.split (Py.strip (Sim.porcelain w)) Py.LF)
  = Some (GitDeploy.changes self)
  /\ GitDeploy.returncode
       (GitDeploy.answer Sim.execute
          ["git"; "ls-files"; "--error-unmatch"; "old.txt -> new.txt"] (Sim.start w))
     = 1%Z
  /\ fst (GitDeploy.stage_changes Sim.execute Sim.path_exists self (Sim.start w))
     = GitDeploy.Exit 1
  /\ GitDeploy.calls
       (snd (GitDeploy.stage_changes Sim.execute Sim.path_exists self (Sim.start w)))
     = [ ["git"; "add"; "app.py"];
         ["git"; "ls-files"; "--error-unmatch"; "old.txt -> new.txt"];
         ["git"; "rm"; "--cached"; "old.txt -> new.txt"] ]
  /\ fst (Sim.main w) = SysExit 1
  /\ Sim.commits (GitDeploy.world (snd (Sim.main w))) = [].
Proof. vm_compute. repeat split; reflexivity. Qed.

(** The first half of C4 holds: stale paths among the modified, added and
    untracked files are reported and skipped. *)
Example stage_changes_stale_added :
  let self :=
    Sim.script {| GitDeploy.added := ["gone.py"]; GitDeploy.modified := ["app.py"];
                  GitDeploy.deleted := []; GitDeploy.untracked := [] |} None in
  let t0 := Sim.start (Sim.repo EmptyString None ["app.py"] ["app.py"] Sim.login_log) in
  let '(r, t) := GitDeploy.stage_changes Sim.execute Sim.path_exists self t0 in
  r = GitDeploy.Ok tt
  /\ GitDeploy.calls t = [["git"; "add"; "app.py"]]
  /\ In "   Warning: Skipping non-existent file: gone.py" (GitDeploy.printed t).
Proof. vm_compute. tauto. Qed.

(* --------------------------------------------------------------------- *)
(** ** The commit message *)
(* --------------------------------------------------------------------- *)

Lemma startswith_split (p s : string) :
  Py.startswith s p = true -> s = p +:+ Py.drop (String.length p) s.
Proof.
  revert s. induction p as [|a p IH]; intros s H; [reflexivity|].
  destruct s as [|b s]; [discriminate|].
  cbn [Py.startswith] in H. apply andb_true_iff in H as [Hab Hp].
  apply Ascii.eqb_eq in Hab. subst b.
  change (String a s = String a (p +:+ Py.drop (String.length p) s)).
  f_equal. now apply IH.
Qed.

(** Rewrite a line known to start with [p] as [p +:+ rest]. *)
Ltac split_line H l :=
  apply startswith_split in H;
  let rest := fresh "rest" in
  remember (Py.drop _ l) as rest eqn:Hrest in H; clear Hrest; subst l.

Lemma parse_info_line_login (d : GitDeploy.DeploymentInfo) (l : string) :
  (Py.startswith l "Title:" = true -> l = "Title: Fix login bug") ->
  (Py.startswith l "Deployment Number:" = true -> l = "Deployment Number: 42") ->
  exists d',
    GitDeploy.parse_info_line d l = Some d'
    /\ GitDeploy.title d'
       = (if Py.startswith l "Title:" then "Fix login bug" else GitDeploy.title d)
    /\ GitDeploy.deployment_number d'
       = (if Py.startswith l "Deployment Number:" then "42"
          else GitDeploy.deployment_number d).
Proof.
  intros HT HN. unfold GitDeploy.parse_info_line.
  destruct (Py.startswith l "Deployment Number:") eqn:E1.
  { rewrite (HN eq_refl). eexists. repeat split. }
  destruct (Py.startswith l "Deployment Date:") eqn:E2.
  { clear HT HN E1. split_line E2 l. eexists. repeat split. }
  destruct (Py.startswith l "Deployed By:") eqn:E3.
  { clear HT HN E1 E2. split_line E3 l. eexists. repeat split. }
  destruct (Py.startswith l "Title:") eqn:E4.
  { rewrite (HT eq_refl). eexists. repeat split. }
  destruct (Py.startswith l "Description:") eqn:E5.
  { clear HT HN E1 E2 E3 E4. split_line E5 l. eexists. repeat split. }
  eexists. repeat split.
Qed.

Lemma parse_info_lines_login (lines : list string) :
  (forall l, In l lines -> Py.startswith l "Title:" = true -> l = "Title: Fix login bug") ->
  (forall l, In l lines -> Py.startswith l "Deployment Number:" = true ->
             l = "Deployment Number: 42") ->
  forall d, exists d',
    GitDeploy.parse_info_lines d lines = (d', true)
    /\ GitDeploy.title d'
       = (if existsb (fun l => Py.startswith l "Title:") lines
          then "Fix login bug" else GitDeploy.title d)
    /\ GitDeploy.deployment_number d'
       = (if existsb (fun l => Py.startswith l "Deployment Number:") lines
          then "42" else GitDeploy.deployment_number d).
Proof.
  induction lines as [|l lines IH]; intros HT HN d.
  - exists d. repeat split.
  - destruct (parse_info_line_login d l) as (d1 & H1 & Ht1 & Hn1).
    { apply HT. now left. }
    { apply HN. now left. }
    destruct (IH (fun x Hx => HT x (or_intror Hx)) (fun x Hx => HN x (or_intror Hx)) d1)
      as (d' & H' & Ht' & Hn').
    exists d'. cbn [GitDeploy.parse_info_lines existsb]. rewrite H1, H'.
    split; [reflexivity|]. rewrite Ht', Hn', Ht1, Hn1.
    split.
    + destruct (Py.startswith l "Title:"),
        (existsb (fun l0 => Py.startswith l0 "Title:") lines); reflexivity.
    + destruct (Py.startswith l "Deployment Number:"),
        (existsb (fun l0 => Py.startswith l0 "Deployment Number:") lines); reflexivity.
Qed.

(** C2. For a deployment log with the lines [Title: Fix login bug] and
    [Deployment Number: 42] (and no other title or number line), the
    parse succeeds and the first line of the commit message built from
    the parsed record is [Deployment 42: Fix login bug]. *)
Theorem deployment_commit_first_line
    (content : string) (self : GitDeploy.Script) (branch : option string)
    (stamp iso : string) :
  let lines := Py.split content Py.LF in
  In "Title: Fix login bug" lines ->
  In "Deployment Number: 42" lines ->
  (forall l, In l lines -> Py.startswith l "Title:" = true ->
             l = "Title: Fix login bug") ->
  (forall l, In l lines -> Py.startswith l "Deployment Number:" = true ->
             l = "Deployment Number: 42") ->
  GitDeploy.deployment_info self
  = Some (fst (GitDeploy.parse_deployment_content content)) ->
  snd (GitDeploy.parse_deployment_content content) = true
  /\ Py.first_line (GitDeploy.full_message self branch stamp iso)
     = "Deployment 42: Fix login bug".
Proof.
  intros lines InT InN HT HN Hself.
  destruct (parse_info_lines_login lines HT HN GitDeploy.empty_info)
    as (d & Hp & Ht & Hn).
  unfold GitDeploy.parse_deployment_content in *. fold lines in Hself |- *.
  rewrite Hp in Hself |- *. cbn [fst snd] in *.
  assert (Et : existsb (fun l => Py.startswith l "Title:") lines = true).
  { apply existsb_exists. eexists. split; [exact InT | reflexivity]. }
  assert (En : existsb (fun l => Py.startswith l "Deployment Number:") lines = true).
  { apply existsb_exists. eexists. split; [exact InN | reflexivity]. }
  rewrite Et in Ht. rewrite En in Hn.
  split; [reflexivity|].
  unfold GitDeploy.full_message, GitDeploy.commit_message.
  rewrite Hself, Ht, Hn. reflexivity.
Qed.

(** A log with all five fields. *)
Lemma deployment_commit_first_line_witness :
  snd (GitDeploy.parse_deployment_content Sim.login_log) = true
  /\ Py.first_line
       (GitDeploy.full_message
          (Sim.script GitDeploy.no_changes
             (Some (fst (GitDeploy.parse_deployment_content Sim.login_log))))
          (Some "main") "2025-01-01 00:00:00" "2025-01-01T00:00:00")
     = "Deployment 42: Fix login bug".
Proof.
  apply (deployment_commit_first_line Sim.login_log).
  - vm_compute. tauto.
  - vm_compute. tauto.
  - intros l Hl. vm_compute in Hl.
    repeat (destruct Hl as [<- | Hl]; [vm_compute; congruence|]). contradiction.
  - intros l Hl. vm_compute in Hl.
    repeat (destruct Hl as [<- | Hl]; [vm_compute; congruence|]). contradiction.
  - reflexivity.
Defined.

Lemma commit_message_titled (self : GitDeploy.Script) (d : GitDeploy.DeploymentInfo)
    (stamp : string) :
  GitDeploy.deployment_info self = Some d ->
  GitDeploy.title d <> EmptyString ->
  GitDeploy.commit_message self stamp
  = "Deployment " +:+ GitDeploy.deployment_number d +:+ ": " +:+ GitDeploy.title d.
Proof.
  intros Hd Ht. unfold GitDeploy.commit_message. rewrite Hd.
  apply String.eqb_neq in Ht. now rewrite Ht.
Qed.

(** C7, at an input where the code departs from it.  With a title of a
    hundred characters the record keeps the whole title, the copy cut to
    72 characters sits unused in [claude_analysis], and the first line of
    the commit message has 115 characters. *)
Theorem long_title_not_truncated :
  let d := fst (GitDeploy.parse_deployment_content Sim.long_log) in
  let self := Sim.script GitDeploy.no_changes (Some d) in
  String.length (GitDeploy.title d) = 100
  /\ String.length (GitDeploy.deployment_comment (GitDeploy.analysis_of d)) = 72
  /\ Py.first_line
       (GitDeploy.full_message self (Some "main") "2025-01-01 00:00:00"
          "2025-01-01T00:00:00")
     = "Deployment 42: " +:+ Sim.long_title
  /\ String.length
       (Py.first_line
          (GitDeploy.full_message self (Some "main") "2025-01-01 00:00:00"
             "2025-01-01T00:00:00"))
     = 115.
Proof. vm_compute. repeat split; reflexivity. Qed.

Example long_title_run :
  let '(ended, t) :=
    Sim.main (Sim.repo ("M  app.py" +:+ Py.LF) (Some "origin/main")
                ["app.py"] ["app.py"] Sim.long_log) in
  ended = Returned
  /\ map (fun m => String.length (Py.first_line m)) (Sim.commits (GitDeploy.world t))
     = [115].
Proof. vm_compute. tauto. Qed.

(* --------------------------------------------------------------------- *)
(** ** The porcelain lines *)
(* --------------------------------------------------------------------- *)

Lemma parse_status_lines_app (c : GitDeploy.ChangeSet) (l1 l2 : list string) :
  GitDeploy.parse_status_lines c (l1 ++ l2)
  = match GitDeploy.parse_status_lines c l1 with
    | Some c' => GitDeploy.parse_status_lines c' l2
    | None => None
    end.
Proof.
  revert c. induction l1 as [|l l1 IH]; intros c; [reflexivity|].
  cbn [app GitDeploy.parse_status_lines].
  destruct (GitDeploy.parse_status_line c l); [apply IH | reflexivity].
Qed.

(** C10, as the code has it.  A porcelain line whose status code is not
    [??], has [M] and [A] in neither position and has no [D] in the
    second position (a rename, a copy, a deletion already staged) leaves
    the four lists as they are: the change set is the one parsed from the
    output without that line. *)
Theorem unlisted_status_line_dropped
    (c0 c : GitDeploy.ChangeSet) (before rest_lines : list string)
    (staged working : ascii) (rest : string) :
  let line := String staged (String working rest) in
  ~ (staged = "?"%char /\ working = "?"%char) ->
  staged <> "M"%char -> working <> "M"%char ->
  staged <> "A"%char -> working <> "A"%char ->
  working <> "D"%char ->
  GitDeploy.parse_status_line c line = Some c
  /\ GitDeploy.parse_status_lines c0 (before ++ line :: rest_lines)
     = GitDeploy.parse_status_lines c0 (before ++ rest_lines).
Proof.
  intros line Hq HsM HwM HsA HwA HwD.
  assert (Hline : forall c, GitDeploy.parse_status_line c line = Some c).
  { intros c1. unfold GitDeploy.parse_status_line, Py.take, line.
    cbn [String.eqb String.substring].
    apply Ascii.eqb_neq in HsM, HwM, HsA, HwA, HwD.
    rewrite HsM, HwM, HsA, HwA, HwD. cbn [orb].
    destruct (Ascii.eqb_spec staged "?") as [Hs|Hs],
      (Ascii.eqb_spec working "?") as [Hw|Hw];
      cbn [andb]; try (now destruct (Ascii.eqb staged "D")).
    exfalso. apply Hq. now split. }
  split; [apply Hline|].
  rewrite !parse_status_lines_app.
  destruct (GitDeploy.parse_status_lines c0 before) as [c1|]; [|reflexivity].
  cbn [GitDeploy.parse_status_lines]. now rewrite Hline.
Qed.

(** A staged rename between a staged modification and a staged deletion. *)
Lemma unlisted_status_line_dropped_witness :
  GitDeploy.parse_status_line GitDeploy.no_changes "R  old.py -> new.py"
  = Some GitDeploy.no_changes
  /\ GitDeploy.parse_status_lines GitDeploy.no_changes
       (["M  app.py"] ++ "R  old.py -> new.py" :: ["D  gone.py"])
     = GitDeploy.parse_status_lines GitDeploy.no_changes (["M  app.py"] ++ ["D  gone.py"]).
Proof.
  apply (unlisted_status_line_dropped GitDeploy.no_changes GitDeploy.no_changes
           ["M  app.py"] ["D  gone.py"] "R" " " " old.py -> new.py");
    try discriminate.
  intros [H _]. discriminate H.
Defined.

Example check_git_status_lines :
  GitDeploy.parse_status_lines GitDeploy.no_changes
    ["M  app.py"; "?? new.txt"; "A  lib.py"; "R  old.py -> new.py"; "D  gone.py";
     "C  a.py -> b.py"; "AD tmp.py"; "MM both.py"]
  = Some {| GitDeploy.added := ["lib.py"; "tmp.py"];
            GitDeploy.modified := ["app.py"; "both.py"];
            GitDeploy.deleted := [];
            GitDeploy.untracked := ["new.txt"] |}.
Proof. reflexivity. Qed.

(** C10 does not hold as written: the line is left out of the four lists,
    but its file is not left out of the commit.  When the status is one
    staged rename, the change set is empty and the script runs no
    [git add] and no [git rm]; it still runs [git commit -m] with a
    message and no path, while the index holds the renamed file, and
    pushes. *)
Lemma staged_rename_committed :
  let w :=
    Sim.repo ("R  old.py -> new.py" +:+ Py.LF) (Some "origin/main")
      ["new.py"] ["new.py"] Sim.login_log in
  GitDeploy.parse_status_lines GitDeploy.no_changes
    (Py.split (Py.strip (Sim.porcelain w)) Py.LF) = Some GitDeploy.no_changes
  /\ fst (Sim.main w) = Returned
  /\ (exists message,
        GitDeploy.calls (snd (Sim.main w))
        = [ ["git"; "rev-parse"; "--show-toplevel"]; ["git"; "branch"; "--show-current"];
            ["git"; "status"; "--porcelain"]; ["git"; "commit"; "-m"; message];
            ["git"; "rev-parse"; "--abbrev-ref"; "main@{upstream}"]; ["git"; "push"] ])
  /\ Sim.index (GitDeploy.world (snd (Sim.main w))) = ["new.py"]
  /\ map Py.first_line (Sim.commits (GitDeploy.world (snd (Sim.main w))))
     = ["Deployment 42: Fix login bug"]
  /\ Sim.pushed (GitDeploy.world (snd (Sim.main w))) = [["git"; "push"]].
Proof. vm_compute. repeat split. eexists. reflexivity. Qed.

(* --------------------------------------------------------------------- *)
(** ** Nothing to do *)
(* --------------------------------------------------------------------- *)

(** C6 does not hold of the analyzer.  On a clean working tree the three
    queries print nothing, no file is listed, and the process leaves with
    status 1. *)
Lemma analyzer_clean_tree_exit_1 :
  Analyzer.get_git_changes (Analyzer.git_outputs Sim.clean_env) = []
  /\ exit_status (Analyzer.ended (Analyzer.main Sim.clean_env)) <> 0%Z.
Proof. vm_compute. split; [reflexivity | discriminate]. Qed.

Lemma analyzer_no_changes (e : Analyzer.Env) :
  Analyzer.get_git_changes (Analyzer.git_outputs e) = [] ->
  Analyzer.ended (Analyzer.main e) = SysExit 1.
Proof. intros H. unfold Analyzer.main. now rewrite H. Qed.

Section NothingToDeploy.

Context {World : Type}.
Variable execute : list string -> World -> GitDeploy.CompletedProcess * World.
Variable path_exists : string -> World -> bool.
Variable glob_logs : string -> World -> list (string * Z).
Variable read_text : string -> World -> option string.
Variable write_text : string -> string -> World -> World.
Variable strftime_now : string -> World -> string.
Variable isoformat_now : World -> string.
Variable getcwd : World -> string.

Let main := GitDeploy.main execute path_exists glob_logs read_text write_text
              strftime_now isoformat_now getcwd.

Lemma deploy_no_changes (t : GitDeploy.Trace) :
  let toplevel := execute ["git"; "rev-parse"; "--show-toplevel"] (GitDeploy.world t) in
  let branch := execute ["git"; "branch"; "--show-current"] (snd toplevel) in
  let status := execute ["git"; "status"; "--porcelain"] (snd branch) in
  GitDeploy.returncode (fst toplevel) = 0%Z ->
  GitDeploy.returncode (fst branch) = 0%Z ->
  GitDeploy.returncode (fst status) = 0%Z ->
  Py.strip (GitDeploy.stdout (fst status)) = EmptyString ->
  fst (main t) = Returned
  /\ GitDeploy.calls (snd (main t))
     = GitDeploy.calls t
       ++ [ ["git"; "rev-parse"; "--show-toplevel"]; ["git"; "branch"; "--show-current"];
            ["git"; "status"; "--porcelain"] ]
  /\ GitDeploy.printed (snd (main t))
     = GitDeploy.printed t
       ++ [ "[*] Git Deployment Script Started";
            Py.join EmptyString (List.repeat "=" 50);
            "[*] Checking git status...";
            "   Current branch: " +:+ Py.strip (GitDeploy.stdout (fst branch));
            "   No changes to commit";
            Py.LF +:+ "[+] Nothing to deploy" ].
Proof.
  intros toplevel branch status. subst main toplevel branch status.
  unfold GitDeploy.main, GitDeploy.try_except, GitDeploy.init, GitDeploy._find_git_root,
    GitDeploy.run, GitDeploy.check_git_status, GitDeploy._run_command,
    GitDeploy.subprocess_run.
  step.
  destruct (execute ["git"; "rev-parse"; "--show-toplevel"] (GitDeploy.world t))
    as [r1 w1].
  cbn [fst snd]. intros H1. rewrite H1. cbn.
  destruct (execute ["git"; "branch"; "--show-current"] w1) as [r2 w2].
  cbn [fst snd]. intros H2. rewrite H2. cbn.
  destruct (execute ["git"; "status"; "--porcelain"] w2) as [r3 w3].
  cbn [fst snd]. intros H3 H4. rewrite H3. cbn. rewrite H4. cbn.
  rewrite <- !app_assoc. repeat split.
Qed.

End NothingToDeploy.

(** C6, as the code has it.  On a working tree without changes the
    deployment script prints that there is nothing to deploy, runs no
    further command and ends with status 0; the analyzer leaves with
    status 1. *)
Theorem nothing_to_do_statuses {World : Type}
    (execute : list string -> World -> GitDeploy.CompletedProcess * World)
    (path_exists : string -> World -> bool)
    (glob_logs : string -> World -> list (string * Z))
    (read_text : string -> World -> option string)
    (write_text : string -> string -> World -> World)
    (strftime_now : string -> World -> string)
    (isoformat_now getcwd : World -> string)
    (t : GitDeploy.Trace) (e : Analyzer.Env) :
  let toplevel := execute ["git"; "rev-parse"; "--show-toplevel"] (GitDeploy.world t) in
  let branch := execute ["git"; "branch"; "--show-current"] (snd toplevel) in
  let status := execute ["git"; "status"; "--porcelain"] (snd branch) in
  let deploy := GitDeploy.main execute path_exists glob_logs read_text write_text
                  strftime_now isoformat_now getcwd t in
  GitDeploy.returncode (fst toplevel) = 0%Z ->
  GitDeploy.returncode (fst branch) = 0%Z ->
  GitDeploy.returncode (fst status) = 0%Z ->
  Py.strip (GitDeploy.stdout (fst status)) = EmptyString ->
  Analyzer.get_git_changes (Analyzer.git_outputs e) = [] ->
  (exit_status (fst deploy) = 0%Z
   /\ GitDeploy.calls (snd deploy)
      = GitDeploy.calls t
        ++ [ ["git"; "rev-parse"; "--show-toplevel"]; ["git"; "branch"; "--show-current"];
             ["git"; "status"; "--porcelain"] ]
   /\ In (Py.LF +:+ "[+] Nothing to deploy") (GitDeploy.printed (snd deploy)))
  /\ exit_status (Analyzer.ended (Analyzer.main e)) = 1%Z.
Proof.
  intros toplevel branch status deploy H1 H2 H3 H4 He.
  destruct (deploy_no_changes execute path_exists glob_logs read_text write_text
              strftime_now isoformat_now getcwd t H1 H2 H3 H4) as (Hr & Hc & Hp).
  subst deploy. rewrite Hr, Hc, Hp, (analyzer_no_changes e He). repeat split.
  apply in_or_app. right. cbn [In]. tauto.
Qed.

(** Both scripts on a clean working tree. *)
Lemma nothing_to_do_statuses_witness :
  (exit_status (fst (Sim.main (Sim.repo EmptyString None [] [] Sim.login_log))) = 0%Z
   /\ GitDeploy.calls (snd (Sim.main (Sim.repo EmptyString None [] [] Sim.login_log)))
      = [] ++ [ ["git"; "rev-parse"; "--show-toplevel"]; ["git"; "branch"; "--show-current"];
                ["git"; "status"; "--porcelain"] ]
   /\ In (Py.LF +:+ "[+] Nothing to deploy")
         (GitDeploy.printed (snd (Sim.main (Sim.repo EmptyString None [] []
                                             Sim.login_log)))))
  /\ exit_status (Analyzer.ended (Analyzer.main Sim.clean_env)) = 1%Z.
Proof.
  apply (nothing_to_do_statuses Sim.execute Sim.path_exists Sim.glob_logs Sim.read_text
           Sim.set_text Sim.strftime_now Sim.isoformat_now Sim.getcwd
           (Sim.start (Sim.repo EmptyString None [] [] Sim.login_log)) Sim.clean_env);
    reflexivity.
Defined.

(* ===================================================================== *)
(** * Further properties of the analyzer *)
(* ===================================================================== *)

(* --------------------------------------------------------------------- *)
(** ** The three lists as filters *)
(* --------------------------------------------------------------------- *)

Lemma without_filter (q : string -> bool) (files l : list string) :
  (forall f, In f l -> In f files) ->
  Analyzer.without (List.filter q files) l = List.filter (fun f => negb (q f)) l.
Proof.
  intros Hsub. unfold Analyzer.without. apply filter_ext_in. intros f Hf.
  f_equal. apply eq_true_iff_eq. rewrite listed_iff, filter_In.
  specialize (Hsub f Hf). tauto.
Qed.

Lemma partition_three (p q : string -> bool) (files : list string) :
  (forall f, p f = true -> q f = false) ->
  Permutation files
    (List.filter p files ++ List.filter q files
     ++ List.filter (fun f => negb (q f)) (List.filter (fun f => negb (p f)) files)).
Proof.
  intros Hpq. induction files as [|f files IH]; [constructor|].
  cbn [List.filter]. destruct (p f) eqn:Hp; cbn [negb].
  - rewrite (Hpq f Hp). cbn. now constructor.
  - cbn [List.filter]. destruct (q f); cbn [negb].
    + now apply Permutation_cons_app.
    + rewrite app_assoc. apply Permutation_cons_app. now rewrite <- app_assoc.
Qed.

(** X1. The three lists of [classify] split the changed files: taken
    together they are the input list, up to order, so every occurrence of
    a path lands in exactly one of them. *)
Theorem classify_partition
    (cwd : string) (parser : Analyzer.GitignoreParser) (files : list string) :
  Permutation files
    (fst (fst (Analyzer.classify cwd files parser))
     ++ snd (fst (Analyzer.classify cwd files parser))
     ++ snd (Analyzer.classify cwd files parser)).
Proof.
  unfold Analyzer.classify. rewrite check_sensitive_files_filter. cbn [fst snd].
  rewrite (without_filter _ files files) by auto.
  rewrite (without_filter _ files).
  2:{ intros f Hf. apply filter_In in Hf. tauto. }
  apply partition_three. intros f Hf.
  apply andb_true_iff in Hf as [Hf _]. now apply negb_true_iff in Hf.
Qed.

(* --------------------------------------------------------------------- *)
(** ** Loading the ignore rules *)
(* --------------------------------------------------------------------- *)

Section Rules.

(** The patterns one raw line of a rule file adds. *)
Let rule_of (base_dir raw : string) : list string :=
  let line := Py.strip raw in
  if String.eqb line EmptyString || Py.startswith line "#" then []
  else [Analyzer.gitignore_pattern base_dir line].

Let rules_of (entry : string * Analyzer.RuleFile) : list string :=
  flat_map (rule_of (fst entry)) (Py.split (Analyzer.iterated (snd entry)) Py.LF).

Lemma parse_gitignore_fold (base_dir : string) (lines acc : list string) :
  fold_left
    (fun acc raw =>
       let line := Py.strip raw in
       if String.eqb line EmptyString || Py.startswith line "#" then acc
       else acc ++ [Analyzer.gitignore_pattern base_dir line])
    lines acc
  = acc ++ flat_map (rule_of base_dir) lines.
Proof.
  revert acc. induction lines as [|raw lines IH]; intros acc; cbn [fold_left flat_map].
  - now rewrite app_nil_r.
  - rewrite IH. unfold rule_of at 2.
    destruct (String.eqb (Py.strip raw) EmptyString || Py.startswith (Py.strip raw) "#");
      cbn [app]; [reflexivity | now rewrite <- app_assoc].
Qed.

Lemma parse_gitignore_file_app (content base_dir : string) (acc : list string) :
  Analyzer._parse_gitignore_file content base_dir acc
  = acc ++ flat_map (rule_of base_dir) (Py.split content Py.LF).
Proof. apply parse_gitignore_fold. Qed.

Lemma load_gitignore_fold (found : list (string * Analyzer.RuleFile))
    (acc : list string) :
  fold_left
    (fun acc entry =>
       Analyzer._parse_gitignore_file (Analyzer.iterated (snd entry)) (fst entry) acc)
    found acc
  = acc ++ flat_map rules_of found.
Proof.
  revert acc. induction found as [|[base file] found IH]; intros acc;
    cbn [fold_left flat_map fst snd].
  - now rewrite app_nil_r.
  - rewrite IH. unfold rules_of at 2. cbn [fst snd].
    now rewrite parse_gitignore_file_app, <- app_assoc.
Qed.

Lemma load_gitignore_app (found more : list (string * Analyzer.RuleFile)) :
  Analyzer._load_gitignore (found ++ more)
  = Analyzer._load_gitignore found ++ Analyzer._load_gitignore more.
Proof.
  unfold Analyzer._load_gitignore. rewrite !load_gitignore_fold. cbn [app].
  apply flat_map_app.
Qed.

Lemma load_gitignore_cons (base_dir : string) (file : Analyzer.RuleFile)
    (found : list (string * Analyzer.RuleFile)) :
  Analyzer._load_gitignore ((base_dir, file) :: found)
  = Analyzer._parse_gitignore_file (Analyzer.iterated file) base_dir []
    ++ Analyzer._load_gitignore found.
Proof.
  unfold Analyzer._load_gitignore. rewrite !load_gitignore_fold. cbn [app flat_map].
  f_equal. unfold rules_of. cbn [fst snd].
  now rewrite parse_gitignore_file_app.
Qed.

Lemma comment_lines_no_rule (base_dir : string) (lines : list string) :
  (forall raw, In raw lines ->
     Py.strip raw = EmptyString \/ Py.startswith (Py.strip raw) "#" = true) ->
  flat_map (rule_of base_dir) lines = [].
Proof.
  induction lines as [|raw lines IH]; intros H; [reflexivity|].
  cbn [flat_map]. rewrite IH by (intros r Hr; apply H; now right).
  unfold rule_of. destruct (H raw (or_introl eq_refl)) as [-> | ->].
  - reflexivity.
  - now rewrite orb_true_r.
Qed.

End Rules.

(** X2. Rules only ever add ignored paths: a path ignored under the rule
    files found so far stays ignored when further rule files are loaded,
    whatever their lines are (a line starting with [!] does not take a
    path back out). *)
Theorem should_ignore_monotone
    (cwd root : string) (found more : list (string * Analyzer.RuleFile))
    (file : string) :
  Analyzer.should_ignore cwd (Analyzer.new_parser root found) file = true ->
  Analyzer.should_ignore cwd (Analyzer.new_parser root (found ++ more)) file = true.
Proof.
  unfold Analyzer.should_ignore, Analyzer.new_parser. cbn [Analyzer.ignore_patterns].
  rewrite load_gitignore_app, existsb_app. intros ->. reflexivity.
Qed.

(** A rule file that un-ignores in git: [*.log] followed by [!keep.log]. *)
Lemma should_ignore_monotone_witness :
  Analyzer.should_ignore "/repo"
    (Analyzer.new_parser "/repo"
       ([("/repo", Analyzer.Whole ("*.log" +:+ Py.LF))]
        ++ [("/repo", Analyzer.Whole ("!keep.log" +:+ Py.LF))]))
    "logs/keep.log" = true.
Proof.
  apply (should_ignore_monotone "/repo" "/repo"
           [("/repo", Analyzer.Whole ("*.log" +:+ Py.LF))]
           [("/repo", Analyzer.Whole ("!keep.log" +:+ Py.LF))] "logs/keep.log").
  reflexivity.
Defined.

(** X3. A rule file of which the loop reads nothing but blank lines and
    comments contributes no pattern, and the loaded rules are those of
    the other files.  This covers the file read to its end, the file
    whose read fails after such lines, and the file that cannot be
    opened, of which no line is read. *)
Theorem load_gitignore_skips_empty
    (base_dir : string) (file : Analyzer.RuleFile)
    (found : list (string * Analyzer.RuleFile)) :
  (forall raw, In raw (Py.split (Analyzer.iterated file) Py.LF) ->
     Py.strip raw = EmptyString \/ Py.startswith (Py.strip raw) "#" = true) ->
  Analyzer._load_gitignore ((base_dir, file) :: found)
  = Analyzer._load_gitignore found.
Proof.
  intros H. rewrite load_gitignore_cons.
  rewrite parse_gitignore_file_app, comment_lines_no_rule; [reflexivity | exact H].
Qed.

(** A read that fails after a comment and a blank line. *)
Lemma load_gitignore_skips_empty_witness :
  Analyzer._load_gitignore
    (("/repo/docs", Analyzer.Broken ("# notes" +:+ Py.LF +:+ "   " +:+ Py.LF))
     :: [("/repo", Analyzer.Whole ("/build/*" +:+ Py.LF))])
  = Analyzer._load_gitignore [("/repo", Analyzer.Whole ("/build/*" +:+ Py.LF))].
Proof.
  apply (load_gitignore_skips_empty "/repo/docs"
           (Analyzer.Broken ("# notes" +:+ Py.LF +:+ "   " +:+ Py.LF))).
  intros raw Hraw. vm_compute in Hraw.
  repeat (destruct Hraw as [<- | Hraw]; [vm_compute; tauto|]). contradiction.
Defined.

(** A file that cannot be opened adds nothing; a read that fails on the
    third line keeps the rules of the first two. *)
Example load_gitignore_broken :
  Analyzer._load_gitignore
    [("/repo/docs", Analyzer.Broken EmptyString);
     ("/repo", Analyzer.Broken ("*.log" +:+ Py.LF +:+ "/build/*" +:+ Py.LF))]
  = ["/repo/**/*.log"; "/repo/build/*"].
Proof. reflexivity. Qed.

(** X4. The analyzer ends with status 0 or 1, and with 0 exactly when
    some file changed, none of the changed files was flagged as sensitive,
    some file is left once the ignored ones are removed, and both files
    under [/tmp] were written. *)
Theorem analyzer_success_iff (e : Analyzer.Env) :
  let changed := Analyzer.get_git_changes (Analyzer.git_outputs e) in
  let checked :=
    Analyzer.check_sensitive_files (Analyzer.cwd e) changed
      (Analyzer.new_parser (Analyzer.git_root e) (Analyzer.gitignore_found e)) in
  (exit_status (Analyzer.ended (Analyzer.main e)) = 0%Z
   \/ exit_status (Analyzer.ended (Analyzer.main e)) = 1%Z)
  /\ (exit_status (Analyzer.ended (Analyzer.main e)) = 0%Z <->
      changed <> [] /\ fst checked = []
      /\ Analyzer.exclude_ignored changed (snd checked) <> []
      /\ Analyzer.prompt_write_ok e = true /\ Analyzer.analysis_write_ok e = true).
Proof.
  intros changed checked. subst changed checked. unfold Analyzer.main.
  assert (Hfin : forall (P : Prop) (st : Z),
             (st = 0%Z \/ st = 1%Z) -> (st = 0%Z -> P) -> (P -> st = 0%Z) ->
             (st = 0%Z \/ st = 1%Z) /\ (st = 0%Z <-> P)) by tauto.
  destruct (Analyzer.get_git_changes (Analyzer.git_outputs e)) as [|f files].
  { cbn. apply Hfin; [now right | discriminate | tauto]. }
  destruct (Analyzer.check_sensitive_files _ _ _) as [sensitive ignored].
  cbn [fst snd].
  destruct sensitive as [|s sensitive].
  - cbn [Analyzer.exclude_sensitive].
    destruct (Analyzer.exclude_ignored (f :: files) ignored) as [|g rest].
    { cbn. apply Hfin; [now right | discriminate | tauto]. }
    destruct (Analyzer.prompt_write_ok e), (Analyzer.analysis_write_ok e); cbn;
      apply Hfin; auto; try discriminate;
      try (intros _; repeat split; discriminate);
      intros (_ & _ & _ & H4 & H5); discriminate.
  - destruct (Analyzer.exclude_sensitive e (f :: files) (s :: sensitive)) as [kept app|exc].
    2:{ cbn. apply Hfin; [now right | discriminate |].
        intros (_ & H & _). discriminate H. }
    destruct (Analyzer.exclude_ignored kept ignored) as [|g rest].
    { cbn. apply Hfin; [now right | discriminate |].
      intros (_ & H & _). discriminate H. }
    destruct (Analyzer.prompt_write_ok e), (Analyzer.analysis_write_ok e); cbn;
      (apply Hfin; [now right | discriminate |]);
      intros (_ & H & _); discriminate H.
Qed.

Lemma in_check_sensitive (cwd : string) (parser : Analyzer.GitignoreParser)
    (files : list string) (f : string) :
  In f (fst (Analyzer.check_sensitive_files cwd files parser)) ->
  In f files /\ ~ In f (snd (Analyzer.check_sensitive_files cwd files parser)).
Proof.
  rewrite check_sensitive_files_filter. cbn [fst snd]. rewrite !filter_In.
  intros [Hf Hs]. apply andb_true_iff in Hs as [Hi _]. apply negb_true_iff in Hi.
  split; [exact Hf|]. intros [_ H]. congruence.
Qed.

(** X5. On a terminal, any answer other than [y] or [Y] leaves the
    flagged files in the list the run goes on with: they are neither added
    to [.gitignore] nor excluded, and the run still ends with a non-zero
    status. *)
Theorem declined_keeps_sensitive (e : Analyzer.Env) (typed file : string) :
  Analyzer.stdin_isatty e = true ->
  Analyzer.response e = Some typed ->
  Py.lower typed <> "y" ->
  In file
    (fst (Analyzer.check_sensitive_files (Analyzer.cwd e)
            (Analyzer.get_git_changes (Analyzer.git_outputs e))
            (Analyzer.new_parser (Analyzer.git_root e) (Analyzer.gitignore_found e)))) ->
  In file (Analyzer.analysed (Analyzer.main e))
  /\ Analyzer.appended_to_gitignore (Analyzer.main e) = false
  /\ exit_status (Analyzer.ended (Analyzer.main e)) <> 0%Z.
Proof.
  intros Htty Hresp Hno Hin. pose proof (in_check_sensitive _ _ _ _ Hin) as [Hf Hni].
  unfold Analyzer.main.
  destruct (Analyzer.get_git_changes (Analyzer.git_outputs e)) as [|f files];
    [contradiction|].
  destruct (Analyzer.check_sensitive_files _ _ _) as [sensitive ignored].
  cbn [fst snd] in *. destruct sensitive as [|s sensitive]; [contradiction|].
  unfold Analyzer.exclude_sensitive. rewrite Htty, Hresp.
  apply String.eqb_neq in Hno. rewrite Hno.
  assert (Hkept : In file (Analyzer.exclude_ignored (f :: files) ignored)).
  { unfold Analyzer.exclude_ignored. destruct ignored; [exact Hf|].
    apply in_without. now split. }
  destruct (Analyzer.exclude_ignored (f :: files) ignored) as [|g rest];
    [contradiction|].
  destruct (Analyzer.prompt_write_ok e), (Analyzer.analysis_write_ok e); cbn;
    repeat split; try exact Hkept; discriminate.
Qed.

Lemma declined_keeps_sensitive_witness :
  In "secret_api_key.txt" (Analyzer.analysed (Analyzer.main (Sim.secret_env true (Some "no"))))
  /\ Analyzer.appended_to_gitignore (Analyzer.main (Sim.secret_env true (Some "no"))) = false
  /\ exit_status (Analyzer.ended (Analyzer.main (Sim.secret_env true (Some "no")))) <> 0%Z.
Proof.
  apply (declined_keeps_sensitive (Sim.secret_env true (Some "no")) "no").
  - reflexivity.
  - reflexivity.
  - discriminate.
  - vm_compute. tauto.
Defined.

(* --------------------------------------------------------------------- *)
(** ** The change enumerator, again *)
(* --------------------------------------------------------------------- *)

Lemma get_git_changes_in (out_m out_s out_u f : string) :
  In f (Analyzer.get_git_changes (Some (out_m, out_s, out_u)))
  <-> f <> EmptyString
      /\ In f (Analyzer.query_lines out_m ++ Analyzer.query_lines out_s
               ++ Analyzer.query_lines out_u).
Proof.
  unfold Analyzer.get_git_changes.
  rewrite filter_In, nonempty_eqb, <- !list_elem_of_In.
  rewrite elem_of_elements, elem_of_list_to_set. tauto.
Qed.

Lemma get_git_changes_nodup (outs : option (string * string * string)) :
  List.NoDup (Analyzer.get_git_changes outs).
Proof.
  destruct outs as [[[out_m out_s] out_u]|]; [|constructor].
  unfold Analyzer.get_git_changes.
  apply List.NoDup_filter, NoDup_ListNoDup, NoDup_elements.
Qed.

(** X6. Only the set of non-empty lines the three queries print matters:
    when two runs of the queries print the same paths, in any order, any
    number of times, under any of the three queries and with or without
    empty lines in between, [get_git_changes] returns the same files up
    to order. *)
Theorem get_git_changes_order_insensitive
    (out_m out_s out_u out_m' out_s' out_u' : string) :
  (forall f,
     f <> EmptyString ->
     In f (Analyzer.query_lines out_m ++ Analyzer.query_lines out_s
           ++ Analyzer.query_lines out_u)
     <-> In f (Analyzer.query_lines out_m' ++ Analyzer.query_lines out_s'
               ++ Analyzer.query_lines out_u')) ->
  Permutation (Analyzer.get_git_changes (Some (out_m, out_s, out_u)))
    (Analyzer.get_git_changes (Some (out_m', out_s', out_u'))).
Proof.
  intros H.
  apply Stdlib.Sorting.Permutation.NoDup_Permutation; try apply get_git_changes_nodup.
  intros f. rewrite !get_git_changes_in.
  split; intros [Hf Hin]; (split; [exact Hf | now apply (H f Hf)]).
Qed.

(** The same two paths: once with repetitions and no empty line, once
    in the other order with an empty line in between. *)
Lemma get_git_changes_order_insensitive_witness :
  Permutation
    (Analyzer.get_git_changes
       (Some ("a.py" +:+ Py.LF +:+ "a.py" +:+ Py.LF, "b.py" +:+ Py.LF, "b.py" +:+ Py.LF)))
    (Analyzer.get_git_changes
       (Some ("b.py" +:+ Py.LF +:+ Py.LF +:+ "a.py" +:+ Py.LF, "a.py" +:+ Py.LF,
              "a.py" +:+ Py.LF))).
Proof.
  apply (get_git_changes_order_insensitive
           ("a.py" +:+ Py.LF +:+ "a.py" +:+ Py.LF) ("b.py" +:+ Py.LF) ("b.py" +:+ Py.LF)
           ("b.py" +:+ Py.LF +:+ Py.LF +:+ "a.py" +:+ Py.LF) ("a.py" +:+ Py.LF)
           ("a.py" +:+ Py.LF)).
  intros f Hf. vm_compute.
  split; intros Hin; repeat (destruct Hin as [Hin | Hin]);
    try contradiction; try (symmetry in Hin; contradiction); tauto.
Defined.

Example query_lines_empty_line :
  Analyzer.query_lines ("b.py" +:+ Py.LF +:+ Py.LF +:+ "a.py" +:+ Py.LF)
  = ["b.py"; EmptyString; "a.py"].
Proof. reflexivity. Qed.

(* --------------------------------------------------------------------- *)
(** ** What a relative rule ignores *)
(* --------------------------------------------------------------------- *)

Lemma endswith_slash_cons (c : ascii) (s : string) :
  Py.endswith (String c s) "/"
  = match s with
    | EmptyString => Ascii.eqb c "/"
    | _ => Py.endswith s "/"
    end.
Proof.
  unfold Py.endswith. destruct s as [|d s].
  - cbn. now destruct (Ascii.eqb c "/").
  - cbn [String.length Nat.leb Nat.sub andb].
    rewrite Nat.sub_0_r. reflexivity.
Qed.

Lemma endswith_slash_app (x y : string) :
  y <> EmptyString -> Py.endswith (x +:+ y) "/" = Py.endswith y "/".
Proof.
  intros Hy. induction x as [|c x IH]; [reflexivity|].
  change (String c x +:+ y) with (String c (x +:+ y)).
  rewrite endswith_slash_cons.
  destruct (x +:+ y) eqn:E; [|exact IH].
  destruct x; [contradiction | discriminate].
Qed.

Lemma join_plain (a b : string) :
  a <> EmptyString -> Py.endswith a "/" = false -> Py.startswith b "/" = false ->
  OsPath.join a b = a +:+ "/" +:+ b.
Proof.
  intros Ha He Hb. unfold OsPath.join. rewrite Hb, He.
  apply String.eqb_neq in Ha. now rewrite Ha.
Qed.

Lemma append_nil (s : string) : EmptyString +:+ s = s.
Proof. reflexivity. Qed.

Lemma append_cons (c : ascii) (a s : string) : String c a +:+ s = String c (a +:+ s).
Proof. reflexivity. Qed.

Lemma append_assoc (a b c : string) : (a +:+ b) +:+ c = a +:+ b +:+ c.
Proof.
  induction a as [|x a IH]; [reflexivity|]. rewrite !append_cons. now rewrite IH.
Qed.

Lemma append_empty_inv (a b : string) : a +:+ b = EmptyString -> a = EmptyString.
Proof. destruct a; [reflexivity | discriminate]. Qed.

Lemma gitignore_pattern_relative (base_dir line : string) :
  base_dir <> EmptyString -> Py.endswith base_dir "/" = false ->
  Py.startswith line "/" = false ->
  Analyzer.gitignore_pattern base_dir line = base_dir +:+ "/**/" +:+ line.
Proof.
  intros Hb He Hl. unfold Analyzer.gitignore_pattern, OsPath.join3. rewrite Hl.
  rewrite (join_plain base_dir "**") by (assumption || reflexivity).
  rewrite join_plain; [now rewrite !append_assoc | | | exact Hl].
  - intros H. apply append_empty_inv in H. contradiction.
  - rewrite endswith_slash_app by discriminate. reflexivity.
Qed.

Lemma contains_at (k a s : string) :
  Py.startswith s k = true -> Py.contains k (a +:+ s) = true.
Proof.
  intros H. induction a as [|c a IH].
  - rewrite append_nil. destruct s; cbn [Py.contains]; [exact H | now rewrite H].
  - rewrite append_cons. cbn [Py.contains]. rewrite IH. apply orb_true_r.
Qed.

Lemma split_stars_none (s : string) :
  Py.contains "**" s = false -> Py.split s "**" = [s].
Proof.
  unfold Py.split. induction s as [|c s IH]; intros H; [reflexivity|].
  cbn [Py.contains] in H. apply orb_false_iff in H as [H1 H2].
  cbn [Py.split_go]. rewrite H1, (IH H2). reflexivity.
Qed.

Lemma split_stars_middle (base rest : string) :
  Py.contains "**" base = false ->
  Py.split_go "**" (base +:+ "/**" +:+ rest) 0
  = (base +:+ "/") :: Py.split_go "**" rest 0.
Proof.
  induction base as [|c base IH]; intros H.
  - reflexivity.
  - change (String c base +:+ "/**" +:+ rest) with (String c (base +:+ "/**" +:+ rest)).
    cbn [Py.contains] in H. apply orb_false_iff in H as [H1 H2].
    cbn [Py.split_go].
    assert (Hs : Py.startswith (String c (base +:+ "/**" +:+ rest)) "**" = false).
    { destruct base as [|d base].
      - cbn. now rewrite andb_false_r.
      - exact H1. }
    rewrite Hs, (IH H2). reflexivity.
Qed.

Lemma split_relative_pattern (base_dir line : string) :
  Py.contains "**" base_dir = false -> Py.contains "**" line = false ->
  Py.split (base_dir +:+ "/**/" +:+ line) "**" = [base_dir +:+ "/"; "/" +:+ line].
Proof.
  intros Hb Hl. unfold Py.split.
  change (base_dir +:+ "/**/" +:+ line) with (base_dir +:+ "/**" +:+ ("/" +:+ line)).
  rewrite split_stars_middle by exact Hb. f_equal.
  apply split_stars_none. rewrite append_cons, append_nil.
  cbn [Py.contains]. now rewrite Hl.
Qed.

(** X7. A rule [line] without a leading slash, read from the rule file of
    [base_dir], ignores every path whose absolute form starts with
    [base_dir/] and ends with [/line], at any depth (neither text may
    contain a double star). *)
Theorem relative_rule_ignores
    (cwd : string) (self : Analyzer.GitignoreParser) (base_dir line file : string) :
  In (Analyzer.gitignore_pattern base_dir line) (Analyzer.ignore_patterns self) ->
  base_dir <> EmptyString ->
  Py.endswith base_dir "/" = false ->
  Py.startswith line "/" = false ->
  Py.contains "**" base_dir = false ->
  Py.contains "**" line = false ->
  Py.startswith (OsPath.abspath cwd file) (base_dir +:+ "/") = true ->
  Py.endswith (OsPath.abspath cwd file) ("/" +:+ line) = true ->
  Analyzer.should_ignore cwd self file = true.
Proof.
  intros Hin Hb He Hl Hsb Hsl Hpre Hsuf. unfold Analyzer.should_ignore.
  apply existsb_exists. exists (Analyzer.gitignore_pattern base_dir line).
  split; [exact Hin|].
  rewrite gitignore_pattern_relative by assumption.
  unfold Analyzer.pattern_hits. apply orb_true_iff. right.
  rewrite split_relative_pattern by assumption.
  change (base_dir +:+ "/**/" +:+ line) with (base_dir +:+ "/" +:+ ("**/" +:+ line)).
  rewrite <- append_assoc.
  rewrite contains_at by reflexivity.
  now rewrite Hpre, Hsuf.
Qed.

(** The rule [node_modules] of [/repo/.gitignore] and the path
    [web/node_modules]. *)
Lemma relative_rule_ignores_witness :
  Analyzer.should_ignore "/repo"
    (Analyzer.new_parser "/repo"
       [("/repo", Analyzer.Whole ("node_modules" +:+ Py.LF))])
    "web/node_modules" = true.
Proof.
  apply (relative_rule_ignores "/repo" _ "/repo" "node_modules" "web/node_modules");
    try reflexivity; try discriminate.
  vm_compute. tauto.
Defined.

(* --------------------------------------------------------------------- *)
(** ** Sensitivity and directories *)
(* --------------------------------------------------------------------- *)

Lemma contains_char_cons (a c : ascii) (s : string) :
  Py.contains (String a EmptyString) (String c s)
  = Ascii.eqb a c || Py.contains (String a EmptyString) s.
Proof. cbn [Py.contains Py.startswith]. now rewrite andb_true_r. Qed.

Lemma split_char_pieces (a : ascii) (s : string) :
  Forall (fun piece => Py.contains (String a EmptyString) piece = false)
    (Py.split s (String a EmptyString)).
Proof.
  unfold Py.split. induction s as [|c s IH].
  - repeat constructor.
  - rewrite split_go_char. destruct (Ascii.eqb a c) eqn:E.
    + constructor; [reflexivity | exact IH].
    + destruct (Py.split_go (String a EmptyString) s 0) as [|h t];
        cbn [Py.cons_head].
      * repeat constructor. rewrite contains_char_cons, E. reflexivity.
      * inversion IH as [|? ? Hh Ht]; subst. constructor; [|exact Ht].
        rewrite contains_char_cons, E. exact Hh.
Qed.

Lemma split_char_none (a : ascii) (s : string) :
  Py.contains (String a EmptyString) s = false ->
  Py.split s (String a EmptyString) = [s].
Proof.
  unfold Py.split. induction s as [|c s IH]; intros H; [reflexivity|].
  rewrite contains_char_cons in H. apply orb_false_iff in H as [H1 H2].
  rewrite split_go_char, H1, (IH H2). reflexivity.
Qed.

Lemma last_forall {A : Type} (P : A -> Prop) (l : list A) (d : A) :
  P d -> Forall P l -> P (List.last l d).
Proof.
  intros Hd H. induction H as [|x l Hx Hl IH]; [exact Hd|].
  destruct l; [exact Hx | exact IH].
Qed.

Lemma basename_no_slash (p : string) : Py.contains "/" (OsPath.basename p) = false.
Proof.
  unfold OsPath.basename.
  apply (last_forall (fun piece => Py.contains "/" piece = false));
    [reflexivity | apply split_char_pieces].
Qed.

Lemma basename_idempotent (p : string) :
  OsPath.basename (OsPath.basename p) = OsPath.basename p.
Proof.
  unfold OsPath.basename at 1.
  now rewrite (split_char_none "/" _ (basename_no_slash p)).
Qed.

(** X8. A file that is flagged by its name alone is flagged in every
    directory: when [is_sensitive] holds of the base name of a path, it
    holds of the path. *)
Theorem is_sensitive_by_name (path : string) :
  Analyzer.is_sensitive (OsPath.basename path) = true ->
  Analyzer.is_sensitive path = true.
Proof.
  unfold Analyzer.is_sensitive. rewrite basename_idempotent, !orb_true_iff.
  intros [H | H]; [left | now right].
  apply existsb_exists in H as (pat & Hin & H). apply existsb_exists.
  exists pat. split; [exact Hin|].
  apply orb_true_iff. left. apply orb_true_iff in H. tauto.
Qed.

Lemma is_sensitive_by_name_witness :
  Analyzer.is_sensitive "deploy/keys/server.PEM" = true.
Proof.
  apply (is_sensitive_by_name "deploy/keys/server.PEM"). reflexivity.
Defined.

(* --------------------------------------------------------------------- *)
(** ** The categories of the report *)
(* --------------------------------------------------------------------- *)

Section Categories.

Let filed (files : list string) (key : string) : list string :=
  List.filter (fun f => String.eqb key (Report.category_of f)) files.

Lemma categorize_fold (l files : list string) (acc : string -> list string) :
  fold_left
    (fun categories file => Report.append_to (Report.category_of file) file categories)
    files (map (fun key => (key, acc key)) l)
  = map (fun key => (key, acc key ++ filed files key)) l.
Proof.
  revert acc. induction files as [|f files IH]; intros acc; cbn [fold_left].
  - apply map_ext. intros key. unfold filed. cbn. now rewrite app_nil_r.
  - unfold Report.append_to at 2. rewrite map_map. cbn [fst snd].
    rewrite (map_ext _
               (fun key =>
                  (key, if String.eqb key (Report.category_of f)
                        then acc key ++ [f] else acc key))).
    2:{ intros key. now destruct (String.eqb key (Report.category_of f)). }
    rewrite (IH (fun key =>
                   if String.eqb key (Report.category_of f)
                   then acc key ++ [f] else acc key)).
    apply map_ext. intros key. unfold filed. cbn [List.filter].
    destruct (String.eqb key (Report.category_of f)); [|reflexivity].
    now rewrite <- app_assoc.
Qed.

Lemma categorize_files_filed (files : list string) :
  Report.categorize_files files
  = List.filter (fun entry => match snd entry with [] => false | _ => true end)
      (map (fun key => (key, filed files key)) Report.keys).
Proof.
  unfold Report.categorize_files.
  now rewrite (categorize_fold Report.keys files (fun _ => [])).
Qed.

Lemma concat_nonempty (l : list (string * list string)) :
  concat (map snd (List.filter
                     (fun entry => match snd entry with [] => false | _ => true end) l))
  = concat (map snd l).
Proof.
  induction l as [|[k v] l IH]; [reflexivity|].
  cbn [List.filter fst snd map concat]. destruct v; cbn [map concat snd]; now rewrite IH.
Qed.

Lemma filed_nil (l : list string) : flat_map (filed []) l = [].
Proof. induction l as [|k l IH]; [reflexivity | exact IH]. Qed.

Lemma filed_step (f : string) (files : list string) (k : string) :
  filed (f :: files) k
  = if String.eqb k (Report.category_of f) then f :: filed files k else filed files k.
Proof. reflexivity. Qed.

Lemma filed_cons (f : string) (files ks : list string) :
  List.NoDup ks ->
  (In (Report.category_of f) ks ->
   Permutation (f :: flat_map (filed files) ks) (flat_map (filed (f :: files)) ks))
  /\ (~ In (Report.category_of f) ks ->
      flat_map (filed (f :: files)) ks = flat_map (filed files) ks).
Proof.
  induction ks as [|k ks IH]; intros Hnd; [split; [contradiction | reflexivity]|].
  apply List.NoDup_cons_iff in Hnd as [Hk Hnd]. destruct (IH Hnd) as [IHin IHout].
  cbn [flat_map]. rewrite filed_step.
  destruct (String.eqb_spec k (Report.category_of f)) as [E|E].
  - subst k. split.
    + intros _. rewrite (IHout Hk). reflexivity.
    + intros Hn. exfalso. apply Hn. now left.
  - split.
    + intros [Hc | Hc]; [contradiction|].
      etransitivity; [apply Permutation_middle|].
      apply Permutation_app_head. now apply IHin.
    + intros Hn. rewrite IHout; [reflexivity|]. intros Hc. apply Hn. now right.
Qed.

Lemma filed_spread (l files : list string) :
  List.NoDup l ->
  (forall f, In f files -> In (Report.category_of f) l) ->
  Permutation files (flat_map (filed files) l).
Proof.
  intros Hnd. induction files as [|f files IH]; intros Hin.
  - now rewrite filed_nil.
  - etransitivity.
    + apply perm_skip, IH. intros g Hg. apply Hin. now right.
    + apply (filed_cons f files l Hnd). apply Hin. now left.
Qed.

End Categories.

Lemma category_of_key (file : string) : In (Report.category_of file) Report.keys.
Proof.
  unfold Report.category_of, Report.keys.
  repeat match goal with
         | |- context [if ?b then _ else _] => destruct b
         end; cbn; tauto.
Qed.

Lemma keys_nodup : List.NoDup Report.keys.
Proof.
  unfold Report.keys.
  repeat (apply List.NoDup_cons; [cbn; intuition discriminate|]).
  apply List.NoDup_nil.
Qed.

(** X9. [categorize_files] files every path under exactly one key: the
    lists of the result, taken together, are the input up to order; no
    list of the result is empty; and every path sits under the key the
    chain of tests gives it. *)
Theorem categorize_files_partition (files : list string) :
  Permutation files (concat (map snd (Report.categorize_files files)))
  /\ Forall
       (fun entry =>
          snd entry <> []
          /\ In (fst entry) Report.keys
          /\ Forall (fun f => Report.category_of f = fst entry) (snd entry))
       (Report.categorize_files files).
Proof.
  rewrite categorize_files_filed. split.
  - rewrite concat_nonempty, map_map. cbn [snd]. rewrite <- flat_map_concat_map.
    apply filed_spread; [apply keys_nodup | intros; apply category_of_key].
  - apply List.Forall_forall. intros [k v] Hin. apply filter_In in Hin as [Hin Hne].
    apply in_map_iff in Hin as (key & E & Hkey). injection E as <- <-.
    cbn [fst snd] in *. repeat split.
    + intros H. now rewrite H in Hne.
    + exact Hkey.
    + apply List.Forall_forall. intros f Hf. apply filter_In in Hf as [_ Hf].
      apply String.eqb_eq in Hf. now symmetry.
Qed.

Example categorize_files_example :
  Report.categorize_files
    ["drippingwallet/App.swift"; "drippingwallet/README.md"; "docs/guide.md";
     "android/deploy.gradle"; "firebase/functions/index.ts"; "DrippingWallet/Main.swift"]
  = [ ("iOS", ["drippingwallet/App.swift"]);
      ("Backend", ["firebase/functions/index.ts"]);
      ("Documentation", ["docs/guide.md"]);
      ("Deployment", ["android/deploy.gradle"]);
      ("Other", ["drippingwallet/README.md"; "DrippingWallet/Main.swift"]) ].
Proof. reflexivity. Qed.

(* --------------------------------------------------------------------- *)
(** ** The title of the analysis *)
(* --------------------------------------------------------------------- *)

(** X10. When the changed files yield at least one title part, the title
    is [Update: ] followed by at most three parts and has at most 52
    characters, so the cut to 80 characters in [main] never applies. *)
Theorem plain_title_short (changed_files : list string) :
  Report.title_parts changed_files <> [] ->
  Py.startswith (Report.plain_title changed_files) "Update: " = true
  /\ String.length (Report.plain_title changed_files) <= 52
  /\ Report.plain_title changed_files
     = "Update: " +:+ Py.join ", " (List.firstn 3 (Report.title_parts changed_files)).
Proof.
  unfold Report.plain_title, Report.title_parts.
  repeat match goal with
         | |- context [if ?b then _ else _] => destruct b
         end;
    intros H; try (exfalso; apply H; reflexivity);
    vm_compute; repeat split; lia.
Qed.

Lemma plain_title_short_witness :
  Py.startswith (Report.plain_title ["web/auth.ts"; "deploy/run.sh"]) "Update: " = true
  /\ String.length (Report.plain_title ["web/auth.ts"; "deploy/run.sh"]) <= 52
  /\ Report.plain_title ["web/auth.ts"; "deploy/run.sh"]
     = "Update: " +:+ Py.join ", "
                       (List.firstn 3 (Report.title_parts ["web/auth.ts"; "deploy/run.sh"])).
Proof.
  apply (plain_title_short ["web/auth.ts"; "deploy/run.sh"]). vm_compute. discriminate.
Defined.

Example plain_title_example :
  Report.plain_title ["web/auth.ts"; "deploy/run.sh"] = "Update: Auth System, CI/CD"
  /\ Report.plain_title ["a.c"; "b.c"] = "Project Update: 2 Files Changed".
Proof. vm_compute. tauto. Qed.

(* ===================================================================== *)
(** * Further properties of the deployment script *)
(* ===================================================================== *)

(* --------------------------------------------------------------------- *)
(** ** Running a command *)
(* --------------------------------------------------------------------- *)

(** X11. [_run_command] runs its command once and hands back the stripped
    output, or leaves with status 1 when [check] is set and the command
    failed.  It never returns [None]: without [check] a failed command
    looks like one that printed what it printed. *)
Theorem run_command_answers {World : Type}
    (execute : list string -> World -> GitDeploy.CompletedProcess * World)
    (cmd : list string) (check : bool) (t : GitDeploy.Trace) :
  let r := GitDeploy._run_command execute cmd check t in
  GitDeploy.calls (snd r) = GitDeploy.calls t ++ [cmd]
  /\ GitDeploy.world (snd r) = snd (execute cmd (GitDeploy.world t))
  /\ fst r <> GitDeploy.Ok None
  /\ (if check && negb (GitDeploy.returncode (GitDeploy.answer execute cmd t) =? 0)%Z
      then fst r = GitDeploy.Exit 1
      else fst r
           = GitDeploy.Ok
               (Some (Py.strip (GitDeploy.stdout (GitDeploy.answer execute cmd t))))).
Proof.
  cbn zeta. destruct check.
  - destruct (Z.eqb_spec (GitDeploy.returncode (GitDeploy.answer execute cmd t)) 0)
      as [H|H].
    + rewrite run_command_checked_ok by exact H. cbn. repeat split. discriminate.
    + rewrite run_command_checked_fail by exact H. cbn. repeat split. discriminate.
  - rewrite run_command_unchecked. cbn. repeat split. discriminate.
Qed.

(* --------------------------------------------------------------------- *)
(** ** Parsing the porcelain output *)
(* --------------------------------------------------------------------- *)

Lemma parse_status_line_cases (c : GitDeploy.ChangeSet) (line : string) :
  let p := Py.drop 3 line in
  match GitDeploy.parse_status_line c line with
  | None => String.length line = 1
  | Some c' =>
      String.length line <> 1
      /\ (c' = c
          \/ c' = {| GitDeploy.added := GitDeploy.added c;
                     GitDeploy.modified := GitDeploy.modified c;
                     GitDeploy.deleted := GitDeploy.deleted c;
                     GitDeploy.untracked := GitDeploy.untracked c ++ [p] |}
          \/ c' = {| GitDeploy.added := GitDeploy.added c;
                     GitDeploy.modified := GitDeploy.modified c ++ [p];
                     GitDeploy.deleted := GitDeploy.deleted c;
                     GitDeploy.untracked := GitDeploy.untracked c |}
          \/ c' = {| GitDeploy.added := GitDeploy.added c ++ [p];
                     GitDeploy.modified := GitDeploy.modified c;
                     GitDeploy.deleted := GitDeploy.deleted c;
                     GitDeploy.untracked := GitDeploy.untracked c |}
          \/ c' = {| GitDeploy.added := GitDeploy.added c;
                     GitDeploy.modified := GitDeploy.modified c;
                     GitDeploy.deleted := GitDeploy.deleted c ++ [p];
                     GitDeploy.untracked := GitDeploy.untracked c |})
  end.
Proof.
  cbn zeta. destruct line as [|a [|b rest]].
  - cbn. split; [discriminate | now left].
  - reflexivity.
  - unfold GitDeploy.parse_status_line, Py.take.
    cbn [String.eqb String.substring].
    repeat match goal with
           | |- context [if ?b then _ else _] => destruct b
           end;
      (split;
       [cbn; discriminate
       | first [ left; reflexivity
               | right; left; reflexivity
               | right; right; left; reflexivity
               | right; right; right; left; reflexivity
               | right; right; right; right; reflexivity ] ]).
Qed.

(** X12. The loop over the porcelain lines raises exactly when some line
    has a single character (its status code has no second position);
    every other output is parsed to the end. *)
Theorem parse_status_lines_fails_iff (c : GitDeploy.ChangeSet) (lines : list string) :
  GitDeploy.parse_status_lines c lines = None
  <-> exists line, In line lines /\ String.length line = 1.
Proof.
  revert c. induction lines as [|line lines IH]; intros c.
  - cbn. split; [discriminate | intros (l & [] & _)].
  - cbn [GitDeploy.parse_status_lines].
    pose proof (parse_status_line_cases c line) as H. cbn zeta in H.
    destruct (GitDeploy.parse_status_line c line) as [c'|].
    + destruct H as [Hlen _]. rewrite IH. split.
      * intros (l & Hl & Hone). exists l. split; [now right | exact Hone].
      * intros (l & [-> | Hl] & Hone); [contradiction|]. now exists l.
    + split; [|reflexivity]. intros _. exists line. split; [now left | exact H].
Qed.

Lemma parse_status_line_paths (c c1 : GitDeploy.ChangeSet) (line p : string) :
  GitDeploy.parse_status_line c line = Some c1 ->
  In p (GitDeploy.added c1 ++ GitDeploy.modified c1 ++ GitDeploy.deleted c1
        ++ GitDeploy.untracked c1) ->
  In p (GitDeploy.added c ++ GitDeploy.modified c ++ GitDeploy.deleted c
        ++ GitDeploy.untracked c)
  \/ p = Py.drop 3 line.
Proof.
  intros H. pose proof (parse_status_line_cases c line) as Hc. cbn zeta in Hc.
  rewrite H in Hc. destruct Hc as [_ Hc].
  destruct Hc as [-> | [-> | [-> | [-> | ->]]]];
    cbn [GitDeploy.added GitDeploy.modified GitDeploy.deleted GitDeploy.untracked];
    rewrite !in_app_iff; cbn [In]; intuition (try subst; auto).
Qed.

Lemma parse_status_line_count (c c1 : GitDeploy.ChangeSet) (line : string) :
  GitDeploy.parse_status_line c line = Some c1 ->
  GitDeploy.count_changes c1 <= S (GitDeploy.count_changes c).
Proof.
  intros H. pose proof (parse_status_line_cases c line) as Hc. cbn zeta in Hc.
  rewrite H in Hc. destruct Hc as [_ Hc].
  destruct Hc as [-> | [-> | [-> | [-> | ->]]]];
    unfold GitDeploy.count_changes;
    cbn [GitDeploy.added GitDeploy.modified GitDeploy.deleted GitDeploy.untracked];
    rewrite ?length_app; cbn [List.length]; lia.
Qed.

(** X13. Every path the parse lists is the text of some porcelain line
    from its fourth character on (or was listed before), and the parse
    lists at most one path per line. *)
Theorem parse_status_lines_provenance
    (c c' : GitDeploy.ChangeSet) (lines : list string) :
  GitDeploy.parse_status_lines c lines = Some c' ->
  (forall p,
     In p (GitDeploy.added c' ++ GitDeploy.modified c' ++ GitDeploy.deleted c'
           ++ GitDeploy.untracked c') ->
     In p (GitDeploy.added c ++ GitDeploy.modified c ++ GitDeploy.deleted c
           ++ GitDeploy.untracked c)
     \/ exists line, In line lines /\ p = Py.drop 3 line)
  /\ GitDeploy.count_changes c' <= GitDeploy.count_changes c + List.length lines.
Proof.
  revert c. induction lines as [|line lines IH]; intros c H.
  - cbn in H. injection H as <-. split; [now left | lia].
  - cbn [GitDeploy.parse_status_lines] in H.
    destruct (GitDeploy.parse_status_line c line) as [c1|] eqn:E; [|discriminate].
    destruct (IH c1 H) as [Hp Hn]. split.
    + intros p Hin. destruct (Hp p Hin) as [Hold | (l & Hl & ->)].
      * destruct (parse_status_line_paths c c1 line p E Hold) as [Hc | ->].
        -- now left.
        -- right. exists line. split; [now left | reflexivity].
      * right. exists l. split; [now right | reflexivity].
    + pose proof (parse_status_line_count c c1 line E). cbn [List.length]. lia.
Qed.

Lemma parse_status_lines_provenance_witness :
  (forall p,
     In p (["lib.py"] ++ ["app.py"] ++ [] ++ ["new.txt"]) ->
     In p ([] ++ [] ++ [] ++ [])
     \/ exists line,
          In line ["M  app.py"; "?? new.txt"; "A  lib.py"; "D  gone.py"]
          /\ p = Py.drop 3 line)
  /\ 3 <= 0 + 4.
Proof.
  apply (parse_status_lines_provenance GitDeploy.no_changes
           {| GitDeploy.added := ["lib.py"]; GitDeploy.modified := ["app.py"];
              GitDeploy.deleted := []; GitDeploy.untracked := ["new.txt"] |}
           ["M  app.py"; "?? new.txt"; "A  lib.py"; "D  gone.py"]).
  reflexivity.
Defined.

(* --------------------------------------------------------------------- *)
(** ** The first line of the status output *)
(* --------------------------------------------------------------------- *)

Lemma rstrip_cons (c : ascii) (s : string) :
  Py.rstrip s <> EmptyString -> Py.rstrip (String c s) = String c (Py.rstrip s).
Proof. intros H. cbn [Py.rstrip]. destruct (Py.rstrip s); [contradiction | reflexivity]. Qed.

Lemma rstrip_plain_lf (s : string) :
  (forall c, In c (list_ascii_of_string s) -> Py.is_space c = false) ->
  Py.rstrip (s +:+ Py.LF) = s.
Proof.
  induction s as [|c s IH]; intros H; [reflexivity|].
  rewrite append_cons. cbn [Py.rstrip].
  rewrite IH by (intros d Hd; apply H; now right).
  destruct s; [|reflexivity]. now rewrite (H c (or_introl eq_refl)).
Qed.

Lemma plain_no_lf (s : string) :
  (forall c, In c (list_ascii_of_string s) -> Py.is_space c = false) ->
  Py.contains Py.LF s = false.
Proof.
  induction s as [|c s IH]; intros H; [reflexivity|].
  unfold Py.LF. rewrite contains_char_cons. fold Py.LF.
  rewrite IH by (intros d Hd; apply H; now right).
  destruct (Ascii.eqb_spec Py.lf c) as [<-|]; [|reflexivity].
  now specialize (H Py.lf (or_introl eq_refl)).
Qed.

Lemma status_line_alone (x : ascii) (path : string) :
  Py.is_space x = false ->
  path <> EmptyString ->
  (forall c, In c (list_ascii_of_string path) -> Py.is_space c = false) ->
  Py.split (Py.strip (String " " (String x (String " " (path +:+ Py.LF))))) Py.LF
  = [String x (String " " path)].
Proof.
  intros Hx Hne H. unfold Py.strip.
  assert (Hl : Py.lstrip (String " " (String x (String " " (path +:+ Py.LF))))
               = String x (String " " (path +:+ Py.LF))).
  { cbn [Py.lstrip]. rewrite Hx. reflexivity. }
  pose proof (rstrip_plain_lf path H) as Hp.
  assert (H1 : Py.rstrip (String " " (path +:+ Py.LF)) = String " " path).
  { rewrite rstrip_cons; rewrite Hp; [reflexivity | assumption]. }
  assert (H2 : Py.rstrip (String x (String " " (path +:+ Py.LF)))
               = String x (String " " path)).
  { rewrite rstrip_cons; rewrite H1; [reflexivity | discriminate]. }
  rewrite Hl, H2.
  apply (split_char_none Py.lf).
  rewrite !contains_char_cons. fold Py.LF. rewrite (plain_no_lf path H).
  destruct (Ascii.eqb_spec Py.lf x) as [<-|]; [discriminate Hx | reflexivity].
Qed.

(** X14. When the first line of [git status --porcelain] starts with a
    blank (a change in the working tree only), the strip in
    [_run_command] takes that blank away and the line is read one column
    off: a modified file is listed without the first character of its
    path, and a deleted file is not listed at all. *)
Theorem first_status_line_shifted (path : string) :
  path <> EmptyString ->
  (forall c, In c (list_ascii_of_string path) -> Py.is_space c = false) ->
  GitDeploy.parse_status_lines GitDeploy.no_changes
    (Py.split (Py.strip (" M " +:+ path +:+ Py.LF)) Py.LF)
  = Some {| GitDeploy.added := []; GitDeploy.modified := [Py.drop 1 path];
            GitDeploy.deleted := []; GitDeploy.untracked := [] |}
  /\ GitDeploy.parse_status_lines GitDeploy.no_changes
       (Py.split (Py.strip (" D " +:+ path +:+ Py.LF)) Py.LF)
     = Some GitDeploy.no_changes.
Proof.
  intros Hne H. split.
  - change (" M " +:+ path +:+ Py.LF)
      with (String " " (String "M" (String " " (path +:+ Py.LF)))).
    rewrite status_line_alone by (assumption || reflexivity). reflexivity.
  - change (" D " +:+ path +:+ Py.LF)
      with (String " " (String "D" (String " " (path +:+ Py.LF)))).
    rewrite status_line_alone by (assumption || reflexivity). reflexivity.
Qed.

Lemma first_status_line_shifted_witness :
  GitDeploy.parse_status_lines GitDeploy.no_changes
    (Py.split (Py.strip (" M " +:+ "app.py" +:+ Py.LF)) Py.LF)
  = Some {| GitDeploy.added := []; GitDeploy.modified := [Py.drop 1 "app.py"];
            GitDeploy.deleted := []; GitDeploy.untracked := [] |}
  /\ GitDeploy.parse_status_lines GitDeploy.no_changes
       (Py.split (Py.strip (" D " +:+ "app.py" +:+ Py.LF)) Py.LF)
     = Some GitDeploy.no_changes.
Proof.
  apply (first_status_line_shifted "app.py"); [discriminate|].
  intros c Hc. cbn in Hc.
  repeat (destruct Hc as [<- | Hc]; [reflexivity|]). contradiction.
Defined.

(* --------------------------------------------------------------------- *)
(** ** Reading the deployment log *)
(* --------------------------------------------------------------------- *)

(** One line of the log: the field its label names takes the stripped
    text after the label; any other line changes nothing. *)
Lemma parse_info_line_cases (d : GitDeploy.DeploymentInfo) (l : string) :
  GitDeploy.parse_info_line d l
  = Some
      (if Py.startswith l "Deployment Number:" then
         {| GitDeploy.deployment_number := Py.strip (Py.drop 18 l);
            GitDeploy.deployment_date := GitDeploy.deployment_date d;
            GitDeploy.deployed_by := GitDeploy.deployed_by d;
            GitDeploy.title := GitDeploy.title d;
            GitDeploy.description := GitDeploy.description d |}
       else if Py.startswith l "Deployment Date:" then
         {| GitDeploy.deployment_number := GitDeploy.deployment_number d;
            GitDeploy.deployment_date := Py.strip (Py.drop 16 l);
            GitDeploy.deployed_by := GitDeploy.deployed_by d;
            GitDeploy.title := GitDeploy.title d;
            GitDeploy.description := GitDeploy.description d |}
       else if Py.startswith l "Deployed By:" then
         {| GitDeploy.deployment_number := GitDeploy.deployment_number d;
            GitDeploy.deployment_date := GitDeploy.deployment_date d;
            GitDeploy.deployed_by := Py.strip (Py.drop 12 l);
            GitDeploy.title := GitDeploy.title d;
            GitDeploy.description := GitDeploy.description d |}
       else if Py.startswith l "Title:" then
         {| GitDeploy.deployment_number := GitDeploy.deployment_number d;
            GitDeploy.deployment_date := GitDeploy.deployment_date d;
            GitDeploy.deployed_by := GitDeploy.deployed_by d;
            GitDeploy.title := Py.strip (Py.drop 6 l);
            GitDeploy.description := GitDeploy.description d |}
       else if Py.startswith l "Description:" then
         {| GitDeploy.deployment_number := GitDeploy.deployment_number d;
            GitDeploy.deployment_date := GitDeploy.deployment_date d;
            GitDeploy.deployed_by := GitDeploy.deployed_by d;
            GitDeploy.title := GitDeploy.title d;
            GitDeploy.description := Py.strip (Py.drop 12 l) |}
       else d).
Proof.
  unfold GitDeploy.parse_info_line.
  destruct (Py.startswith l "Deployment Number:") eqn:E1.
  { split_line E1 l. reflexivity. }
  destruct (Py.startswith l "Deployment Date:") eqn:E2.
  { clear E1. split_line E2 l. reflexivity. }
  destruct (Py.startswith l "Deployed By:") eqn:E3.
  { clear E1 E2. split_line E3 l. reflexivity. }
  destruct (Py.startswith l "Title:") eqn:E4.
  { clear E1 E2 E3. split_line E4 l. reflexivity. }
  destruct (Py.startswith l "Description:") eqn:E5.
  { clear E1 E2 E3 E4. split_line E5 l. reflexivity. }
  reflexivity.
Qed.

Lemma parse_info_lines_ok (d : GitDeploy.DeploymentInfo) (lines : list string) :
  snd (GitDeploy.parse_info_lines d lines) = true.
Proof.
  revert d. induction lines as [|l lines IH]; intros d; [reflexivity|].
  cbn [GitDeploy.parse_info_lines]. rewrite parse_info_line_cases. apply IH.
Qed.

(** X15. Reading a deployment log never fails, whatever its text: the
    lookup of the text after the colon cannot miss, so the handler of
    [parse_deployment_file] is only ever reached when the file cannot be
    read. *)
Theorem parse_deployment_content_total (content : string) :
  snd (GitDeploy.parse_deployment_content content) = true.
Proof. apply parse_info_lines_ok. Qed.

Lemma parse_info_lines_app (d : GitDeploy.DeploymentInfo) (l1 l2 : list string) :
  fst (GitDeploy.parse_info_lines d (l1 ++ l2))
  = fst (GitDeploy.parse_info_lines (fst (GitDeploy.parse_info_lines d l1)) l2).
Proof.
  revert d. induction l1 as [|l l1 IH]; intros d; [reflexivity|].
  cbn [app GitDeploy.parse_info_lines]. rewrite parse_info_line_cases. apply IH.
Qed.

Lemma parse_info_lines_title_kept (d : GitDeploy.DeploymentInfo) (lines : list string) :
  (forall l, In l lines -> Py.startswith l "Title:" = false) ->
  GitDeploy.title (fst (GitDeploy.parse_info_lines d lines)) = GitDeploy.title d.
Proof.
  revert d. induction lines as [|l lines IH]; intros d H; [reflexivity|].
  cbn [GitDeploy.parse_info_lines]. rewrite parse_info_line_cases.
  rewrite IH by (intros x Hx; apply H; now right).
  rewrite (H l (or_introl eq_refl)).
  repeat match goal with
         | |- context [if ?b then _ else _] => destruct b
         end; reflexivity.
Qed.

(** X16. The title of the record is the text after the label of the last
    line that starts with [Title:], stripped; colons inside that text are
    kept, and the lines before it do not matter. *)
Theorem parsed_title_is_last
    (d : GitDeploy.DeploymentInfo) (before rest : list string) (v : string) :
  (forall l, In l rest -> Py.startswith l "Title:" = false) ->
  GitDeploy.title
    (fst (GitDeploy.parse_info_lines d (before ++ ("Title:" +:+ v) :: rest)))
  = Py.strip v.
Proof.
  intros H. rewrite parse_info_lines_app. cbn [GitDeploy.parse_info_lines].
  rewrite parse_info_line_cases, (parse_info_lines_title_kept _ rest H).
  reflexivity.
Qed.

Lemma parsed_title_is_last_witness :
  GitDeploy.title
    (fst (GitDeploy.parse_info_lines GitDeploy.empty_info
            (["Title: first"] ++ ("Title:" +:+ "  Fix: login  ") :: ["Deployed By: ops"])))
  = Py.strip "  Fix: login  ".
Proof.
  apply (parsed_title_is_last GitDeploy.empty_info ["Title: first"] ["Deployed By: ops"]).
  intros l [<- | []]. reflexivity.
Defined.

(* --------------------------------------------------------------------- *)
(** ** The summary line of the commit *)
(* --------------------------------------------------------------------- *)

Lemma no_lf_cons (c : ascii) (s : string) :
  Py.contains Py.LF (String c s) = false
  <-> Ascii.eqb Py.lf c = false /\ Py.contains Py.LF s = false.
Proof. unfold Py.LF. rewrite contains_char_cons. apply orb_false_iff. Qed.

Lemma no_lf_app (a b : string) :
  Py.contains Py.LF a = false -> Py.contains Py.LF b = false ->
  Py.contains Py.LF (a +:+ b) = false.
Proof.
  intros Ha Hb. induction a as [|c a IH]; [exact Hb|].
  rewrite append_cons. apply no_lf_cons. apply no_lf_cons in Ha as [Hc Ha].
  split; [exact Hc | now apply IH].
Qed.

Lemma no_lf_drop (n : nat) (s : string) :
  Py.contains Py.LF s = false -> Py.contains Py.LF (Py.drop n s) = false.
Proof.
  revert s. induction n as [|n IH]; intros s H; [exact H|].
  destruct s as [|c s]; [reflexivity|]. cbn [Py.drop].
  apply IH. now apply no_lf_cons in H.
Qed.

Lemma no_lf_lstrip (s : string) :
  Py.contains Py.LF s = false -> Py.contains Py.LF (Py.lstrip s) = false.
Proof.
  induction s as [|c s IH]; intros H; [reflexivity|].
  cbn [Py.lstrip]. destruct (Py.is_space c); [|exact H].
  apply IH. now apply no_lf_cons in H.
Qed.

Lemma no_lf_rstrip (s : string) :
  Py.contains Py.LF s = false -> Py.contains Py.LF (Py.rstrip s) = false.
Proof.
  induction s as [|c s IH]; intros H; [reflexivity|].
  apply no_lf_cons in H as [Hc Hs]. specialize (IH Hs). cbn [Py.rstrip].
  destruct (Py.rstrip s) as [|d r].
  - destruct (Py.is_space c); [reflexivity|]. apply no_lf_cons. now split.
  - apply no_lf_cons. now split.
Qed.

Lemma no_lf_field (n : nat) (l : string) :
  Py.contains Py.LF l = false -> Py.contains Py.LF (Py.strip (Py.drop n l)) = false.
Proof. intros H. now apply no_lf_rstrip, no_lf_lstrip, no_lf_drop. Qed.

Lemma parse_info_lines_no_lf (d : GitDeploy.DeploymentInfo) (lines : list string) :
  Forall (fun l => Py.contains Py.LF l = false) lines ->
  Py.contains Py.LF (GitDeploy.title d) = false ->
  Py.contains Py.LF (GitDeploy.deployment_number d) = false ->
  Py.contains Py.LF (GitDeploy.title (fst (GitDeploy.parse_info_lines d lines))) = false
  /\ Py.contains Py.LF
       (GitDeploy.deployment_number (fst (GitDeploy.parse_info_lines d lines))) = false.
Proof.
  intros Hl. revert d. induction Hl as [|l lines Hc Hl IH]; intros d Ht Hn;
    [now split|].
  cbn [GitDeploy.parse_info_lines]. rewrite parse_info_line_cases.
  apply IH;
    repeat match goal with
           | |- context [if ?b then _ else _] => destruct b
           end;
    cbn [GitDeploy.title GitDeploy.deployment_number];
    try assumption; now apply no_lf_field.
Qed.

Lemma first_line_app (a rest : string) :
  Py.contains Py.LF a = false -> Py.first_line (a +:+ Py.LF +:+ rest) = a.
Proof.
  induction a as [|c a IH]; intros H.
  - reflexivity.
  - apply no_lf_cons in H as [Hc Ha]. rewrite append_cons. cbn [Py.first_line].
    rewrite Ascii.eqb_sym, Hc. now rewrite IH.
Qed.

(** X17. For every deployment log with a title, the first line of the
    commit message is [Deployment <number>: <title>] with the number and
    the title as parsed, in full; the branch, the time and the description
    only show on later lines. *)
Theorem summary_line_of_log
    (content : string) (self : GitDeploy.Script) (branch : option string)
    (stamp iso : string) :
  let d := fst (GitDeploy.parse_deployment_content content) in
  GitDeploy.deployment_info self = Some d ->
  GitDeploy.title d <> EmptyString ->
  Py.first_line (GitDeploy.full_message self branch stamp iso)
  = "Deployment " +:+ GitDeploy.deployment_number d +:+ ": " +:+ GitDeploy.title d.
Proof.
  intros d Hself Ht.
  destruct (parse_info_lines_no_lf GitDeploy.empty_info (Py.split content Py.LF))
    as [Hlt Hln]; [apply split_char_pieces | reflexivity | reflexivity |].
  fold (GitDeploy.parse_deployment_content content) in Hlt, Hln. fold d in Hlt, Hln.
  unfold GitDeploy.full_message.
  rewrite (commit_message_titled self d stamp Hself Ht).
  rewrite !append_assoc.
  rewrite <- (append_assoc "Deployment "), <- (append_assoc _ ": "),
    <- (append_assoc _ (GitDeploy.title d)).
  rewrite first_line_app; [now rewrite !append_assoc|].
  repeat apply no_lf_app; try assumption; reflexivity.
Qed.

(** The log with a title of a hundred characters. *)
Lemma summary_line_of_log_witness :
  Py.first_line
    (GitDeploy.full_message
       (Sim.script GitDeploy.no_changes
          (Some (fst (GitDeploy.parse_deployment_content Sim.long_log))))
       (Some "main") "2025-01-01 00:00:00" "2025-01-01T00:00:00")
  = "Deployment "
    +:+ GitDeploy.deployment_number (fst (GitDeploy.parse_deployment_content Sim.long_log))
    +:+ ": " +:+ GitDeploy.title (fst (GitDeploy.parse_deployment_content Sim.long_log)).
Proof.
  apply (summary_line_of_log Sim.long_log); [reflexivity|]. vm_compute. discriminate.
Defined.

(** X18. A log without a title line does not fall back to a generic
    message: the record has an empty title, the comment derived from it
    is empty, and the commit message starts with an empty line. *)
Theorem untitled_log_empty_summary
    (content : string) (self : GitDeploy.Script) (branch : option string)
    (stamp iso : string) :
  let d := fst (GitDeploy.parse_deployment_content content) in
  (forall l, In l (Py.split content Py.LF) -> Py.startswith l "Title:" = false) ->
  GitDeploy.deployment_info self = Some d ->
  GitDeploy.claude_analysis self = Some (GitDeploy.analysis_of d) ->
  GitDeploy.title d = EmptyString
  /\ GitDeploy.commit_message self stamp = EmptyString
  /\ Py.first_line (GitDeploy.full_message self branch stamp iso) = EmptyString.
Proof.
  intros d Hno Hinfo Han.
  assert (Ht : GitDeploy.title d = EmptyString).
  { unfold d, GitDeploy.parse_deployment_content.
    now rewrite parse_info_lines_title_kept. }
  assert (Hm : GitDeploy.commit_message self stamp = EmptyString).
  { unfold GitDeploy.commit_message. rewrite Hinfo, Han, Ht.
    cbn [String.eqb negb GitDeploy.analysis_of GitDeploy.deployment_comment].
    now rewrite Ht. }
  repeat split; try assumption.
  unfold GitDeploy.full_message. rewrite Hm. reflexivity.
Qed.

Lemma untitled_log_empty_summary_witness :
  GitDeploy.title
    (fst (GitDeploy.parse_deployment_content ("Deployment Number: 7" +:+ Py.LF)))
  = EmptyString
  /\ GitDeploy.commit_message
       (Sim.script GitDeploy.no_changes
          (Some (fst (GitDeploy.parse_deployment_content
                        ("Deployment Number: 7" +:+ Py.LF)))))
       "2025-01-01 00:00:00"
     = EmptyString
  /\ Py.first_line
       (GitDeploy.full_message
          (Sim.script GitDeploy.no_changes
             (Some (fst (GitDeploy.parse_deployment_content
                           ("Deployment Number: 7" +:+ Py.LF)))))
          (Some "main") "2025-01-01 00:00:00" "2025-01-01T00:00:00")
     = EmptyString.
Proof.
  apply (untitled_log_empty_summary ("Deployment Number: 7" +:+ Py.LF)).
  - intros l Hl. vm_compute in Hl.
    repeat (destruct Hl as [<- | Hl]; [reflexivity|]). contradiction.
  - reflexivity.
  - reflexivity.
Defined.

Lemma take_length (n : nat) (s : string) : String.length (Py.take n s) <= n.
Proof.
  unfold Py.take. revert s. induction n as [|n IH]; intros s.
  - destruct s; cbn; lia.
  - destruct s as [|c s]; cbn [String.substring String.length]; [lia|].
    specialize (IH s). lia.
Qed.

Lemma take_all (n : nat) (s : string) : String.length s <= n -> Py.take n s = s.
Proof.
  unfold Py.take. revert s. induction n as [|n IH]; intros s H.
  - destruct s; [reflexivity | cbn in H; lia].
  - destruct s as [|c s]; [reflexivity|]. cbn [String.substring].
    rewrite IH; [reflexivity | cbn in H; lia].
Qed.

Lemma take_prefix (n : nat) (s : string) : Py.startswith s (Py.take n s) = true.
Proof.
  unfold Py.take. revert s. induction n as [|n IH]; intros s.
  - destruct s; reflexivity.
  - destruct s as [|c s]; [reflexivity|]. cbn [String.substring Py.startswith].
    now rewrite Ascii.eqb_refl, IH.
Qed.

(** X19. The comment kept in [claude_analysis] is the start of the title,
    has at most 72 characters, and is the whole title when the title has
    at most 72. *)
Theorem deployment_comment_bounded (d : GitDeploy.DeploymentInfo) :
  String.length (GitDeploy.deployment_comment (GitDeploy.analysis_of d)) <= 72
  /\ Py.startswith (GitDeploy.title d)
       (GitDeploy.deployment_comment (GitDeploy.analysis_of d)) = true
  /\ (String.length (GitDeploy.title d) <= 72 ->
      GitDeploy.deployment_comment (GitDeploy.analysis_of d) = GitDeploy.title d).
Proof.
  cbn [GitDeploy.analysis_of GitDeploy.deployment_comment].
  split; [apply take_length|]. split; [apply take_prefix | apply take_all].
Qed.

(* --------------------------------------------------------------------- *)
(** ** Finding the deployment log *)
(* --------------------------------------------------------------------- *)

Lemma latest_spec (best : string * Z) (files : list (string * Z)) :
  In (GitDeploy.latest best files) (best :: files)
  /\ forall f, In f (best :: files) -> (snd f <= snd (GitDeploy.latest best files))%Z.
Proof.
  revert best. induction files as [|g files IH]; intros best.
  - cbn. split; [now left | intros f [<- | []]; lia].
  - cbn [GitDeploy.latest].
    destruct (IH (if (snd best <? snd g)%Z then g else best)) as [Hin Hmax].
    split.
    + destruct Hin as [Hin | Hin]; [|now right; right].
      rewrite <- Hin. destruct (snd best <? snd g)%Z; [right; now left | now left].
    + intros f Hf.
      pose proof (Hmax _ (or_introl eq_refl)) as H0.
      destruct (Z.ltb_spec (snd best) (snd g)) as [Hlt|Hge];
        destruct Hf as [<- | [<- | Hf]]; try lia;
        apply Hmax; now right.
Qed.

(** X20. When the first of the candidate directories that exists holds
    files named [Deployment_*.txt], [get_latest_deployment_file] prints
    nothing, runs nothing, and returns a file of that directory whose
    modification time no other file of it exceeds, whatever the
    candidates after it hold. *)
Theorem latest_log_chosen {World : Type}
    (path_exists : string -> World -> bool)
    (glob_logs : string -> World -> list (string * Z))
    (getcwd : World -> string)
    (self : GitDeploy.Script) (t : GitDeploy.Trace) (dir : string)
    (first : string * Z) (others : list (string * Z)) :
  List.find (fun d => path_exists d (GitDeploy.world t))
    (GitDeploy.possible_dirs self (getcwd (GitDeploy.world t))) = Some dir ->
  glob_logs dir (GitDeploy.world t) = first :: others ->
  exists chosen,
    GitDeploy.get_latest_deployment_file path_exists glob_logs getcwd self t
    = (GitDeploy.Ok (Some (fst chosen)), t)
    /\ In chosen (glob_logs dir (GitDeploy.world t))
    /\ forall f, In f (glob_logs dir (GitDeploy.world t)) -> (snd f <= snd chosen)%Z.
Proof.
  intros Hdir Hglob. exists (GitDeploy.latest first others).
  destruct (latest_spec first others) as [Hin Hmax]. rewrite Hglob.
  repeat split; try assumption.
  unfold GitDeploy.get_latest_deployment_file. step. rewrite Hdir. step.
  rewrite Hglob. reflexivity.
Qed.

Lemma latest_log_chosen_witness :
  exists chosen,
    GitDeploy.get_latest_deployment_file Sim.path_exists Sim.glob_logs Sim.getcwd
      (Sim.script GitDeploy.no_changes None)
      (Sim.start (Sim.repo EmptyString None [] [] Sim.login_log))
    = (GitDeploy.Ok (Some (fst chosen)),
       Sim.start (Sim.repo EmptyString None [] [] Sim.login_log))
    /\ In chosen
         (Sim.glob_logs "/repo/DeploymentLogs"
            (GitDeploy.world (Sim.start (Sim.repo EmptyString None [] [] Sim.login_log))))
    /\ forall f,
         In f (Sim.glob_logs "/repo/DeploymentLogs"
                 (GitDeploy.world
                    (Sim.start (Sim.repo EmptyString None [] [] Sim.login_log)))) ->
         (snd f <= snd chosen)%Z.
Proof.
  apply (latest_log_chosen Sim.path_exists Sim.glob_logs Sim.getcwd
           (Sim.script GitDeploy.no_changes None)
           (Sim.start (Sim.repo EmptyString None [] [] Sim.login_log))
           "/repo/DeploymentLogs"
           ("/repo/DeploymentLogs/Deployment_41.txt", 100%Z)
           [("/repo/DeploymentLogs/Deployment_42.txt", 200%Z)]);
    reflexivity.
Defined.

(** An existing directory without such files hides the candidates after
    it: the function reports that no deployment file was found and
    returns [None], whatever the later directories hold. *)
Lemma empty_directory_no_log {World : Type}
    (path_exists : string -> World -> bool)
    (glob_logs : string -> World -> list (string * Z))
    (getcwd : World -> string)
    (self : GitDeploy.Script) (t : GitDeploy.Trace) (dir : string) :
  List.find (fun d => path_exists d (GitDeploy.world t))
    (GitDeploy.possible_dirs self (getcwd (GitDeploy.world t))) = Some dir ->
  glob_logs dir (GitDeploy.world t) = [] ->
  fst (GitDeploy.get_latest_deployment_file path_exists glob_logs getcwd self t)
  = GitDeploy.Ok None
  /\ GitDeploy.printed
       (snd (GitDeploy.get_latest_deployment_file path_exists glob_logs getcwd self t))
     = GitDeploy.printed t
       ++ [ Py.LF +:+ "[!] No deployment files found in DeploymentLogs directory";
            "    Please run deployment-agent.sh first to generate a deployment log" ].
Proof.
  intros Hdir Hglob.
  unfold GitDeploy.get_latest_deployment_file. step. rewrite Hdir. step.
  rewrite Hglob. step.
  cbn [fst snd GitDeploy.printed GitDeploy.world GitDeploy.calls].
  rewrite <- ?app_assoc. split; reflexivity.
Qed.

(* --------------------------------------------------------------------- *)
(** ** Runs that stop early *)
(* --------------------------------------------------------------------- *)

(** X21. Outside a repository the script stops at once: when [git
    rev-parse --show-toplevel] fails, it prints that it is not in a git
    repository and leaves with status 1, having run no other command. *)
Theorem not_a_repository_exits {World : Type}
    (execute : list string -> World -> GitDeploy.CompletedProcess * World)
    (path_exists : string -> World -> bool)
    (glob_logs : string -> World -> list (string * Z))
    (read_text : string -> World -> option string)
    (write_text : string -> string -> World -> World)
    (strftime_now : string -> World -> string)
    (isoformat_now getcwd : World -> string)
    (t : GitDeploy.Trace) :
  let deploy := GitDeploy.main execute path_exists glob_logs read_text write_text
                  strftime_now isoformat_now getcwd t in
  GitDeploy.returncode
    (fst (execute ["git"; "rev-parse"; "--show-toplevel"] (GitDeploy.world t))) <> 0%Z ->
  fst deploy = SysExit 1
  /\ GitDeploy.calls (snd deploy)
     = GitDeploy.calls t ++ [["git"; "rev-parse"; "--show-toplevel"]]
  /\ GitDeploy.printed (snd deploy)
     = GitDeploy.printed t ++ ["Error: Not in a git repository"].
Proof.
  intros deploy H. subst deploy.
  unfold GitDeploy.main, GitDeploy.try_except, GitDeploy.init, GitDeploy._find_git_root,
    GitDeploy.subprocess_run.
  step.
  destruct (execute ["git"; "rev-parse"; "--show-toplevel"] (GitDeploy.world t))
    as [r1 w1].
  cbn [fst] in H. apply Z.eqb_neq in H. rewrite H. cbn. repeat split.
Qed.

Lemma not_a_repository_exits_witness :
  fst (Sim.main Scenes.outside) = SysExit 1
  /\ GitDeploy.calls (snd (Sim.main Scenes.outside))
     = [] ++ [["git"; "rev-parse"; "--show-toplevel"]]
  /\ GitDeploy.printed (snd (Sim.main Scenes.outside))
     = [] ++ ["Error: Not in a git repository"].
Proof.
  apply (not_a_repository_exits Sim.execute Sim.path_exists Sim.glob_logs Sim.read_text
           Sim.set_text Sim.strftime_now Sim.isoformat_now Sim.getcwd
           (Sim.start Scenes.outside)).
  vm_compute. discriminate.
Defined.

Lemma find_all_false {A : Type} (f : A -> bool) (l : list A) :
  (forall x, In x l -> f x = false) -> List.find f l = None.
Proof.
  induction l as [|x l IH]; intros H; [reflexivity|].
  cbn [List.find]. rewrite (H x (or_introl eq_refl)). apply IH.
  intros y Hy. apply H. now right.
Qed.

Lemma for_each_print {World A : Type} (g : A -> string) (l : list A)
    (t : @GitDeploy.Trace World) :
  GitDeploy.for_each l (fun x => GitDeploy.print (g x)) t
  = (GitDeploy.Ok tt, GitDeploy.say (map g l) t).
Proof.
  revert t. induction l as [|x l IH]; intros t.
  - cbn. now rewrite say_nil.
  - cbn [GitDeploy.for_each]. step. rewrite IH.
    unfold GitDeploy.say. cbn. now rewrite <- app_assoc.
Qed.

Lemma print_say {World : Type} (line : string) (t : @GitDeploy.Trace World) :
  GitDeploy.print line t = (GitDeploy.Ok tt, GitDeploy.say [line] t).
Proof. reflexivity. Qed.

(** Unfolding of the sequencing that leaves [print] folded. *)
Ltac step_quiet :=
  unfold mbind, mret, GitDeploy.M_bind, GitDeploy.M_ret, GitDeploy.sys_exit,
    GitDeploy.raise, GitDeploy.ask; cbn beta iota.

Section NoLog.

Context {World : Type}.
Variable execute : list string -> World -> GitDeploy.CompletedProcess * World.
Variable path_exists : string -> World -> bool.
Variable glob_logs : string -> World -> list (string * Z).
Variable read_text : string -> World -> option string.
Variable getcwd : World -> string.

(** Without a directory of deployment logs the analysis fails: it prints
    where it looked and returns [False], with the script and the world
    as they were. *)
Lemma analyze_without_directory (self : GitDeploy.Script) (t : GitDeploy.Trace) :
  (forall d, In d (GitDeploy.possible_dirs self (getcwd (GitDeploy.world t))) ->
             path_exists d (GitDeploy.world t) = false) ->
  exists lines,
    GitDeploy.analyze_with_deployment_log path_exists glob_logs read_text getcwd self t
    = (GitDeploy.Ok (false, self), GitDeploy.say lines t).
Proof.
  intros H. unfold GitDeploy.analyze_with_deployment_log,
    GitDeploy.get_latest_deployment_file.
  step_quiet. rewrite !print_say. cbn [GitDeploy.say GitDeploy.world].
  rewrite (find_all_false _ _ H). rewrite !print_say, for_each_print.
  eexists. unfold GitDeploy.say. cbn [GitDeploy.world GitDeploy.calls GitDeploy.printed].
  rewrite <- !app_assoc. reflexivity.
Qed.

End NoLog.

Section NoLogRun.

Context {World : Type}.
Variable execute : list string -> World -> GitDeploy.CompletedProcess * World.
Variable path_exists : string -> World -> bool.
Variable glob_logs : string -> World -> list (string * Z).
Variable read_text : string -> World -> option string.
Variable write_text : string -> string -> World -> World.
Variable strftime_now : string -> World -> string.
Variable isoformat_now : World -> string.
Variable getcwd : World -> string.

(** With a non-blank status that parses, [check_git_status] records the
    branch and the changes and returns [True]. *)
Lemma check_git_status_changed
    (self : GitDeploy.Script) (t : GitDeploy.Trace) (c : GitDeploy.ChangeSet) :
  let branch := execute ["git"; "branch"; "--show-current"] (GitDeploy.world t) in
  let status := execute ["git"; "status"; "--porcelain"] (snd branch) in
  GitDeploy.returncode (fst branch) = 0%Z ->
  GitDeploy.returncode (fst status) = 0%Z ->
  Py.strip (GitDeploy.stdout (fst status)) <> EmptyString ->
  GitDeploy.parse_status_lines GitDeploy.no_changes
    (Py.split (Py.strip (GitDeploy.stdout (fst status))) Py.LF) = Some c ->
  exists lines,
    GitDeploy.check_git_status execute self t
    = (GitDeploy.Ok
         (true,
          GitDeploy.set_changes
            (GitDeploy.set_branch self (Some (Py.strip (GitDeploy.stdout (fst branch)))))
            c),
       {| GitDeploy.world := snd status;
          GitDeploy.calls :=
            GitDeploy.calls t
            ++ [["git"; "branch"; "--show-current"]; ["git"; "status"; "--porcelain"]];
          GitDeploy.printed := GitDeploy.printed t ++ lines |}).
Proof.
  intros branch status. subst branch status.
  unfold GitDeploy.check_git_status, GitDeploy._run_command, GitDeploy.subprocess_run.
  step. cbn [GitDeploy.world].
  destruct (execute ["git"; "branch"; "--show-current"] (GitDeploy.world t)) as [r2 w2].
  cbn [fst snd]. intros H2. rewrite H2. cbn.
  destruct (execute ["git"; "status"; "--porcelain"] w2) as [r3 w3].
  cbn [fst snd]. intros H3 Hne Hparse. rewrite H3.
  cbn -[GitDeploy.parse_status_lines Py.split Py.strip GitDeploy.no_changes].
  apply String.eqb_neq in Hne. rewrite Hne.
  cbn -[GitDeploy.parse_status_lines Py.split Py.strip GitDeploy.no_changes].
  rewrite Hparse.
  cbn -[GitDeploy.parse_status_lines Py.split Py.strip GitDeploy.no_changes].
  rewrite <- !app_assoc. cbn [app]. eexists. reflexivity.
Qed.

Lemma no_log_no_commit_run (t : GitDeploy.Trace) (c : GitDeploy.ChangeSet) :
  let toplevel := execute ["git"; "rev-parse"; "--show-toplevel"] (GitDeploy.world t) in
  let branch := execute ["git"; "branch"; "--show-current"] (snd toplevel) in
  let status := execute ["git"; "status"; "--porcelain"] (snd branch) in
  let root := Py.strip (GitDeploy.stdout (fst toplevel)) in
  let deploy := GitDeploy.main execute path_exists glob_logs read_text write_text
                  strftime_now isoformat_now getcwd t in
  GitDeploy.returncode (fst toplevel) = 0%Z ->
  GitDeploy.returncode (fst branch) = 0%Z ->
  GitDeploy.returncode (fst status) = 0%Z ->
  Py.strip (GitDeploy.stdout (fst status)) <> EmptyString ->
  GitDeploy.parse_status_lines GitDeploy.no_changes
    (Py.split (Py.strip (GitDeploy.stdout (fst status))) Py.LF) = Some c ->
  (forall d,
     In d (GitDeploy.possible_dirs
             {| GitDeploy.repo_root := root; GitDeploy.changes := GitDeploy.no_changes;
                GitDeploy.claude_analysis := None; GitDeploy.current_branch := None;
                GitDeploy.deployment_info := None |}
             (getcwd (snd status))) ->
     path_exists d (snd status) = false) ->
  fst deploy = SysExit 1
  /\ GitDeploy.calls (snd deploy)
     = GitDeploy.calls t
       ++ [ ["git"; "rev-parse"; "--show-toplevel"]; ["git"; "branch"; "--show-current"];
            ["git"; "status"; "--porcelain"] ]
  /\ GitDeploy.world (snd deploy) = snd status.
Proof.
  intros toplevel branch status root deploy. subst toplevel branch status root deploy.
  unfold GitDeploy.main, GitDeploy.try_except, GitDeploy.init, GitDeploy._find_git_root,
    GitDeploy.subprocess_run, GitDeploy.run.
  step_quiet.
  destruct (execute ["git"; "rev-parse"; "--show-toplevel"] (GitDeploy.world t))
    as [r1 w1].
  cbn [fst snd]. intros H1 H2 H3 Hne Hparse Hdirs. rewrite H1.
  cbn [andb negb Z.eqb]. rewrite !print_say.
  match goal with
  | |- context [GitDeploy.check_git_status execute ?s ?tr] =>
      destruct (check_git_status_changed s tr c H2 H3 Hne Hparse) as [lines E]
  end.
  rewrite E. cbn [negb]. rewrite !print_say.
  match goal with
  | |- context [GitDeploy.analyze_with_deployment_log _ _ _ _ ?s ?tr] =>
      destruct (analyze_without_directory path_exists glob_logs read_text getcwd
                  s tr Hdirs) as [lines2 E2]
  end.
  rewrite E2. cbn [negb]. rewrite !print_say.
  cbn [fst snd GitDeploy.say GitDeploy.world GitDeploy.calls GitDeploy.printed].
  rewrite <- !app_assoc. repeat split.
Qed.

End NoLogRun.

(** X22. Without a directory of deployment logs nothing is staged,
    committed or pushed: after the three queries at the start the script
    reports where it looked and leaves with status 1, and the repository
    is as the last query left it. *)
Theorem no_log_no_commit {World : Type}
    (execute : list string -> World -> GitDeploy.CompletedProcess * World)
    (path_exists : string -> World -> bool)
    (glob_logs : string -> World -> list (string * Z))
    (read_text : string -> World -> option string)
    (write_text : string -> string -> World -> World)
    (strftime_now : string -> World -> string)
    (isoformat_now getcwd : World -> string)
    (t : GitDeploy.Trace) (c : GitDeploy.ChangeSet) :
  let toplevel := execute ["git"; "rev-parse"; "--show-toplevel"] (GitDeploy.world t) in
  let branch := execute ["git"; "branch"; "--show-current"] (snd toplevel) in
  let status := execute ["git"; "status"; "--porcelain"] (snd branch) in
  let root := Py.strip (GitDeploy.stdout (fst toplevel)) in
  let deploy := GitDeploy.main execute path_exists glob_logs read_text write_text
                  strftime_now isoformat_now getcwd t in
  GitDeploy.returncode (fst toplevel) = 0%Z ->
  GitDeploy.returncode (fst branch) = 0%Z ->
  GitDeploy.returncode (fst status) = 0%Z ->
  Py.strip (GitDeploy.stdout (fst status)) <> EmptyString ->
  GitDeploy.parse_status_lines GitDeploy.no_changes
    (Py.split (Py.strip (GitDeploy.stdout (fst status))) Py.LF) = Some c ->
  (forall d,
     In d (GitDeploy.possible_dirs
             {| GitDeploy.repo_root := root; GitDeploy.changes := GitDeploy.no_changes;
                GitDeploy.claude_analysis := None; GitDeploy.current_branch := None;
                GitDeploy.deployment_info := None |}
             (getcwd (snd status))) ->
     path_exists d (snd status) = false) ->
  fst deploy = SysExit 1
  /\ GitDeploy.calls (snd deploy)
     = GitDeploy.calls t
       ++ [ ["git"; "rev-parse"; "--show-toplevel"]; ["git"; "branch"; "--show-current"];
            ["git"; "status"; "--porcelain"] ]
  /\ GitDeploy.world (snd deploy) = snd status.
Proof.
  exact (no_log_no_commit_run execute path_exists glob_logs read_text write_text
           strftime_now isoformat_now getcwd t c).
Qed.

Lemma no_log_no_commit_witness :
  fst (Sim.main Scenes.no_logs) = SysExit 1
  /\ GitDeploy.calls (snd (Sim.main Scenes.no_logs))
     = [] ++ [ ["git"; "rev-parse"; "--show-toplevel"]; ["git"; "branch"; "--show-current"];
               ["git"; "status"; "--porcelain"] ]
  /\ GitDeploy.world (snd (Sim.main Scenes.no_logs)) = Scenes.no_logs.
Proof.
  apply (no_log_no_commit Sim.execute Sim.path_exists Sim.glob_logs Sim.read_text
           Sim.set_text Sim.strftime_now Sim.isoformat_now Sim.getcwd
           (Sim.start Scenes.no_logs)
           {| GitDeploy.added := []; GitDeploy.modified := ["app.py"];
              GitDeploy.deleted := []; GitDeploy.untracked := [] |});
    try reflexivity.
  - vm_compute. discriminate.
  - intros d Hd. vm_compute in Hd.
    repeat (destruct Hd as [<- | Hd]; [reflexivity|]). contradiction.
Defined.

(* --------------------------------------------------------------------- *)
(** ** A rejected push *)
(* --------------------------------------------------------------------- *)

(** X23. A failing [git push] ends the script with status 1 from inside
    [_run_command]: the [except Exception] handler of [run] around the
    push is passed by (no [Push failed] message, whatever the handler
    is), and the repository is as the failed push left it. *)
Theorem push_failure_not_caught {World : Type}
    (execute : list string -> World -> GitDeploy.CompletedProcess * World)
    (self : GitDeploy.Script) (b : string) (t : GitDeploy.Trace)
    (handler : string -> GitDeploy.M unit) :
  let query := execute (GitDeploy.upstream_query b) (GitDeploy.world t) in
  let push := execute ["git"; "push"] (snd query) in
  let body :=
    @GitDeploy.M_bind World unit unit
      (fun _ => GitDeploy.print (Py.LF +:+ "[+] Deployment completed successfully!"))
      (GitDeploy.push_to_remote execute self) in
  GitDeploy.current_branch self = Some (Some b) ->
  Py.strip (GitDeploy.stdout (fst query)) <> EmptyString ->
  GitDeploy.returncode (fst push) <> 0%Z ->
  fst (GitDeploy.try_except body handler t) = GitDeploy.Exit 1
  /\ GitDeploy.calls (snd (GitDeploy.try_except body handler t))
     = GitDeploy.calls t ++ [GitDeploy.upstream_query b; ["git"; "push"]]
  /\ GitDeploy.printed (snd (GitDeploy.try_except body handler t))
     = GitDeploy.printed t
       ++ [ Py.LF +:+ "[*] Pushing to remote...";
            "Error running command: git push";
            "Error: " +:+ GitDeploy.stderr (fst push) ]
  /\ GitDeploy.world (snd (GitDeploy.try_except body handler t)) = snd push.
Proof.
  intros query push body Hb Hup Hfail. subst query push body.
  unfold GitDeploy.try_except, GitDeploy.M_bind, GitDeploy.push_to_remote.
  rewrite Hb. step. rewrite run_command_unchecked.
  cbn [GitDeploy.fmt GitDeploy.truthy]. fold (GitDeploy.upstream_query b).
  unfold GitDeploy.answer. cbn [GitDeploy.world].
  apply String.eqb_neq in Hup. rewrite !Hup. cbn [negb].
  rewrite !run_command_checked_fail by exact Hfail.
  unfold GitDeploy.say, GitDeploy.after, GitDeploy.answer.
  cbn [fst snd GitDeploy.world GitDeploy.calls GitDeploy.printed].
  rewrite <- !app_assoc. repeat split.
Qed.

Lemma push_failure_not_caught_witness :
  let t := Sim.start (Sim.repo EmptyString (Some "origin/main") [] [] Sim.login_log) in
  let body :=
    @GitDeploy.M_bind Sim.World unit unit
      (fun _ => GitDeploy.print (Py.LF +:+ "[+] Deployment completed successfully!"))
      (GitDeploy.push_to_remote Scenes.execute_rejecting
         (Sim.script GitDeploy.no_changes None)) in
  let handler := fun e : string => GitDeploy.print (Py.LF +:+ "[!] Push failed: " +:+ e) in
  fst (GitDeploy.try_except body handler t) = GitDeploy.Exit 1
  /\ GitDeploy.calls (snd (GitDeploy.try_except body handler t))
     = GitDeploy.calls t ++ [GitDeploy.upstream_query "main"; ["git"; "push"]]
  /\ GitDeploy.printed (snd (GitDeploy.try_except body handler t))
     = GitDeploy.printed t
       ++ [ Py.LF +:+ "[*] Pushing to remote...";
            "Error running command: git push";
            "Error: ! [rejected] main -> main (fetch first)" ]
  /\ GitDeploy.world (snd (GitDeploy.try_except body handler t)) = GitDeploy.world t.
Proof.
  apply (push_failure_not_caught Scenes.execute_rejecting
           (Sim.script GitDeploy.no_changes None) "main"
           (Sim.start (Sim.repo EmptyString (Some "origin/main") [] [] Sim.login_log))).
  - reflexivity.
  - vm_compute. discriminate.
  - vm_compute. discriminate.
Defined.

Example rejected_push_run :
  let '(ended, t) :=
    Scenes.main_rejecting
      (Sim.repo ("M  app.py" +:+ Py.LF) (Some "origin/main") ["app.py"] ["app.py"]
         Sim.login_log) in
  ended = SysExit 1
  /\ map Py.first_line (Sim.commits (GitDeploy.world t)) = ["Deployment 42: Fix login bug"]
  /\ ~ In (Py.LF +:+ "[!] Push failed: ") (map (Py.take 18) (GitDeploy.printed t)).
Proof. vm_compute. repeat split. intuition discriminate. Qed.

(* --------------------------------------------------------------------- *)
(** ** What the script runs, and how it ends *)
(* --------------------------------------------------------------------- *)

Section Conduct.

Context {World : Type}.
Variable execute : list string -> World -> GitDeploy.CompletedProcess * World.
Variable path_exists : string -> World -> bool.
Variable glob_logs : string -> World -> list (string * Z).
Variable read_text : string -> World -> option string.
Variable write_text : string -> string -> World -> World.
Variable strftime_now : string -> World -> string.
Variable isoformat_now : World -> string.
Variable getcwd : World -> string.

(** The commands a step may run. *)
Variable allowed : list string -> Prop.

Lemma behaves_ret {A : Type} (a : A) : Conduct.behaves allowed (@GitDeploy.M_ret World A a).
Proof.
  intros t. split; [|exact I]. exists []. split; [now rewrite app_nil_r | constructor].
Qed.

Lemma behaves_bind {A B : Type} (f : A -> @GitDeploy.M World B) (m : @GitDeploy.M World A) :
  Conduct.behaves allowed m -> (forall a, Conduct.behaves allowed (f a)) ->
  Conduct.behaves allowed (@GitDeploy.M_bind World A B f m).
Proof.
  intros Hm Hf t. unfold GitDeploy.M_bind. destruct (Hm t) as [(e1 & Hc1 & Hp1) Hx].
  destruct (m t) as [[a|code|exc] t1]; cbn [fst snd] in *.
  - destruct (Hf a t1) as [(e2 & Hc2 & Hp2) Hy]. split; [|exact Hy].
    exists (e1 ++ e2). rewrite Hc2, Hc1, app_assoc. split; [reflexivity|].
    apply Forall_app. now split.
  - split; [now exists e1 | exact Hx].
  - split; [now exists e1 | exact I].
Qed.

Lemma behaves_quiet {A : Type} (m : @GitDeploy.M World A) :
  (forall t, GitDeploy.calls (snd (m t)) = GitDeploy.calls t) ->
  (forall t, match fst (m t) with GitDeploy.Exit code => code = 1%Z | _ => True end) ->
  Conduct.behaves allowed m.
Proof.
  intros Hc Hx t. split; [|apply Hx]. exists []. rewrite Hc, app_nil_r.
  split; [reflexivity | constructor].
Qed.

Lemma behaves_print (line : string) : Conduct.behaves allowed (@GitDeploy.print World line).
Proof. apply behaves_quiet; intros t; [reflexivity | exact I]. Qed.

Lemma behaves_ask {A : Type} (q : World -> A) :
  Conduct.behaves allowed (GitDeploy.ask q).
Proof. apply behaves_quiet; intros t; [reflexivity | exact I]. Qed.

Lemma behaves_modify (f : World -> World) :
  Conduct.behaves allowed (GitDeploy.modify_world f).
Proof. apply behaves_quiet; intros t; [reflexivity | exact I]. Qed.

Lemma behaves_raise {A : Type} (exc : string) :
  Conduct.behaves allowed (@GitDeploy.raise World A exc).
Proof. apply behaves_quiet; intros t; [reflexivity | exact I]. Qed.

Lemma behaves_exit {A : Type} : Conduct.behaves allowed (@GitDeploy.sys_exit World A 1).
Proof. apply behaves_quiet; intros t; reflexivity. Qed.

Lemma behaves_run (cmd : list string) (check : bool) :
  allowed cmd -> Conduct.behaves allowed (GitDeploy._run_command execute cmd check).
Proof.
  intros Hcmd t. split.
  - exists [cmd]. split; [|now repeat constructor]. destruct check.
    + apply run_command_checked_calls.
    + now rewrite run_command_unchecked.
  - destruct check.
    + destruct (Z.eq_dec (GitDeploy.returncode (GitDeploy.answer execute cmd t)) 0%Z)
        as [H|H].
      * now rewrite run_command_checked_ok.
      * now rewrite run_command_checked_fail.
    + now rewrite run_command_unchecked.
Qed.

Lemma behaves_for_each {A : Type} (l : list A) (body : A -> @GitDeploy.M World unit) :
  (forall x, Conduct.behaves allowed (body x)) ->
  Conduct.behaves allowed (GitDeploy.for_each l body).
Proof.
  intros H. induction l as [|x l IH]; cbn [GitDeploy.for_each].
  - apply behaves_ret.
  - apply behaves_bind; [apply H | intros _; exact IH].
Qed.

Lemma behaves_try {A : Type} (body : @GitDeploy.M World A)
    (handler : string -> @GitDeploy.M World A) :
  Conduct.behaves allowed body -> (forall e, Conduct.behaves allowed (handler e)) ->
  Conduct.behaves allowed (GitDeploy.try_except body handler).
Proof.
  intros Hb Hh t. unfold GitDeploy.try_except.
  destruct (Hb t) as [(e1 & Hc1 & Hp1) Hx].
  destruct (body t) as [[a|code|exc] t1]; cbn [fst snd] in *.
  - split; [now exists e1 | exact I].
  - split; [now exists e1 | exact Hx].
  - destruct (Hh exc t1) as [(e2 & Hc2 & Hp2) Hy]. split; [|exact Hy].
    exists (e1 ++ e2). rewrite Hc2, Hc1, app_assoc. split; [reflexivity|].
    apply Forall_app. now split.
Qed.

Lemma behaves_subprocess (cmd : list string) (check : bool) :
  allowed cmd -> Conduct.behaves allowed (GitDeploy.subprocess_run execute cmd check).
Proof.
  intros Hcmd t. unfold GitDeploy.subprocess_run.
  destruct (execute cmd (GitDeploy.world t)) as [r w].
  split.
  - exists [cmd]. split; [|now repeat constructor].
    now destruct (check && negb (GitDeploy.returncode r =? 0)%Z).
  - now destruct (check && negb (GitDeploy.returncode r =? 0)%Z).
Qed.

End Conduct.

(** Decompose a step of the script into its parts. *)
Ltac conduct :=
  repeat first
    [ apply behaves_run
    | apply behaves_subprocess
    | apply behaves_ret
    | apply behaves_print
    | apply behaves_ask
    | apply behaves_modify
    | apply behaves_raise
    | apply behaves_exit
    | apply behaves_bind; [|intros ?]
    | apply behaves_for_each; intros ?
    | apply behaves_try; [|intros ?]
    | match goal with
      | |- Conduct.behaves _ (match ?x with _ => _ end) => destruct x
      | |- Conduct.behaves _ (if ?b then _ else _) => destruct b
      end ].

(** Close the goals about single commands. *)
Ltac allowed_command :=
  unfold Conduct.script_command, Conduct.staging_command; eauto 12.

Ltac conduct_all := unfold mbind, mret; conduct; try allowed_command.

Lemma stage_changes_behaves {World : Type}
    (execute : list string -> World -> GitDeploy.CompletedProcess * World)
    (path_exists : string -> World -> bool) (self : GitDeploy.Script) :
  Conduct.behaves Conduct.staging_command
    (GitDeploy.stage_changes execute path_exists self).
Proof.
  unfold GitDeploy.stage_changes, GitDeploy.stage_path, GitDeploy.stage_removal.
  conduct_all.
Qed.

(** X24. Whatever the change set and the state of the repository, the
    staging step runs nothing but [git add], [git ls-files
    --error-unmatch] and [git rm --cached] on single paths, and when it
    leaves the process it does so with status 1. *)
Theorem stage_changes_only_stages {World : Type}
    (execute : list string -> World -> GitDeploy.CompletedProcess * World)
    (path_exists : string -> World -> bool) (self : GitDeploy.Script)
    (t : GitDeploy.Trace) :
  let r := GitDeploy.stage_changes execute path_exists self t in
  (exists extra,
     GitDeploy.calls (snd r) = GitDeploy.calls t ++ extra
     /\ Forall Conduct.staging_command extra)
  /\ (forall code, fst r = GitDeploy.Exit code -> code = 1%Z).
Proof.
  cbn zeta. destruct (stage_changes_behaves execute path_exists self t) as [Hc Hx].
  split; [exact Hc|]. intros code E. now rewrite E in Hx.
Qed.

Lemma script_behaves {World : Type}
    (execute : list string -> World -> GitDeploy.CompletedProcess * World)
    (path_exists : string -> World -> bool)
    (glob_logs : string -> World -> list (string * Z))
    (read_text : string -> World -> option string)
    (write_text : string -> string -> World -> World)
    (strftime_now : string -> World -> string)
    (isoformat_now getcwd : World -> string) :
  Conduct.behaves Conduct.script_command
    (GitDeploy.M_bind _ _
       (GitDeploy.run execute path_exists glob_logs read_text write_text strftime_now
          isoformat_now getcwd)
       (GitDeploy.init execute)).
Proof.
  unfold GitDeploy.init, GitDeploy._find_git_root, GitDeploy.run,
    GitDeploy.check_git_status, GitDeploy.analyze_with_deployment_log,
    GitDeploy.get_latest_deployment_file, GitDeploy.parse_deployment_file,
    GitDeploy.stage_changes, GitDeploy.stage_path, GitDeploy.stage_removal,
    GitDeploy.update_gitignore, GitDeploy.create_deployment_commit,
    GitDeploy.push_to_remote.
  conduct_all.
Qed.

(** X25. Whatever the repository and the file system do, the deployment
    script ends with status 0 or 1 (an exception raised by one of its
    steps is turned into status 1 by the handler of [main]), and every
    command it has run is one of: the three queries at the start,
    the staging commands, [git commit -m], the upstream query and the two
    forms of push. *)
Theorem deploy_script_conduct {World : Type}
    (execute : list string -> World -> GitDeploy.CompletedProcess * World)
    (path_exists : string -> World -> bool)
    (glob_logs : string -> World -> list (string * Z))
    (read_text : string -> World -> option string)
    (write_text : string -> string -> World -> World)
    (strftime_now : string -> World -> string)
    (isoformat_now getcwd : World -> string)
    (t : GitDeploy.Trace) :
  let deploy := GitDeploy.main execute path_exists glob_logs read_text write_text
                  strftime_now isoformat_now getcwd t in
  (fst deploy = Returned \/ fst deploy = SysExit 1)
  /\ exists extra,
       GitDeploy.calls (snd deploy) = GitDeploy.calls t ++ extra
       /\ Forall Conduct.script_command extra.
Proof.
  cbn zeta. unfold GitDeploy.main, GitDeploy.try_except.
  destruct (script_behaves execute path_exists glob_logs read_text write_text
              strftime_now isoformat_now getcwd t) as [(extra & Hc & Hp) Hx].
  unfold mbind.
  destruct (GitDeploy.M_bind _ _ _ _ t) as [[a|code|exc] t1]; cbn [fst snd] in *.
  - split; [now left | now exists extra].
  - subst code. split; [now right | now exists extra].
  - split; [now right|]. exists extra. split; [exact Hc | exact Hp].
Qed.

(* --------------------------------------------------------------------- *)
(** ** Staging paths that are gone *)
(* --------------------------------------------------------------------- *)

(** Two paths listed by the status, both gone from the disk since. *)
Lemma stage_changes_all_missing_witness :
  let self :=
    Sim.script {| GitDeploy.added := ["new.py"]; GitDeploy.modified := ["app.py"];
                  GitDeploy.deleted := []; GitDeploy.untracked := [] |} None in
  let t := Sim.start (Sim.repo EmptyString None [] ["app.py"] Sim.login_log) in
  fst (GitDeploy.stage_changes Sim.execute Sim.path_exists self t) = GitDeploy.Ok tt
  /\ GitDeploy.calls (snd (GitDeploy.stage_changes Sim.execute Sim.path_exists self t))
     = GitDeploy.calls t
  /\ forall p,
       In p (["app.py"] ++ ["new.py"] ++ []) ->
       In (GitDeploy.warning p)
          (GitDeploy.printed
             (snd (GitDeploy.stage_changes Sim.execute Sim.path_exists self t))).
Proof.
  apply (stage_changes_all_missing Sim.execute Sim.path_exists
           (Sim.script {| GitDeploy.added := ["new.py"]; GitDeploy.modified := ["app.py"];
                          GitDeploy.deleted := []; GitDeploy.untracked := [] |} None)
           (Sim.start (Sim.repo EmptyString None [] ["app.py"] Sim.login_log))).
  - reflexivity.
  - intros p Hp. cbn in Hp.
    repeat (destruct Hp as [<- | Hp]; [reflexivity|]). contradiction.
Defined.

(* --------------------------------------------------------------------- *)
(** ** The text written to .gitignore *)
(* --------------------------------------------------------------------- *)

Lemma startswith_refl_app (a b : string) : Py.startswith (a +:+ b) a = true.
Proof.
  induction a as [|c a IH]; [reflexivity|].
  rewrite append_cons. cbn [Py.startswith]. now rewrite Ascii.eqb_refl, IH.
Qed.

Lemma startswith_trans_app (a b c : string) :
  Py.startswith b a = true -> Py.startswith (b +:+ c) a = true.
Proof.
  revert b. induction a as [|x a IH]; intros b H; [reflexivity|].
  destruct b as [|y b]; [discriminate|]. rewrite append_cons.
  cbn [Py.startswith] in *. apply andb_true_iff in H as [H1 H2].
  now rewrite H1, (IH b H2).
Qed.

Lemma contains_app_l (k a b : string) :
  Py.contains k a = true -> Py.contains k (a +:+ b) = true.
Proof.
  induction a as [|c a IH]; intros H.
  - cbn [Py.contains] in H. destruct k; [|discriminate].
    rewrite append_nil. destruct b; reflexivity.
  - rewrite append_cons. cbn [Py.contains] in *.
    apply orb_true_iff in H as [H | H]; apply orb_true_iff.
    + left. exact (startswith_trans_app k (String c a) b H).
    + right. now apply IH.
Qed.

Section GitignoreText.

Let extend (content pattern : string) : string :=
  if negb (Py.contains pattern content) then content +:+ pattern +:+ Py.LF else content.

Lemma gitignore_fold_prefix (patterns : list string) (start content : string) :
  Py.startswith content start = true ->
  Py.startswith (fold_left extend patterns content) start = true.
Proof.
  revert content. induction patterns as [|p patterns IH]; intros content H; [exact H|].
  cbn [fold_left]. apply IH. unfold extend.
  destruct (negb (Py.contains p content)); [|exact H].
  now apply startswith_trans_app.
Qed.

Lemma gitignore_fold_keeps (patterns : list string) (k content : string) :
  Py.contains k content = true ->
  Py.contains k (fold_left extend patterns content) = true.
Proof.
  revert content. induction patterns as [|p patterns IH]; intros content H; [exact H|].
  cbn [fold_left]. apply IH. unfold extend.
  destruct (negb (Py.contains p content)); [|exact H].
  now apply contains_app_l.
Qed.

Lemma gitignore_fold_contains (patterns : list string) (k content : string) :
  In k patterns -> Py.contains k (fold_left extend patterns content) = true.
Proof.
  revert content. induction patterns as [|p patterns IH]; intros content Hin;
    [contradiction|].
  cbn [fold_left]. destruct Hin as [-> | Hin]; [|now apply IH].
  apply gitignore_fold_keeps. unfold extend.
  destruct (Py.contains k content) eqn:E; cbn [negb]; [exact E|].
  apply contains_at. apply startswith_refl_app.
Qed.

End GitignoreText.

(** X27. The text [update_gitignore] writes back only grows the file: it
    starts with the old content, and every suggested pattern occurs in
    it, either because it was there already (anywhere, as a substring)
    or because it has been added as a line.  With no suggested pattern
    the content is written back unchanged. *)
Theorem gitignore_text_appends (content : string) (patterns : list string) (day : string) :
  Py.startswith (GitDeploy.gitignore_text content patterns day) content = true
  /\ (forall pattern, In pattern patterns ->
        Py.contains pattern (GitDeploy.gitignore_text content patterns day) = true)
  /\ GitDeploy.gitignore_text content [] day = content.
Proof.
  assert (Hself : Py.startswith content content = true).
  { induction content as [|c s IH]; [reflexivity|].
    cbn [Py.startswith]. now rewrite Ascii.eqb_refl, IH. }
  repeat split.
  - unfold GitDeploy.gitignore_text. destruct patterns as [|p patterns]; [exact Hself|].
    apply gitignore_fold_prefix. apply startswith_trans_app.
    destruct (negb (String.eqb content EmptyString) && negb (Py.endswith content Py.LF));
      [apply startswith_refl_app | exact Hself].
  - intros pattern Hin. unfold GitDeploy.gitignore_text.
    destruct patterns as [|p patterns]; [contradiction|].
    now apply gitignore_fold_contains.
Qed.

Example gitignore_text_example :
  GitDeploy.gitignore_text ("*.log" +:+ Py.LF +:+ "build") ["*.log"; ".env"] "2025-01-01"
  = "*.log" +:+ Py.LF +:+ "build" +:+ Py.LF +:+ Py.LF
    +:+ "# Added by automated deployment - 2025-01-01" +:+ Py.LF
    +:+ ".env" +:+ Py.LF.
Proof. reflexivity. Qed.
